(** * Prediction, caching and rule-based optimization pipeline of the
      carbon-capture AI engine: a shallow embedding and its properties.

    Embedded sources (all under [ai-engine/src]):
    - [prediction/prediction_service.py]    ([PredictionService])
    - [optimization/optimization_service.py] ([OptimizationService])
    - [models/optimization_model.py]         ([CarbonCaptureOptimizer])

    Conventions of the embedding.
    - Python numbers are kept as rationals ([Q]): every [int] and every
      finite [float] is one.  Arithmetic on them is exact, so a number of a
      result (a saving, a confidence, a date) is the exact value of the
      expression in the source, from which binary64 can differ in the last
      place; nothing below is stated about those last digits.  Where the
      rounding decides what the program does, in the priority score that
      orders the recommendations, the computation is on primitive floats.
    - A reading maps each of its fields to a number.  The value [None]
      for a field is outside the embedding, so a test such as
      [sensor_data[field] is not None] holds for every field present.
    - A Python [dict] whose iteration order matters is an insertion-ordered
      association list with distinct keys ([Dict]); the prediction cache,
      which is only looked up, inserted into and filtered, is a [gmap].
    - Result dictionaries are heap objects: the cache and the caller hold
      references ([loc]) to the same object, so a later item assignment is
      seen through both.
    - Effects (wall clock, cache, heap, executor submissions) are threaded
      through a state-and-exception monad [M]; an exception keeps the state
      reached when it was raised, as in Python.
    - Coroutines run on one event loop.  A coroutine awaited on its own
      runs to its end.  Under [asyncio.gather] the two predictions of a
      unit run step by step, a step ending at the await of the pool; a
      call handed to the pool whose [gather] has failed meanwhile is
      recorded as in flight, and what happens when the pool completes it
      is outside the embedding.
    - Logging is not modelled. *)

From Stdlib Require Import QArith Qabs ZArith Lia Lqa Permutation Sorted.
From Stdlib Require Floats.
Import PrimFloat.PrimFloatNotations.
From stdpp Require Import gmap strings pretty list fin_maps.

(** ** Python basics *)

Module Py.

(** Exceptions that the embedded code raises or lets through. *)
Inductive Exn : Type :=
| ValueError (msg : string)
| KeyError (key : string)
| IndexError (msg : string)
| AttributeError (msg : string)
| TypeError (msg : string)
| ZeroDivisionError (msg : string)
| EstimatorError (msg : string).

(** [str(e)] *)
Definition exn_str (e : Exn) : string :=
  match e with
  | ValueError m => m
  | KeyError k => "'" +:+ k +:+ "'"
  | IndexError m => m
  | AttributeError m => m
  | TypeError m => m
  | ZeroDivisionError m => m
  | EstimatorError m => m
  end.

Abbreviation Res A := (Exn + A)%type.

(** Insertion-ordered dictionary with string keys. *)
Definition Dict (V : Type) : Type := list (string * V).

Fixpoint dict_lookup {V} (k : string) (d : Dict V) : option V :=
  match d with
  | [] => None
  | (k', v) :: d' => if String.eqb k k' then Some v else dict_lookup k d'
  end.

(** [k in d] *)
Definition dict_in {V} (k : string) (d : Dict V) : bool :=
  match dict_lookup k d with Some _ => true | None => false end.

(** [d.get(k, dflt)] *)
Definition dict_get {V} (k : string) (dflt : V) (d : Dict V) : V :=
  match dict_lookup k d with Some v => v | None => dflt end.

Definition keys {V} (d : Dict V) : list string := map fst d.

(** Comparisons on numbers, as booleans. *)
Definition Qltb (a b : Q) : bool := negb (Qle_bool b a).
Definition Qgtb (a b : Q) : bool := Qltb b a.

(** [min(a, b)] and [max(a, b)] return the first argument on a tie. *)
Definition min (a b : Q) : Q := if Qltb b a then b else a.
Definition max (a b : Q) : Q := if Qltb a b then b else a.

(** Binary64.  [float_of q] is the [float] nearest to the number [q]: what
    a decimal literal denotes, and what an [int] becomes when it meets a
    [float] in arithmetic (numerator and denominator are converted exactly
    below 2^53, and the division is correctly rounded).  [float_value] is
    the rational that a finite [float] is. *)
Definition float_of_Z (z : Z) : PrimFloat.float :=
  FloatOps.SF2Prim (SpecFloat.binary_normalize FloatOps.prec FloatOps.emax z 0 false).

Definition float_of (q : Q) : PrimFloat.float :=
  PrimFloat.div (float_of_Z (Qnum q)) (float_of_Z (Zpos (Qden q))).

Definition float_value (f : PrimFloat.float) : option Q :=
  match FloatOps.Prim2SF f with
  | SpecFloat.S754_zero _ => Some 0%Q
  | SpecFloat.S754_finite sign m e =>
      Some (inject_Z (if sign then Zneg m else Zpos m) * Qpower 2 e)%Q
  | _ => None
  end.

(** [s.lower()] on ASCII letters, and [sub in s]. *)
Definition lower_ascii (c : Ascii.ascii) : Ascii.ascii :=
  let n := Ascii.nat_of_ascii c in
  if (Nat.leb 65 n && Nat.leb n 90)%bool then Ascii.ascii_of_nat (n + 32) else c.

Fixpoint lower (s : string) : string :=
  match s with
  | EmptyString => EmptyString
  | String c s' => String (lower_ascii c) (lower s')
  end.

Fixpoint contains (sub s : string) : bool :=
  if String.prefix sub s then true
  else match s with
       | EmptyString => false
       | String _ s' => contains sub s'
       end.

(** [sorted(l, key=..., reverse=...)] is a stable sort.  [before a b] says
    that [a] has to come strictly before [b]; elements that are not ordered
    by [before] keep their relative order. *)
Section Sorted.
Context {A : Type} (before : A -> A -> bool).

Fixpoint insert_stable (x : A) (l : list A) : list A :=
  match l with
  | [] => [x]
  | y :: l' => if before y x then y :: insert_stable x l' else x :: l
  end.

Definition sorted (l : list A) : list A := foldr insert_stable [] l.
End Sorted.

End Py.

(** ** Values, environment and the service state *)

(** Values found in operational and energy data ([Dict[str, Any]]): numbers,
    booleans and lists of numbers (the default [peak_hours]). *)
Inductive Value : Type :=
| VNum (q : Q)
| VBool (b : bool)
| VList (l : list Q).

(** A sensor reading maps field names to numbers. *)
Abbreviation Reading := (Py.Dict Q).

(** What the embedded code takes from its surroundings. *)
Record Env : Type := {
  clk : nat -> Q;              (* successive readings of the wall clock, seconds *)
  hour_of : Q -> Z;            (* the hour of day of a clock reading *)
  py_hash : string -> Z;       (* hash() of a str, fixed within the process *)
  str_num : Q -> string;       (* repr of a number *)
  json_str : string -> string; (* JSON encoding of a str *)
  py_round2 : Q -> Q;          (* round(x, 2) *)
}.

(** A number used in arithmetic: [bool] is a subclass of [int]; a list is
    not a number. *)
Definition as_num (v : Value) : Py.Res Q :=
  match v with
  | VNum q => inr q
  | VBool b => inr (if b then 1 else 0)%Q
  | VList _ => inl (Py.TypeError "unsupported operand type(s)")
  end.

(** *** Result dictionaries *)

Record Suggestion : Type := {
  sg_title : string;
  sg_co2Increase : Q;
  sg_energySavings : Q;
  sg_priority : string;
}.

Record Alert : Type := {
  alertType : string;
  message : string;
  probability : Q;
  severity : string;
}.

Record EfficiencyResult : Type := {
  predicted_efficiency : Q;
  current_efficiency : Q;
  optimization_suggestions : list Suggestion;
  eff_model_version : string;
  confidence_score : Q;
  eff_timestamp : Q;
}.

Record MaintenanceResult : Type := {
  maintenance_score : Q;
  alerts : list Alert;
  next_maintenance_date : Q;
  mnt_risk_level : string;
  mnt_model_version : string;
  mnt_timestamp : Q;
}.

Record EnergyResult : Type := {
  energy_savings : Q;
  cost_savings : Q;
  renewable_usage : Q;
  recommendations : list string;
  current_energy_consumption : Q;
  optimization_potential : Q;
  en_timestamp : Q;
}.

Inductive Payload : Type :=
| PEff (r : EfficiencyResult)
| PMaint (r : MaintenanceResult)
| PEnergy (r : EnergyResult).

(** A result dictionary on the heap: the keys written by the optimizer, and
    the key ['processing_time_ms'] that the service adds afterwards. *)
Record Obj : Type := {
  payload : Payload;
  processing_time_ms : option Q;
}.

Abbreviation loc := nat.

(** [{'data': result, 'timestamp': time.time()}] *)
Record CacheEntry : Type := {
  data : loc;
  timestamp : Q;
}.

(** A unit of a batch or of a network: a dictionary that may or may not
    carry the keys ['unit_id'] and ['sensor_data']. *)
Record UnitData : Type := {
  unit_id : option string;
  sensor_data : option Reading;
}.

(** A trained estimator together with the fitted preprocessing: from a
    reading to the predicted number, or the exception it raises. *)
Abbreviation Model := (Reading -> Py.Res Q).

(** A call that was handed to the pool and whose coroutine is suspended on
    the future: the method, its request, and the [start_time] that the
    coroutine took. *)
Record InFlight : Type := {
  awaited_call : string;
  awaited_reading : Reading;
  awaited_since : Q;
}.

Record State : Type := {
  models : gmap string Model;                 (* optimizer.models *)
  model_version : string;
  cache_enabled : bool;
  cache_ttl : Q;
  prediction_cache : gmap string CacheEntry;
  heap : gmap loc Obj;
  next_loc : loc;
  tick : nat;                                 (* clock readings taken so far *)
  submitted : list string;                    (* calls handed to self.executor *)
  in_flight : list InFlight;                  (* suspended calls that nobody awaits *)
}.

Definition set_cache (c : gmap string CacheEntry) (s : State) : State :=
  {| models := models s; model_version := model_version s;
     cache_enabled := cache_enabled s; cache_ttl := cache_ttl s;
     prediction_cache := c; heap := heap s; next_loc := next_loc s;
     tick := tick s; submitted := submitted s;
     in_flight := in_flight s |}.

Definition set_heap (h : gmap loc Obj) (n : loc) (s : State) : State :=
  {| models := models s; model_version := model_version s;
     cache_enabled := cache_enabled s; cache_ttl := cache_ttl s;
     prediction_cache := prediction_cache s; heap := h; next_loc := n;
     tick := tick s; submitted := submitted s;
     in_flight := in_flight s |}.

Definition set_tick (n : nat) (s : State) : State :=
  {| models := models s; model_version := model_version s;
     cache_enabled := cache_enabled s; cache_ttl := cache_ttl s;
     prediction_cache := prediction_cache s; heap := heap s;
     next_loc := next_loc s; tick := n; submitted := submitted s;
     in_flight := in_flight s |}.

Definition set_submitted (l : list string) (s : State) : State :=
  {| models := models s; model_version := model_version s;
     cache_enabled := cache_enabled s; cache_ttl := cache_ttl s;
     prediction_cache := prediction_cache s; heap := heap s;
     next_loc := next_loc s; tick := tick s; submitted := l;
     in_flight := in_flight s |}.

Definition set_in_flight (l : list InFlight) (s : State) : State :=
  {| models := models s; model_version := model_version s;
     cache_enabled := cache_enabled s; cache_ttl := cache_ttl s;
     prediction_cache := prediction_cache s; heap := heap s;
     next_loc := next_loc s; tick := tick s; submitted := submitted s;
     in_flight := l |}.

(** *** The monad of the embedding *)

Definition M (A : Type) : Type := State -> Py.Res A * State.

Definition ret {A} (a : A) : M A := fun s => (inr a, s).
Definition raise {A} (e : Py.Exn) : M A := fun s => (inl e, s).
Definition bind {A B} (m : M A) (k : A -> M B) : M B :=
  fun s => match m s with
           | (inr a, s') => k a s'
           | (inl e, s') => (inl e, s')
           end.
Definition lift {A} (r : Py.Res A) : M A := fun s => (r, s).
Definition get_state : M State := fun s => (inr s, s).
Definition modify (f : State -> State) : M unit := fun s => (inr tt, f s).

Declare Scope py_scope.
Delimit Scope py_scope with py.
Notation "x <- m ;; k" := (bind m (fun x => k))
  (at level 100, m at next level, right associativity) : py_scope.
Notation "m ;;; k" := (bind m (fun _ => k))
  (at level 100, right associativity) : py_scope.
Local Open Scope py_scope.

(** [time.time()] and [datetime.now()] read the wall clock. *)
Definition time_time (env : Env) : M Q :=
  fun s => (inr (clk env (tick s)), set_tick (S (tick s)) s).

Definition datetime_now_hour (env : Env) : M Z :=
  t <- time_time env ;; ret (hour_of env t).

(** A dictionary literal creates a fresh object. *)
Definition alloc (p : Payload) : M loc :=
  fun s => (inr (next_loc s),
            set_heap (<[next_loc s := {| payload := p; processing_time_ms := None |}]> (heap s))
                     (S (next_loc s)) s).

(** [result['processing_time_ms'] = t] *)
Definition set_processing_time (l : loc) (t : Q) : M unit :=
  modify (fun s => set_heap (alter (fun o => {| payload := payload o;
                                                processing_time_ms := Some t |}) l (heap s))
                            (next_loc s) s).

(** ** [CarbonCaptureOptimizer] (models/optimization_model.py) *)

Module Optimizer.
Local Open Scope Q_scope.

Definition _generate_efficiency_suggestions (sensor_data : Reading) (prediction : Q)
  : list Suggestion :=
  let temperature := Py.dict_get "temperature" 25 sensor_data in
  let pressure := Py.dict_get "pressure" 50 sensor_data in
  let flow_rate := Py.dict_get "flow_rate" 1000 sensor_data in
  (if Py.Qgtb temperature 30
   then [ {| sg_title := "Temperature Optimization";
             sg_co2Increase := 52 # 10; sg_energySavings := 255 # 10;
             sg_priority := if Py.Qgtb temperature 35 then "high" else "medium" |} ]
   else [])
  ++ (if Py.Qgtb pressure 60
      then [ {| sg_title := "Pressure Optimization";
                sg_co2Increase := 31 # 10; sg_energySavings := 187 # 10;
                sg_priority := "medium" |} ]
      else [])
  ++ (if Py.Qgtb flow_rate 1500
      then [ {| sg_title := "Flow Rate Optimization";
                sg_co2Increase := 28 # 10; sg_energySavings := 153 # 10;
                sg_priority := "low" |} ]
      else []).

(** A field that is present holds a number, so [field in sensor_data and
    sensor_data[field] is not None] is [field in sensor_data]. *)
Definition _calculate_confidence_score (sensor_data : Reading) : Q :=
  let required_fields := ["temperature"; "pressure"; "flow_rate"; "energy_consumption"] in
  let available_fields :=
    length (filter (fun field => Py.dict_in field sensor_data = true) required_fields) in
  let base_confidence := (inject_Z (Z.of_nat available_fields) / 4)%Q in
  let base_confidence :=
    match Py.dict_lookup "data_quality" sensor_data with
    | Some quality => (base_confidence * (quality / 100))%Q
    | None => base_confidence
    end in
  Py.min base_confidence 1.

Definition _generate_maintenance_alerts (sensor_data : Reading) (maintenance_score : Q)
  : list Alert :=
  (if Py.Qgtb maintenance_score (8 # 10)
   then [ {| alertType := "critical";
             message := "Immediate maintenance required - high failure risk detected";
             probability := maintenance_score; severity := "critical" |} ]
   else if Py.Qgtb maintenance_score (6 # 10)
   then [ {| alertType := "warning";
             message := "Maintenance recommended within next 7 days";
             probability := maintenance_score; severity := "high" |} ]
   else if Py.Qgtb maintenance_score (4 # 10)
   then [ {| alertType := "info";
             message := "Schedule maintenance check within next 30 days";
             probability := maintenance_score; severity := "medium" |} ]
   else [])
  ++ (if Py.Qgtb (Py.dict_get "vibration" 0 sensor_data) 3
      then [ {| alertType := "warning";
                message := "Elevated vibration levels detected - motor inspection recommended";
                probability := 7 # 10; severity := "medium" |} ]
      else [])
  ++ (if Py.Qgtb (Py.dict_get "motor_current" 0 sensor_data) 20
      then [ {| alertType := "warning";
                message := "High motor current detected - electrical system check recommended";
                probability := 6 # 10; severity := "medium" |} ]
      else []).

(** Returns [datetime.now() + timedelta(days=...)], in seconds. *)
Definition _calculate_next_maintenance (env : Env) (sensor_data : Reading)
    (maintenance_score : Q) : M Q :=
  let base_days : Q := 90 in
  let days_to_maintenance : Q :=
    if Py.Qgtb maintenance_score (8 # 10) then 7
    else if Py.Qgtb maintenance_score (6 # 10) then 14
    else if Py.Qgtb maintenance_score (4 # 10) then 30
    else base_days in
  let unit_age := Py.dict_get "unit_age_days" 0 sensor_data in
  let days_to_maintenance :=
    if Py.Qgtb unit_age 1000 then Py.max (days_to_maintenance * (7 # 10)) 7
    else days_to_maintenance in
  let days_since_maintenance := Py.dict_get "maintenance_days_since" 0 sensor_data in
  let days_to_maintenance :=
    if Py.Qltb days_since_maintenance 30 then Py.max days_to_maintenance 60
    else days_to_maintenance in
  now <- time_time env ;;
  ret (now + days_to_maintenance * 86400)%Q.

Definition _calculate_risk_level (maintenance_score : Q) : string :=
  if Py.Qgtb maintenance_score (8 # 10) then "critical"
  else if Py.Qgtb maintenance_score (6 # 10) then "high"
  else if Py.Qgtb maintenance_score (4 # 10) then "medium"
  else "low".

(** The dictionary literal [result = {...}] of [predict_efficiency]. *)
Definition efficiency_result (sensor_data : Reading) (version : string)
    (prediction now : Q) : EfficiencyResult :=
  {| predicted_efficiency := prediction;
     current_efficiency := Py.dict_get "efficiency_current" 0 sensor_data;
     optimization_suggestions := _generate_efficiency_suggestions sensor_data prediction;
     eff_model_version := version;
     confidence_score := _calculate_confidence_score sensor_data;
     eff_timestamp := now |}.

(** [try: ... except Exception as e: log; raise] lets every exception
    through unchanged, so the handlers leave no trace in the embedding. *)
Definition predict_efficiency (env : Env) (sensor_data : Reading) : M loc :=
  s <- get_state ;;
  match models s !! "efficiency" with
  | None => raise (Py.ValueError "Efficiency model not trained. Please train the model first.")
  | Some model =>
      prediction <- lift (model sensor_data) ;;
      now <- time_time env ;;
      alloc (PEff (efficiency_result sensor_data (model_version s) prediction now))
  end.

Definition predict_maintenance (env : Env) (sensor_data : Reading) : M loc :=
  s <- get_state ;;
  match models s !! "maintenance" with
  | None => raise (Py.ValueError "Maintenance model not trained. Please train the model first.")
  | Some model =>
      maintenance_score <- lift (model sensor_data) ;;
      let alerts := _generate_maintenance_alerts sensor_data maintenance_score in
      next_maintenance <- _calculate_next_maintenance env sensor_data maintenance_score ;;
      now <- time_time env ;;
      alloc (PMaint {| maintenance_score := maintenance_score;
                       alerts := alerts;
                       next_maintenance_date := next_maintenance;
                       mnt_risk_level := _calculate_risk_level maintenance_score;
                       mnt_model_version := model_version s;
                       mnt_timestamp := now |})
  end.

(** [operational_data.get(k, dflt)] used as a number. *)
Definition num_field (k : string) (dflt : Q) (operational_data : Py.Dict Value) : M Q :=
  lift (as_num (Py.dict_get k (VNum dflt) operational_data)).

(** The field, when present, is a number or a boolean. *)
Definition numeric_field (k : string) (operational_data : Py.Dict Value) : Prop :=
  forall l, Py.dict_lookup k operational_data <> Some (VList l).

(** ['energy_consumption'] is absent, or present and equal to 0. *)
Definition zero_energy (operational_data : Py.Dict Value) : Prop :=
  match Py.dict_lookup "energy_consumption" operational_data with
  | None => True
  | Some v => exists q, as_num v = inr q /\ q == 0
  end.

Definition zero_energy_reading (sensor_data : Reading) : Prop :=
  match Py.dict_lookup "energy_consumption" sensor_data with
  | None => True
  | Some q => q == 0
  end.

Definition optimize_energy_usage (env : Env) (operational_data : Py.Dict Value) : M loc :=
  current_energy <- num_field "energy_consumption" 0 operational_data ;;
  renewable_capacity <- num_field "renewable_capacity" 0 operational_data ;;
  grid_cost <- num_field "grid_cost_per_kwh" (12 # 100) operational_data ;;
  renewable_cost <- num_field "renewable_cost_per_kwh" (8 # 100) operational_data ;;
  let max_renewable_usage := Py.min renewable_capacity (current_energy * (8 # 10)) in
  let energy_savings := (max_renewable_usage * (9 # 10))%Q in
  let cost_savings := (energy_savings * (grid_cost - renewable_cost))%Q in
  current_renewable <- num_field "current_renewable_usage" 0 operational_data ;;
  let target_renewable := Py.min (current_renewable + 20) 80 in
  let recommendations :=
    [ "Increase renewable energy usage to " +:+ str_num env target_renewable +:+ "%";
      "Optimize compressor scheduling during peak hours";
      "Implement predictive maintenance to reduce energy waste";
      "Adjust temperature setpoints for optimal efficiency" ] in
  if Qeq_bool current_energy 0
  then raise (Py.ZeroDivisionError "float division by zero")
  else
    now <- time_time env ;;
    alloc (PEnergy {| energy_savings := energy_savings;
                      cost_savings := cost_savings;
                      renewable_usage := target_renewable;
                      recommendations := recommendations;
                      current_energy_consumption := current_energy;
                      optimization_potential := (energy_savings / current_energy * 100)%Q;
                      en_timestamp := now |}).

(** The health report.  The key ['type'] (the class name of the estimator
    object) is left out. *)
Record ModelHealth : Type := {
  mh_status : string;
  mh_loaded : bool;
}.

Record HealthStatus : Type := {
  overall_status : string;
  health_models : Py.Dict ModelHealth;
  health_model_version : string;
  last_check : Q;
  scalers_loaded : bool;
}.

(** The loop [for model_name in ['efficiency', 'maintenance']] of
    [get_model_health], threading the overall status. *)
Fixpoint check_models (ms : gmap string Model) (names : list string) (overall : string)
  : Py.Dict ModelHealth * string :=
  match names with
  | [] => ([], overall)
  | model_name :: names' =>
      match ms !! model_name with
      | Some _ =>
          let '(rest, overall') := check_models ms names' overall in
          ((model_name, {| mh_status := "healthy"; mh_loaded := true |}) :: rest, overall')
      | None =>
          let '(rest, overall') := check_models ms names' "degraded" in
          ((model_name, {| mh_status := "not_loaded"; mh_loaded := false |}) :: rest, overall')
      end
  end.

(** [scalers] says of each value of [self.scalers] whether it is not
    [None]. *)
Definition get_model_health (env : Env) (scalers : list bool) : M HealthStatus :=
  s <- get_state ;;
  now <- time_time env ;;
  let '(checked, overall) :=
    check_models (models s) ["efficiency"; "maintenance"] "healthy" in
  let scaler_status := forallb (fun b => b) scalers in
  let overall := if scaler_status then overall else "degraded" in
  ret {| overall_status := overall;
         health_models := checked;
         health_model_version := model_version s;
         last_check := now;
         scalers_loaded := scaler_status |}.

End Optimizer.

(** ** [asyncio] as far as the services use it *)

Module Asyncio.

(** The objects that the services pass to [run_in_executor]. *)
Inductive PyVal (D : Type) : Type :=
| VExecutor                                        (* self.executor *)
| VMethod (name : string) (f : D -> M loc)         (* a bound method of the optimizer *)
| VDict (d : D).                                   (* a request dictionary *)
Arguments VExecutor {D}.
Arguments VMethod {D} name f.
Arguments VDict {D} d.

(** [loop.run_in_executor(executor, func, *args)] evaluates
    [executor.submit(func, *args)] and the caller awaits the future: the
    call runs on the pool and its result or exception comes back.  An object
    without a [submit] attribute in the executor position raises
    [AttributeError] before anything is run.  A bound method forwards the
    lookup of an attribute it does not have to its function, which is why
    the message names a function. *)
Definition run_in_executor {D} (executor func : PyVal D) (args : list (PyVal D)) : M loc :=
  match executor with
  | VExecutor =>
      match func, args with
      | VMethod name f, [VDict d] =>
          modify (fun s => set_submitted (submitted s ++ [name]) s) ;;;
          f d
      | VMethod name _, _ =>
          modify (fun s => set_submitted (submitted s ++ [name]) s) ;;;
          raise (Py.TypeError "wrong number of positional arguments")
      | _, _ => raise (Py.TypeError "object is not callable")
      end
  | VMethod _ _ => raise (Py.AttributeError "'function' object has no attribute 'submit'")
  | VDict _ => raise (Py.AttributeError "'dict' object has no attribute 'submit'")
  end.

(** [executor.submit(func, *args)], the synchronous half of
    [run_in_executor]: the call is queued for the pool and a future comes
    back, or the object in the executor position has no [submit].  What the
    future holds is computed when the future is awaited. *)
Definition submit {D} (executor func : PyVal D) (args : list (PyVal D)) : M (M loc) :=
  match executor with
  | VExecutor =>
      match func, args with
      | VMethod name f, [VDict d] =>
          modify (fun s => set_submitted (submitted s ++ [name]) s) ;;;
          ret (f d)
      | VMethod name _, _ =>
          modify (fun s => set_submitted (submitted s ++ [name]) s) ;;;
          ret (raise (Py.TypeError "wrong number of positional arguments"))
      | _, _ => ret (raise (Py.TypeError "object is not callable"))
      end
  | VMethod _ _ => raise (Py.AttributeError "'function' object has no attribute 'submit'")
  | VDict _ => raise (Py.AttributeError "'dict' object has no attribute 'submit'")
  end.

(** A coroutine of the services awaits at most once, the future of the
    pool.  Its first step is what the event loop runs when the coroutine is
    started: it ends when the coroutine returns, raises, or suspends on the
    future, leaving the rest to be resumed. *)
Inductive Step (A : Type) : Type :=
| Returned (a : A)
| Suspended (call : InFlight) (resume : M A).
Arguments Returned {A} a.
Arguments Suspended {A} call resume.

Definition Coroutine (A : Type) : Type := M (Step A).

Definition finish {A} (step : Step A) : M A :=
  match step with
  | Returned a => ret a
  | Suspended _ resume => resume
  end.

(** [await c] when nothing else is scheduled in between. *)
Definition await {A} (c : Coroutine A) : M A :=
  step <- c ;; finish step.

(** A coroutine that is still suspended when its [gather] fails is not
    cancelled: the call stays in flight, and what it will do when the pool
    is done (storing and annotating its result) has not happened yet. *)
Definition leave_in_flight {A} (step : Py.Res (Step A)) (s : State) : State :=
  match step with
  | inr (Suspended call _) => set_in_flight (in_flight s ++ [call]) s
  | _ => s
  end.

(** [await asyncio.gather(a, b)].  The loop starts [a], then [b]: each
    runs its first step.  [gather] raises the exception of the awaitable
    that fails first, as soon as it has failed: a failure in a first step
    is raised while the other awaitable, if suspended, is still waiting for
    the pool.  When no first step fails, the suspended awaitables are
    resumed, [a] before [b], and the results are returned in the order of
    the arguments. *)
Definition gather2 {A B} (a : Coroutine A) (b : Coroutine B) : M (A * B) :=
  fun s =>
    let '(step_a, s1) := a s in
    let '(step_b, s2) := b s1 in
    match step_a, step_b with
    | inl e, _ => (inl e, leave_in_flight step_b s2)
    | inr _, inl e => (inl e, leave_in_flight step_a s2)
    | inr first_a, inr first_b =>
        match finish first_a s2 with
        | (inl e, s3) => (inl e, leave_in_flight step_b s3)
        | (inr x, s3) =>
            match finish first_b s3 with
            | (inl e, s4) => (inl e, s4)
            | (inr y, s4) => (inr (x, y), s4)
            end
        end
    end.

(** [await asyncio.gather] over all tasks with [return_exceptions=True]: never raises;
    the outcome of each awaitable is at the position of that awaitable.
    The embedding runs the tasks one after the other in list order, each
    from the state its predecessor left.  This is the order in which the
    loop runs them whenever a task ends without waiting for the pool; tasks
    that wait would interleave at their awaits.  The semaphore only limits
    how many are in flight and is not visible. *)
Fixpoint gather_return_exceptions {A} (tasks : list (M A)) : M (list (Py.Res A)) :=
  match tasks with
  | [] => ret []
  | task :: tasks' =>
      fun s => let '(r, s1) := task s in
               match gather_return_exceptions tasks' s1 with
               | (inr rs, s2) => (inr (r :: rs), s2)
               | (inl e, s2) => (inl e, s2)
               end
  end.

End Asyncio.

(** ** [PredictionService] (prediction/prediction_service.py) *)

Module PredictionService.
Import Asyncio.
Local Open Scope Q_scope.

(** [json.dumps(d, sort_keys=True)]: the items in increasing key order. *)
Definition key_before {V} (a b : string * V) : bool := String.ltb (fst a) (fst b).

Definition json_dumps {V} (env : Env) (dumps_value : V -> string) (d : Py.Dict V) : string :=
  "{" +:+ String.concat ", "
            (map (fun kv => json_str env (fst kv) +:+ ": " +:+ dumps_value (snd kv))
                 (Py.sorted key_before d))
      +:+ "}".

Definition dumps_value (env : Env) (v : Value) : string :=
  match v with
  | VNum q => str_num env q
  | VBool b => if b then "true" else "false"
  | VList l => "[" +:+ String.concat ", " (map (str_num env) l) +:+ "]"
  end.

(** [f"efficiency_{hash(json.dumps(sensor_data, sort_keys=True))}"] and its
    two siblings. *)
Definition efficiency_key (env : Env) (sensor_data : Reading) : string :=
  "efficiency_" +:+ pretty (py_hash env (json_dumps env (str_num env) sensor_data)).

Definition maintenance_key (env : Env) (sensor_data : Reading) : string :=
  "maintenance_" +:+ pretty (py_hash env (json_dumps env (str_num env) sensor_data)).

Definition energy_key (env : Env) (operational_data : Py.Dict Value) : string :=
  "energy_" +:+ pretty (py_hash env (json_dumps env (dumps_value env) operational_data)).

(** [PredictionService.__init__]: no estimator is trained yet, the cache
    is empty and entries live for 300 seconds. *)
Definition init (version : string) (enabled : bool) : State :=
  {| models := ∅; model_version := version; cache_enabled := enabled;
     cache_ttl := 300; prediction_cache := ∅; heap := ∅; next_loc := 0%nat;
     tick := 0%nat; submitted := []; in_flight := [] |}.

(** What a cache check that reads the clock at [now] answers in state [s]. *)
Definition lookup_fresh (now : Q) (cache_key : string) (s : State) : option loc :=
  if cache_enabled s then
    match prediction_cache s !! cache_key with
    | Some cached_result =>
        if Py.Qltb (now - timestamp cached_result) (cache_ttl s)
        then Some (data cached_result) else None
    | None => None
    end
  else None.

(** The block under [# Check cache], which the three operations repeat:
    [Some] of the cached object on a hit, [None] to go on and compute. *)
Definition cache_check (env : Env) (cache_key : string) : M (option loc) :=
  s <- get_state ;;
  if cache_enabled s then
    match prediction_cache s !! cache_key with
    | Some cached_result =>
        now <- time_time env ;;
        if Py.Qltb (now - timestamp cached_result) (cache_ttl s)
        then ret (Some (data cached_result))
        else ret None
    | None => ret None
    end
  else ret None.

(** The block under [# Cache result]. *)
Definition cache_store (env : Env) (cache_key : string) (result : loc) : M unit :=
  s <- get_state ;;
  if cache_enabled s then
    now <- time_time env ;;
    modify (fun s => set_cache (<[cache_key := {| data := result; timestamp := now |}]>
                                  (prediction_cache s)) s)
  else ret tt.

Definition expired (current_time ttl : Q) (value : CacheEntry) : bool :=
  Py.Qgtb (current_time - timestamp value) ttl.

Definition _clean_cache (env : Env) : M unit :=
  current_time <- time_time env ;;
  modify (fun s => set_cache
            (filter (fun kv => expired current_time (cache_ttl s) (snd kv) = false)
                    (prediction_cache s)) s).

(** The two statements that follow [self._clean_cache()]. *)
Definition annotate (env : Env) (start_time : Q) (result : loc) : M loc :=
  now <- time_time env ;;
  let processing_time := now - start_time in
  set_processing_time result (processing_time * 1000) ;;;
  ret result.

(** [run_in_executor(self.executor, self.optimizer.predict_efficiency,
    sensor_data)]. *)
Definition predict_efficiency (env : Env) (sensor_data : Reading) : M loc :=
  start_time <- time_time env ;;
  let cache_key := efficiency_key env sensor_data in
  hit <- cache_check env cache_key ;;
  match hit with
  | Some cached => ret cached
  | None =>
      result <- run_in_executor VExecutor
                  (VMethod "predict_efficiency" (Optimizer.predict_efficiency env))
                  [VDict sensor_data] ;;
      cache_store env cache_key result ;;;
      _clean_cache env ;;;
      annotate env start_time result
  end.

(** The computing path of [predict_efficiency], from the state in which
    the pool runs the estimator call. *)
Definition compute_efficiency (env : Env) (sd : Reading) (start : Q) : M loc :=
  result <- Optimizer.predict_efficiency env sd ;;
  cache_store env (efficiency_key env sd) result ;;;
  _clean_cache env ;;;
  annotate env start result.

(** As in the source, [run_in_executor] receives the bound method and the
    request dictionary only: the method is in the executor position, the
    dictionary in the function position. *)
Definition predict_maintenance (env : Env) (sensor_data : Reading) : M loc :=
  start_time <- time_time env ;;
  let cache_key := maintenance_key env sensor_data in
  hit <- cache_check env cache_key ;;
  match hit with
  | Some cached => ret cached
  | None =>
      result <- run_in_executor
                  (VMethod "predict_maintenance" (Optimizer.predict_maintenance env))
                  (VDict sensor_data) [] ;;
      cache_store env cache_key result ;;;
      _clean_cache env ;;;
      annotate env start_time result
  end.

(** The same call shape as in [predict_maintenance]. *)
Definition optimize_energy (env : Env) (operational_data : Py.Dict Value) : M loc :=
  start_time <- time_time env ;;
  let cache_key := energy_key env operational_data in
  hit <- cache_check env cache_key ;;
  match hit with
  | Some cached => ret cached
  | None =>
      result <- run_in_executor
                  (VMethod "optimize_energy_usage" (Optimizer.optimize_energy_usage env))
                  (VDict operational_data) [] ;;
      cache_store env cache_key result ;;;
      _clean_cache env ;;;
      annotate env start_time result
  end.

Record UnitPrediction : Type := {
  efficiency_prediction : loc;
  maintenance_prediction : loc;
  energy_optimization : loc;
  comprehensive_score : Q;
}.

(** An element of the list returned by [get_batch_predictions]. *)
Record BatchRecord : Type := {
  br_unit_id : string;
  br_success : bool;
  br_error : option string;
  br_prediction : option UnitPrediction;
  br_timestamp : Q;
}.

Definition _extract_operational_data (env : Env) (sensor_data : Reading)
  : M (Py.Dict Value) :=
  hour <- datetime_now_hour env ;;
  ret [ ("energy_consumption", VNum (Py.dict_get "energy_consumption" 0 sensor_data));
        ("renewable_energy_available",
           VNum (Py.dict_get "renewable_energy_available" (7 # 10) sensor_data));
        ("renewable_usage", VNum (Py.dict_get "renewable_usage" (6 # 10) sensor_data));
        ("grid_usage", VNum (Py.dict_get "grid_usage" (4 # 10) sensor_data));
        ("peak_hours", match Py.dict_lookup "peak_hours" sensor_data with
                       | Some q => VNum q
                       | None => VBool false
                       end);
        ("current_hour", VNum (Py.dict_get "current_hour" (inject_Z hour) sensor_data)) ].

(** [.get] on the three result dictionaries of a unit. *)
Definition get_predicted_efficiency (o : option Obj) (dflt : Q) : Q :=
  match o with
  | Some {| payload := PEff r |} => predicted_efficiency r
  | _ => dflt
  end.

Definition get_risk_level (o : option Obj) (dflt : string) : string :=
  match o with
  | Some {| payload := PMaint r |} => mnt_risk_level r
  | _ => dflt
  end.

Definition get_energy_savings (o : option Obj) (dflt : Q) : Q :=
  match o with
  | Some {| payload := PEnergy r |} => energy_savings r
  | _ => dflt
  end.

Definition _calculate_comprehensive_score (env : Env)
    (efficiency_result maintenance_result energy_result : loc) : M Q :=
  s <- get_state ;;
  let efficiency_score :=
    Py.min (get_predicted_efficiency (heap s !! efficiency_result) 80 / 100) 1 * 40 in
  let risk_level := get_risk_level (heap s !! maintenance_result) "medium" in
  let maintenance_score : Q :=
    if String.eqb risk_level "low" then 30
    else if String.eqb risk_level "medium" then 20
    else 10 in
  let energy_savings := get_energy_savings (heap s !! energy_result) 0 in
  let energy_score := Py.min (energy_savings / 100) 1 * 30 in
  let total_score := efficiency_score + maintenance_score + energy_score in
  ret (py_round2 env total_score).

(** The same two operations as the event loop runs them under
    [asyncio.gather]: the first step goes up to the await of
    [run_in_executor], the rest is resumed when the pool is done.
    [predict_efficiency] and [predict_maintenance] above are these
    coroutines awaited on their own. *)
Definition predict_efficiency_task (env : Env) (sensor_data : Reading) : Coroutine loc :=
  start_time <- time_time env ;;
  let cache_key := efficiency_key env sensor_data in
  hit <- cache_check env cache_key ;;
  match hit with
  | Some cached => ret (Returned cached)
  | None =>
      future <- submit VExecutor
                  (VMethod "predict_efficiency" (Optimizer.predict_efficiency env))
                  [VDict sensor_data] ;;
      ret (Suspended {| awaited_call := "predict_efficiency";
                        awaited_reading := sensor_data;
                        awaited_since := start_time |}
             (result <- future ;;
              cache_store env cache_key result ;;;
              _clean_cache env ;;;
              annotate env start_time result))
  end.

Definition predict_maintenance_task (env : Env) (sensor_data : Reading) : Coroutine loc :=
  start_time <- time_time env ;;
  let cache_key := maintenance_key env sensor_data in
  hit <- cache_check env cache_key ;;
  match hit with
  | Some cached => ret (Returned cached)
  | None =>
      future <- submit
                  (VMethod "predict_maintenance" (Optimizer.predict_maintenance env))
                  (VDict sensor_data) [] ;;
      ret (Suspended {| awaited_call := "predict_maintenance";
                        awaited_reading := sensor_data;
                        awaited_since := start_time |}
             (result <- future ;;
              cache_store env cache_key result ;;;
              _clean_cache env ;;;
              annotate env start_time result))
  end.

Definition _predict_unit_comprehensive (env : Env) (unit_id : string)
    (sensor_data : Reading) : M UnitPrediction :=
  results <- gather2 (predict_efficiency_task env sensor_data)
                     (predict_maintenance_task env sensor_data) ;;
  let efficiency_result := fst results in
  let maintenance_result := snd results in
  operational_data <- _extract_operational_data env sensor_data ;;
  energy_result <- optimize_energy env operational_data ;;
  score <- _calculate_comprehensive_score env efficiency_result maintenance_result
             energy_result ;;
  ret {| efficiency_prediction := efficiency_result;
         maintenance_prediction := maintenance_result;
         energy_optimization := energy_result;
         comprehensive_score := score |}.

(** The loop under [# Process results] of [get_batch_predictions]. *)
Fixpoint process_results (env : Env) (units_data : list UnitData) (i : nat)
    (results : list (Py.Res UnitPrediction)) : M (list BatchRecord) :=
  match results with
  | [] => ret []
  | result :: results' =>
      match units_data !! i with
      | None => raise (Py.IndexError "list index out of range")
      | Some unit_data =>
          let unit_id := default ("unit_" +:+ pretty i) (unit_id unit_data) in
          now <- time_time env ;;
          let record :=
            match result with
            | inl e => {| br_unit_id := unit_id; br_success := false;
                          br_error := Some (Py.exn_str e); br_prediction := None;
                          br_timestamp := now |}
            | inr r => {| br_unit_id := unit_id; br_success := true;
                          br_error := None; br_prediction := Some r;
                          br_timestamp := now |}
            end in
          records <- process_results env units_data (S i) results' ;;
          ret (record :: records)
      end
  end.

Definition get_batch_predictions (env : Env) (units_data : list UnitData)
  : M (list BatchRecord) :=
  start_time <- time_time env ;;
  let tasks :=
    map (fun unit_data =>
           _predict_unit_comprehensive env
             (default "unknown" (unit_id unit_data))
             (default [] (sensor_data unit_data)))
        units_data in
  results <- gather_return_exceptions tasks ;;
  processed_results <- process_results env units_data 0 results ;;
  total_time <- time_time env ;;
  ret processed_results.

(** The standalone functions build a service of their own, call it once and
    shut it down; what the shutdown writes to disk is not modelled. *)
Definition predict_efficiency_standalone (env : Env) (sensor_data : Reading)
  : Py.Res loc * State :=
  predict_efficiency env sensor_data (init "1.0.0" true).

Definition predict_maintenance_standalone (env : Env) (sensor_data : Reading)
  : Py.Res loc * State :=
  predict_maintenance env sensor_data (init "1.0.0" true).

End PredictionService.

(** ** [OptimizationService] (optimization/optimization_service.py) *)

Module OptimizationService.
Import Asyncio.
Local Open Scope Q_scope.

Record Weights : Type := {
  w_efficiency : Q;
  w_energy_savings : Q;
  w_maintenance_risk : Q;
}.

(** A strategy template.  The constraint values are numbers; [True] of
    ['balanced_tradeoff'] is the number 1. *)
Record Template : Type := {
  priority_weights : Weights;
  constraints : Py.Dict Q;
}.

Definition _load_optimization_templates : Py.Dict Template :=
  [ ("efficiency_focused",
      {| priority_weights := {| w_efficiency := 5 # 10; w_energy_savings := 3 # 10;
                                w_maintenance_risk := 2 # 10 |};
         constraints := [ ("max_energy_increase", 5 # 100);
                          ("min_efficiency_gain", 2 # 100) ] |});
    ("energy_efficient",
      {| priority_weights := {| w_efficiency := 2 # 10; w_energy_savings := 6 # 10;
                                w_maintenance_risk := 2 # 10 |};
         constraints := [ ("max_efficiency_decrease", 1 # 100);
                          ("min_energy_savings", 50) ] |});
    ("maintenance_prioritized",
      {| priority_weights := {| w_efficiency := 2 # 10; w_energy_savings := 2 # 10;
                                w_maintenance_risk := 6 # 10 |};
         constraints := [ ("max_maintenance_risk", 3 # 10);
                          ("maintenance_window_days", 30) ] |});
    ("balanced",
      {| priority_weights := {| w_efficiency := 33 # 100; w_energy_savings := 33 # 100;
                                w_maintenance_risk := 34 # 100 |};
         constraints := [ ("balanced_tradeoff", 1) ] |}) ].

(** A recommendation dictionary.  The free-text ['description'] is left
    out; ['priority_rank'] and ['priority_score'] are absent until
    [_prioritize_recommendations] writes them. *)
Record Recommendation : Type := {
  rec_id : string;
  category : string;
  title : string;
  impact : Py.Dict Q;
  difficulty : string;
  time_to_implement : Q;
  cost : Q;
  risk_level : string;
  priority_rank : option nat;
  priority_score : option PrimFloat.float;
}.

Definition candidate (i c t : string) (im : Py.Dict Q) (d : string) (h co : Q)
    (r : string) : Recommendation :=
  {| rec_id := i; category := c; title := t; impact := im; difficulty := d;
     time_to_implement := h; cost := co; risk_level := r;
     priority_rank := None; priority_score := None |}.

(** [repr] of a list of strings, for the error messages. *)
Definition repr_list (l : list string) : string :=
  "[" +:+ String.concat ", " (map (fun x => "'" +:+ x +:+ "'") l) +:+ "]".

Definition required_sensors : list string :=
  ["temperature"; "pressure"; "flow_rate"; "energy_consumption"].

Definition _validate_optimization_inputs (unit_id : string) (sensor_data : Reading)
    (strategy : string) : Py.Res unit :=
  if String.eqb unit_id "" then inl (Py.ValueError "Valid unit_id is required")
  else match sensor_data with
  | [] => inl (Py.ValueError "Valid sensor_data dictionary is required")
  | _ :: _ =>
    if negb (Py.dict_in strategy _load_optimization_templates)
    then inl (Py.ValueError ("Unknown optimization strategy: " +:+ strategy
                             +:+ ". Available: "
                             +:+ repr_list (Py.keys _load_optimization_templates)))
    else
      let missing_sensors :=
        List.filter (fun s => negb (Py.dict_in s sensor_data)) required_sensors in
      match missing_sensors with
      | [] => inr tt
      | _ :: _ => inl (Py.ValueError ("Missing required sensor data: "
                                      +:+ repr_list missing_sensors))
      end
  end.

(** The [defaults] dictionary is built, and the clock read for
    ['current_hour'], each time a field is missing. *)
Definition energy_default (env : Env) (field : string) : M Value :=
  hour <- datetime_now_hour env ;;
  ret (Py.dict_get field (VNum 0)
         [ ("renewable_capacity", VNum 300);
           ("grid_cost_per_kwh", VNum (12 # 100));
           ("renewable_cost_per_kwh", VNum (8 # 100));
           ("peak_hours", VList [9; 10; 11; 17; 18; 19]);
           ("current_hour", VNum (inject_Z hour)) ]).

Fixpoint extract_fields (env : Env) (sensor_data : Reading) (fields : list string)
  : M (Py.Dict Value) :=
  match fields with
  | [] => ret []
  | field :: fields' =>
      v <- match Py.dict_lookup field sensor_data with
           | Some q => ret (VNum q)
           | None => energy_default env field
           end ;;
      rest <- extract_fields env sensor_data fields' ;;
      ret ((field, v) :: rest)
  end.

Definition _extract_energy_data (env : Env) (sensor_data : Reading) : M (Py.Dict Value) :=
  extract_fields env sensor_data
    [ "energy_consumption"; "renewable_capacity"; "grid_cost_per_kwh";
      "renewable_cost_per_kwh"; "peak_hours"; "current_hour" ].

Definition _generate_efficiency_recommendations (sensor_data : Reading)
    (efficiency_result : loc) (current_efficiency : Q) : list Recommendation :=
  (if Py.Qgtb (Py.dict_get "temperature" 25 sensor_data) 28
   then [ candidate "temp_optimization" "efficiency" "Temperature Optimization"
            [ ("efficiency_gain", 25 # 10); ("energy_savings", 35); ("co2_reduction", 12) ]
            "medium" 2 0 "low" ]
   else [])
  ++ (if Py.Qgtb (Py.dict_get "pressure" 50 sensor_data) 55
      then [ candidate "pressure_optimization" "efficiency" "Pressure Optimization"
               [ ("efficiency_gain", 18 # 10); ("energy_savings", 25); ("co2_reduction", 8) ]
               "medium" 4 0 "low" ]
      else [])
  ++ (if Py.Qgtb (Py.dict_get "flow_rate" 1000 sensor_data) 1300
      then [ candidate "flow_optimization" "efficiency" "Flow Rate Optimization"
               [ ("efficiency_gain", 12 # 10); ("energy_savings", 20); ("co2_reduction", 6) ]
               "low" 1 0 "low" ]
      else []).

Definition peak_hours : list Z := [9; 10; 11; 17; 18; 19]%Z.

Definition energy_recommendations (energy_savings renewable_usage : Q) (current_hour : Z)
  : list Recommendation :=
  (if Py.Qltb renewable_usage 70
   then [ candidate "renewable_shift" "energy" "Increase Renewable Energy Usage"
            [ ("efficiency_gain", 5 # 10);
              ("energy_savings", energy_savings * (3 # 10));
              ("co2_reduction", energy_savings * (4 # 10)) ]
            "medium" 8 500 "low" ]
   else [])
  ++ (if existsb (Z.eqb current_hour) peak_hours
      then [ candidate "peak_shaving" "energy" "Peak Demand Management"
               [ ("efficiency_gain", 8 # 10); ("energy_savings", 45); ("co2_reduction", 18) ]
               "high" 24 2000 "medium" ]
      else []).

Definition get_renewable_usage (o : option Obj) (dflt : Q) : Q :=
  match o with
  | Some {| payload := PEnergy r |} => renewable_usage r
  | _ => dflt
  end.

Definition _generate_energy_recommendations (env : Env) (sensor_data : Reading)
    (energy_result : loc) : M (list Recommendation) :=
  s <- get_state ;;
  let energy_savings :=
    PredictionService.get_energy_savings (heap s !! energy_result) 0 in
  let renewable_usage := get_renewable_usage (heap s !! energy_result) 0 in
  current_hour <- datetime_now_hour env ;;
  ret (energy_recommendations energy_savings renewable_usage current_hour).

Definition alert_recommendations (alert : Alert) : list Recommendation :=
  if String.eqb (alertType alert) "warning" then
    if Py.contains "vibration" (Py.lower (message alert))
    then [ candidate "vibration_maintenance" "maintenance"
             "Vibration Analysis and Bearing Check"
             [ ("efficiency_gain", 15 # 10); ("energy_savings", 30);
               ("co2_reduction", 10); ("maintenance_risk_reduction", 4 # 10) ]
             "medium" 16 1500 "medium" ]
    else if Py.contains "current" (Py.lower (message alert))
    then [ candidate "electrical_maintenance" "maintenance"
             "Electrical System Inspection"
             [ ("efficiency_gain", 12 # 10); ("energy_savings", 25);
               ("co2_reduction", 8); ("maintenance_risk_reduction", 35 # 100) ]
             "high" 20 2500 "high" ]
    else []
  else [].

Definition get_alerts (o : option Obj) (dflt : list Alert) : list Alert :=
  match o with
  | Some {| payload := PMaint r |} => alerts r
  | _ => dflt
  end.

Definition _generate_maintenance_recommendations (sensor_data : Reading)
    (maintenance_result : option Obj) : list Recommendation :=
  let alerts := get_alerts maintenance_result [] in
  concat (map alert_recommendations alerts)
  ++ (if Py.Qgtb (Py.dict_get "maintenance_days_since" 0 sensor_data) 180
      then [ candidate "preventive_maintenance" "maintenance"
               "Comprehensive Preventive Maintenance"
               [ ("efficiency_gain", 2); ("energy_savings", 50);
                 ("co2_reduction", 15); ("maintenance_risk_reduction", 6 # 10) ]
               "high" 48 5000 "low" ]
      else []).

(** The body of the loop of [_apply_strategy_constraints]: the final value
    of [valid] for one recommendation. *)
Definition constraint_valid (constraints : Py.Dict Q) (rec : Recommendation) : bool :=
  let valid := true in
  let valid :=
    match Py.dict_lookup "max_energy_increase" constraints with
    | Some c =>
        let energy_impact := Py.dict_get "energy_savings" 0 (impact rec) in
        if (Py.Qltb energy_impact 0 && Py.Qgtb (Qabs energy_impact) (c * 100))%bool
        then false else valid
    | None => valid
    end in
  let valid :=
    match Py.dict_lookup "min_efficiency_gain" constraints with
    | Some c =>
        let efficiency_gain := Py.dict_get "efficiency_gain" 0 (impact rec) in
        if Py.Qltb efficiency_gain c then false else valid
    | None => valid
    end in
  let valid :=
    match Py.dict_lookup "max_efficiency_decrease" constraints with
    | Some c =>
        let efficiency_impact := Py.dict_get "efficiency_gain" 0 (impact rec) in
        if Py.Qltb efficiency_impact (- c) then false else valid
    | None => valid
    end in
  let valid :=
    match Py.dict_lookup "min_energy_savings" constraints with
    | Some c =>
        let energy_savings := Py.dict_get "energy_savings" 0 (impact rec) in
        if Py.Qltb energy_savings c then false else valid
    | None => valid
    end in
  let valid :=
    match Py.dict_lookup "max_maintenance_risk" constraints with
    | Some c =>
        let risk_reduction := Py.dict_get "maintenance_risk_reduction" 0 (impact rec) in
        valid
    | None => valid
    end in
  valid.

Definition _apply_strategy_constraints (recommendations : list Recommendation)
    (constraints : Py.Dict Q) (sensor_data : Reading) : list Recommendation :=
  List.filter (constraint_valid constraints) recommendations.

Definition difficulty_penalty : Py.Dict Q :=
  [ ("low", 0); ("medium", 1 # 10); ("high", 2 # 10) ].

Definition risk_penalty : Py.Dict Q :=
  [ ("low", 0); ("medium", 15 # 100); ("high", 3 # 10) ].

(** The score is computed in binary64, operation by operation as the
    source writes them: the order of two recommendations can hang on the
    last bit. *)
Definition calculate_priority_score (weights : Weights) (rec : Recommendation)
  : PrimFloat.float :=
  let score := Py.float_of 0 in
  let efficiency_gain :=
    (Py.float_of (Py.dict_get "efficiency_gain" 0 (impact rec))
     * Py.float_of (w_efficiency weights))%float in
  let energy_savings :=
    (Py.float_of (Py.dict_get "energy_savings" 0 (impact rec))
     * Py.float_of (w_energy_savings weights) / Py.float_of 10)%float in
  let risk_reduction :=
    (Py.float_of (Py.dict_get "maintenance_risk_reduction" 0 (impact rec))
     * Py.float_of (w_maintenance_risk weights) * Py.float_of 100)%float in
  let score := (score + (efficiency_gain + energy_savings + risk_reduction))%float in
  let score :=
    (score - score * Py.float_of (Py.dict_get (difficulty rec) 0 difficulty_penalty))%float in
  let score :=
    (score - score * Py.float_of (Py.dict_get (risk_level rec) 0 risk_penalty))%float in
  score.

Definition set_priority (rank : nat) (score : PrimFloat.float) (rec : Recommendation)
  : Recommendation :=
  {| rec_id := rec_id rec; category := category rec; title := title rec;
     impact := impact rec; difficulty := difficulty rec;
     time_to_implement := time_to_implement rec; cost := cost rec;
     risk_level := risk_level rec;
     priority_rank := Some rank; priority_score := Some score |}.

(** [for i, rec in enumerate(prioritized)], counting from [i].  The
    elements of the list are distinct dictionaries, as the generators
    build them: each gets the two keys of its own position. *)
Fixpoint add_ranking (weights : Weights) (i : nat) (prioritized : list Recommendation)
  : list Recommendation :=
  match prioritized with
  | [] => []
  | rec :: rest =>
      set_priority (i + 1) (calculate_priority_score weights rec) rec
      :: add_ranking weights (S i) rest
  end.

(** [sorted(recommendations, key=calculate_priority_score, reverse=True)]
    puts a recommendation before another exactly when its score is
    greater (the sort compares keys with [<] only); then the ranking is
    written into the sorted dictionaries. *)
Definition score_before (weights : Weights) (a b : Recommendation) : bool :=
  (calculate_priority_score weights b <? calculate_priority_score weights a)%float.

Definition _prioritize_recommendations (recommendations : list Recommendation)
    (weights : Weights) : list Recommendation :=
  let prioritized := Py.sorted (score_before weights) recommendations in
  add_ranking weights 0 prioritized.

(** A recommendation without the two keys that the ranking writes. *)
Definition unranked (rec : Recommendation) : Recommendation :=
  {| rec_id := rec_id rec; category := category rec; title := title rec;
     impact := impact rec; difficulty := difficulty rec;
     time_to_implement := time_to_implement rec; cost := cost rec;
     risk_level := risk_level rec;
     priority_rank := None; priority_score := None |}.

(** The recommendations whose score is [q]. *)
Definition has_score (weights : Weights) (q : PrimFloat.float) (rec : Recommendation)
  : bool :=
  (calculate_priority_score weights rec =? q)%float.

(** The score of a recommendation is a number, not the NaN that
    overflowing inputs can produce; [sorted] promises nothing about keys
    that do not compare. *)
Definition is_number (weights : Weights) (rec : Recommendation) : Prop :=
  PrimFloat.is_nan (calculate_priority_score weights rec) = false.

(** The optimization plan.  Of the dictionary that the source returns, the
    keys ['expected_outcomes'] and ['monitoring_requirements'] are left
    out: they are computed from the recommendations and raise nothing. *)
Record Plan : Type := {
  strategy_applied : string;
  recommendations : list Recommendation;
  implementation_priority : string;
}.

Definition _calculate_implementation_priority (recommendations : list Recommendation)
    (maintenance_score : Q) : string :=
  if Py.Qgtb maintenance_score (8 # 10) then "critical"
  else if (Py.Qgtb maintenance_score (6 # 10) || Nat.ltb 3 (length recommendations))%bool
  then "high"
  else if Py.Qgtb maintenance_score (4 # 10) then "medium"
  else "low".

(** [result['key']] on the three result dictionaries. *)
Definition index_predicted_efficiency (o : option Obj) : Py.Res Q :=
  match o with
  | Some {| payload := PEff r |} => inr (predicted_efficiency r)
  | _ => inl (Py.KeyError "predicted_efficiency")
  end.

Definition index_maintenance_score (o : option Obj) : Py.Res Q :=
  match o with
  | Some {| payload := PMaint r |} => inr (maintenance_score r)
  | _ => inl (Py.KeyError "maintenance_score")
  end.

Definition index_energy_savings (o : option Obj) : Py.Res Q :=
  match o with
  | Some {| payload := PEnergy r |} => inr (energy_savings r)
  | _ => inl (Py.KeyError "energy_savings")
  end.

Definition _generate_optimization_plan (env : Env) (unit_id : string)
    (sensor_data : Reading) (efficiency_result maintenance_result energy_result : loc)
    (strategy : string) (time_horizon : Z) : M Plan :=
  template <- match Py.dict_lookup strategy _load_optimization_templates with
              | Some t => ret t
              | None => raise (Py.KeyError strategy)
              end ;;
  let weights := priority_weights template in
  s <- get_state ;;
  let current_efficiency := Py.dict_get "efficiency_current" 80 sensor_data in
  predicted_efficiency <- lift (index_predicted_efficiency (heap s !! efficiency_result)) ;;
  maintenance_score <- lift (index_maintenance_score (heap s !! maintenance_result)) ;;
  energy_savings <- lift (index_energy_savings (heap s !! energy_result)) ;;
  let efficiency_recs :=
    if Py.Qgtb (w_efficiency weights) (3 # 10)
    then _generate_efficiency_recommendations sensor_data efficiency_result
           current_efficiency
    else [] in
  energy_recs <- (if Py.Qgtb (w_energy_savings weights) (3 # 10)
                  then _generate_energy_recommendations env sensor_data energy_result
                  else ret []) ;;
  let maintenance_recs :=
    if Py.Qgtb (w_maintenance_risk weights) (3 # 10)
    then _generate_maintenance_recommendations sensor_data (heap s !! maintenance_result)
    else [] in
  let recommendations := efficiency_recs ++ energy_recs ++ maintenance_recs in
  let filtered_recommendations :=
    _apply_strategy_constraints recommendations (constraints template) sensor_data in
  let prioritized_recommendations :=
    _prioritize_recommendations filtered_recommendations weights in
  ret {| strategy_applied := strategy;
         recommendations := prioritized_recommendations;
         implementation_priority :=
           _calculate_implementation_priority prioritized_recommendations
             maintenance_score |}.

Record TimelineEntry : Type := {
  recommendation_id : string;
  start_time : Q;
  end_time : Q;
  duration_hours : Q;
}.

Fixpoint lay_out (current_time : Q) (recommendations : list Recommendation)
  : list TimelineEntry :=
  match recommendations with
  | [] => []
  | rec :: rest =>
      let implementation_time := time_to_implement rec in
      let end_time := current_time + implementation_time * 3600 in
      {| recommendation_id := rec_id rec; start_time := current_time;
         end_time := end_time; duration_hours := implementation_time |}
      :: lay_out end_time rest
  end.

Definition _calculate_implementation_timeline (env : Env) (optimization_plan : Plan)
    (time_horizon : Z) : M (list TimelineEntry) :=
  current_time <- time_time env ;;
  ret (lay_out current_time (take 5 (recommendations optimization_plan))).

(** The result of a comprehensive optimization.  The keys
    ['risk_assessment'], ['optimization_score'] and ['confidence_level'] are
    left out: they are computed from the plan and raise nothing. *)
Record UnitOptimization : Type := {
  uo_unit_id : string;
  optimization_strategy : string;
  uo_timestamp : Q;
  uo_efficiency : loc;
  uo_maintenance : loc;
  uo_energy : loc;
  optimization_plan : Plan;
  implementation_timeline : list TimelineEntry;
  uo_processing_time_ms : Q;
}.

Definition optimize_unit_comprehensive (env : Env) (unit_id : string)
    (sensor_data : Reading) (optimization_strategy : string)
    (time_horizon_hours : Z) : M UnitOptimization :=
  start_time <- time_time env ;;
  lift (_validate_optimization_inputs unit_id sensor_data optimization_strategy) ;;;
  results <- gather2 (PredictionService.predict_efficiency_task env sensor_data)
                     (PredictionService.predict_maintenance_task env sensor_data) ;;
  let efficiency_result := fst results in
  let maintenance_result := snd results in
  energy_data <- _extract_energy_data env sensor_data ;;
  energy_result <- PredictionService.optimize_energy env energy_data ;;
  optimization_plan <- _generate_optimization_plan env unit_id sensor_data
                         efficiency_result maintenance_result energy_result
                         optimization_strategy time_horizon_hours ;;
  timeline <- _calculate_implementation_timeline env optimization_plan
                time_horizon_hours ;;
  timestamp <- time_time env ;;
  now <- time_time env ;;
  logged <- time_time env ;;
  ret {| uo_unit_id := unit_id;
         optimization_strategy := optimization_strategy;
         uo_timestamp := timestamp;
         uo_efficiency := efficiency_result;
         uo_maintenance := maintenance_result;
         uo_energy := energy_result;
         optimization_plan := optimization_plan;
         implementation_timeline := timeline;
         uo_processing_time_ms := (now - start_time) * 1000 |}.

(** The loop under [# Create optimization tasks for each unit]: building
    the argument list of a task indexes the unit dictionary. *)
Fixpoint create_tasks (env : Env) (network_data : list UnitData)
    (optimization_strategy : string) : Py.Res (list (M UnitOptimization)) :=
  match network_data with
  | [] => inr []
  | unit_data :: rest =>
      match unit_id unit_data with
      | None => inl (Py.KeyError "unit_id")
      | Some uid =>
          match sensor_data unit_data with
          | None => inl (Py.KeyError "sensor_data")
          | Some sd =>
              match create_tasks env rest optimization_strategy with
              | inl e => inl e
              | inr tasks =>
                  inr (optimize_unit_comprehensive env uid sd optimization_strategy 24
                       :: tasks)
              end
          end
      end
  end.

(** The loop under [# Process results] of [optimize_network]: the
    successful and the failed optimizations, each list in loop order. *)
Fixpoint partition_results (network_data : list UnitData) (i : nat)
    (results : list (Py.Res UnitOptimization))
  : Py.Res (list UnitOptimization * list (string * string)) :=
  match results with
  | [] => inr ([], [])
  | result :: results' =>
      match result with
      | inl e =>
          match network_data !! i with
          | None => inl (Py.IndexError "list index out of range")
          | Some unit_data =>
              match unit_id unit_data with
              | None => inl (Py.KeyError "unit_id")
              | Some uid =>
                  match partition_results network_data (S i) results' with
                  | inl e' => inl e'
                  | inr (ok, failed) => inr (ok, (uid, Py.exn_str e) :: failed)
                  end
              end
          end
      | inr r =>
          match partition_results network_data (S i) results' with
          | inl e' => inl e'
          | inr (ok, failed) => inr (r :: ok, failed)
          end
      end
  end.

(** The result of a network optimization, without ['network_summary']
    (sums over the successful results). *)
Record NetworkResult : Type := {
  total_units : nat;
  successful_optimizations : nat;
  failed_optimizations : nat;
  nr_optimization_strategy : string;
  nr_processing_time_ms : Q;
  results : list UnitOptimization;
  failures : list (string * string);
  nr_timestamp : Q;
}.

Definition optimize_network (env : Env) (network_data : list UnitData)
    (optimization_strategy : string) : M NetworkResult :=
  start_time <- time_time env ;;
  tasks <- lift (create_tasks env network_data optimization_strategy) ;;
  results <- gather_return_exceptions tasks ;;
  parts <- lift (partition_results network_data 0 results) ;;
  let successful_optimizations := fst parts in
  let failed_optimizations := snd parts in
  now <- time_time env ;;
  timestamp <- time_time env ;;
  ret {| total_units := length network_data;
         successful_optimizations := length successful_optimizations;
         failed_optimizations := length failed_optimizations;
         nr_optimization_strategy := optimization_strategy;
         nr_processing_time_ms := (now - start_time) * 1000;
         results := successful_optimizations;
         failures := failed_optimizations;
         nr_timestamp := timestamp |}.

Record RiskAssessment : Type := {
  overall_risk_level : string;
  risk_score : Q;
  rf_maintenance_risk : bool;
  rf_implementation_complexity : bool;
  rf_high_cost : bool;
  rf_long_implementation : bool;
  rf_old_equipment : bool;
  mitigation_strategies : list string;
  monitoring_recommendations : list string;
}.

(** [sum(... for rec in recommendations)] *)
Definition sum_of (f : Recommendation -> Q) (recs : list Recommendation) : Q :=
  foldr (fun rec acc => f rec + acc) 0 recs.

Definition _assess_optimization_risks (optimization_plan : Plan) (sensor_data : Reading)
    (maintenance_result : option Obj) : Py.Res RiskAssessment :=
  let recommendations := recommendations optimization_plan in
  match index_maintenance_score maintenance_result with
  | inl e => inl e
  | inr maintenance_score =>
      let high_risk_count :=
        length (List.filter (fun rec => String.eqb (risk_level rec) "high")
                            recommendations) in
      let total_cost := sum_of cost recommendations in
      let implementation_time := sum_of time_to_implement recommendations in
      let risk_score := 0 in
      let risk_score :=
        if Py.Qgtb maintenance_score (7 # 10) then risk_score + (3 # 10) else risk_score in
      let risk_score :=
        if Nat.ltb 2 high_risk_count then risk_score + (2 # 10) else risk_score in
      let risk_score :=
        if Py.Qgtb total_cost 10000 then risk_score + (2 # 10) else risk_score in
      let risk_score :=
        if Py.Qgtb implementation_time 72 then risk_score + (1 # 10) else risk_score in
      let unit_age := Py.dict_get "unit_age_days" 0 sensor_data in
      let risk_score :=
        if Py.Qgtb unit_age 2000 then risk_score + (2 # 10) else risk_score in
      let risk_level :=
        if Py.Qltb risk_score (3 # 10) then "low"
        else if Py.Qltb risk_score (6 # 10) then "medium" else "high" in
      let mitigation_strategies :=
        (if Py.Qgtb risk_score (3 # 10)
         then ["Implement changes gradually with monitoring"] else [])
        ++ (if Py.Qgtb maintenance_score (5 # 10)
            then ["Schedule maintenance before optimization"] else [])
        ++ (if Nat.ltb 0 high_risk_count
            then ["Have rollback procedures ready"] else [])
        ++ (if Py.Qgtb total_cost 5000
            then ["Phase implementation to spread costs"] else []) in
      inr {| overall_risk_level := risk_level;
             risk_score := risk_score;
             rf_maintenance_risk := Py.Qgtb maintenance_score (7 # 10);
             rf_implementation_complexity := Nat.ltb 2 high_risk_count;
             rf_high_cost := Py.Qgtb total_cost 10000;
             rf_long_implementation := Py.Qgtb implementation_time 72;
             rf_old_equipment := Py.Qgtb unit_age 2000;
             mitigation_strategies := mitigation_strategies;
             monitoring_recommendations :=
               [ "Monitor efficiency metrics every 15 minutes during implementation";
                 "Track energy consumption in real-time";
                 "Monitor for any error conditions or alerts";
                 "Have engineering team on standby during critical changes" ] |}
  end.

(** The standalone [optimize_unit]: a service of its own, one call. *)
Definition optimize_unit (env : Env) (unit_id : string) (sensor_data : Reading)
    (strategy : string) : Py.Res UnitOptimization * State :=
  optimize_unit_comprehensive env unit_id sensor_data strategy 24
    (PredictionService.init "1.0.0" true).

End OptimizationService.

(** ** Conditions on the service state *)

Module Invariant.

(** Every cached key was built by [predict_efficiency]. *)
Definition only_efficiency_cached (s : State) : Prop :=
  forall k, is_Some (prediction_cache s !! k) -> String.prefix "efficiency_" k = true.

(** Every object on the heap was allocated by a dictionary literal, and
    every cache entry refers to an object on the heap. *)
Definition heap_wf (s : State) : Prop :=
  (forall l, is_Some (heap s !! l) -> (l < next_loc s)%nat)
  /\ (forall k e, prediction_cache s !! k = Some e -> is_Some (heap s !! data e)).

(** The two estimators are loaded. *)
Definition both_loaded (s : State) : Prop :=
  is_Some (models s !! "efficiency") /\ is_Some (models s !! "maintenance").

End Invariant.

(** ** Properties in the words of the specification

    Each definition below words a property the way the specification
    states it, to be compared with what the embedded code does. *)

Module Stated.
Import PredictionService.
Local Open Scope Q_scope.

(** ['processing_time_ms'] of the result dictionary at [l]. *)
Definition processing_time (s : State) (l : loc) : option Q :=
  match heap s !! l with
  | Some o => processing_time_ms o
  | None => None
  end.

(** "Calling [predict_efficiency(R)] twice [...] the second call's measured
    processing time is materially smaller than the first's." *)
Definition second_call_is_faster (env : Env) (sd : Reading) (s : State) : Prop :=
  forall l1 s1 l2 s2 t1 t2,
    predict_efficiency env sd s = (inr l1, s1) ->
    predict_efficiency env sd s1 = (inr l2, s2) ->
    processing_time s1 l1 = Some t1 ->
    processing_time s2 l2 = Some t2 ->
    t2 < t1.

(** "[get] returns the cached value only if [now - created_at <= ttl]",
    read as an equivalence. *)
Definition hit_iff_age_at_most_ttl (env : Env) (key : string) (s : State) : Prop :=
  forall e, prediction_cache s !! key = Some e ->
    (fst (cache_check env key s) = inr (Some (data e))
     <-> clk env (tick s) - timestamp e <= cache_ttl s).

(** "[score = Σ(impact[dim] * weight[dim])], scaled by
    [(1 − difficulty_penalty)] and [(1 − risk_penalty)]." *)
Definition stated_priority_score (w : OptimizationService.Weights)
    (r : OptimizationService.Recommendation) : Q :=
  (Py.dict_get "efficiency_gain" 0 (OptimizationService.impact r)
     * OptimizationService.w_efficiency w
   + Py.dict_get "energy_savings" 0 (OptimizationService.impact r)
     * OptimizationService.w_energy_savings w
   + Py.dict_get "maintenance_risk_reduction" 0 (OptimizationService.impact r)
     * OptimizationService.w_maintenance_risk w)
  * (1 - Py.dict_get (OptimizationService.difficulty r) 0
           OptimizationService.difficulty_penalty)
  * (1 - Py.dict_get (OptimizationService.risk_level r) 0
           OptimizationService.risk_penalty).

(** The stated formula is read in exact arithmetic and the score of the
    code is allowed to differ from it by rounding, up to a millionth. *)
Definition scores_as_stated : Prop :=
  forall recs w r,
    In r (OptimizationService._prioritize_recommendations recs w) ->
    exists score value,
      OptimizationService.priority_score r = Some score
      /\ Py.float_value score = Some value
      /\ Qabs (value - stated_priority_score w r) <= 1 # 1000000.

(** "A candidate is dropped if it violates any active numeric constraint of
    the selected strategy": whatever it means to violate the constraint
    named [k], something can violate it, and what violates it is not in the
    filtered list. *)
Definition drops_violators (k : string) : Prop :=
  exists violates : Q -> OptimizationService.Recommendation -> Prop,
    (exists c r, violates c r)
    /\ forall c r recs sd,
         violates c r -> In r recs ->
         ~ In r (OptimizationService._apply_strategy_constraints recs [(k, c)] sd).

Definition constraints_enforced : Prop :=
  forall strategy t k c,
    Py.dict_lookup strategy OptimizationService._load_optimization_templates = Some t ->
    In (k, c) (OptimizationService.constraints t) ->
    k <> "balanced_tradeoff" ->
    drops_violators k.

(** "No exception escapes the batch/network call." *)
Definition network_never_raises : Prop :=
  forall env network_data strategy s,
    exists result s',
      OptimizationService.optimize_network env network_data strategy s
      = (inr result, s').

(** The record that [get_batch_predictions] builds at position [i] for the
    unit [u] whose task ended with [outcome]. *)
Definition record_for (i : nat) (u : UnitData) (outcome : Py.Res UnitPrediction)
    (record : BatchRecord) : Prop :=
  br_unit_id record = default ("unit_" +:+ pretty i) (unit_id u)
  /\ match outcome with
     | inl e => br_success record = false
                /\ br_error record = Some (Py.exn_str e)
                /\ br_prediction record = None
     | inr p => br_success record = true
                /\ br_error record = None
                /\ br_prediction record = Some p
     end.

(** The task that [get_batch_predictions] creates for a unit, and the one
    that [optimize_network] creates for a unit that carries both keys. *)
Definition batch_task (env : Env) (u : UnitData) : M UnitPrediction :=
  PredictionService._predict_unit_comprehensive env
    (default "unknown" (unit_id u)) (default [] (sensor_data u)).

Definition network_task (env : Env) (strategy : string) (u : UnitData)
  : M OptimizationService.UnitOptimization :=
  OptimizationService.optimize_unit_comprehensive env
    (default "" (unit_id u)) (default [] (sensor_data u)) strategy 24.

(** The state in which the task at position [i] of a gather that begins
    in [s] is started: the one left by the [i] tasks before it, whether
    they returned or raised. *)
Definition started {A} (tasks : list (M A)) (s : State) (i : nat) : State :=
  foldl (fun s task => snd (task s)) s (take i tasks).

(** A network unit that carries both keys. *)
Definition has_keys (u : UnitData) : Prop :=
  is_Some (unit_id u) /\ is_Some (sensor_data u).

(** The successful outcomes, and the failure records of the failed units,
    each in the order of the input list. *)
Definition successes {A} (outcomes : list (Py.Res A)) : list A :=
  omap (fun o => match o with inr r => Some r | inl _ => None end) outcomes.

Definition failure_records {A} (units : list UnitData) (outcomes : list (Py.Res A))
  : list (string * string) :=
  omap (fun uo => match snd uo with
                  | inl e => Some (default "" (unit_id (fst uo)), Py.exn_str e)
                  | inr _ => None
                  end)
       (zip units outcomes).

End Stated.

(** ** Concrete surroundings used in the examples *)

Module Demo.
Local Open Scope Q_scope.

Definition quote (s : string) : string :=
  String (Ascii.ascii_of_nat 34) (s +:+ String (Ascii.ascii_of_nat 34) EmptyString).

(** A clock that reads the given seconds, then stays at [last]. *)
Definition clock (readings : list Q) (last : Q) (n : nat) : Q :=
  nth n readings last.

Definition env_with (c : nat -> Q) : Env :=
  {| clk := c;
     hour_of := fun _ => 12%Z;
     py_hash := fun s => Z.of_nat (String.length s);
     str_num := fun q => pretty (Qnum q) +:+ "/" +:+ pretty (Zpos (Qden q));
     json_str := quote;
     py_round2 := fun q => q |}.

(** One second between two readings of the clock. *)
Definition env : Env := env_with (fun n => inject_Z (Z.of_nat n)).

Definition reading : Reading :=
  [ ("temperature", 755 # 10); ("pressure", 452 # 10); ("flow_rate", 12005 # 10);
    ("energy_consumption", 8502 # 10); ("co2_concentration", 4128 # 10) ].

(** The same pairs, inserted in another order. *)
Definition reading_reordered : Reading :=
  [ ("pressure", 452 # 10); ("temperature", 755 # 10); ("flow_rate", 12005 # 10);
    ("energy_consumption", 8502 # 10); ("co2_concentration", 4128 # 10) ].

Definition operational : Py.Dict Value :=
  [ ("energy_consumption", VNum (8502 # 10)); ("peak_hours", VBool false) ].

Definition operational_reordered : Py.Dict Value :=
  [ ("peak_hours", VBool false); ("energy_consumption", VNum (8502 # 10)) ].

(** An estimator that answers 82.5 whatever the reading. *)
Definition model_825 : Model := fun _ => inr (825 # 10).

(** Training stores an estimator under its name in [optimizer.models]. *)
Definition with_model (name : string) (m : Model) (s : State) : State :=
  {| models := <[name := m]> (models s); model_version := model_version s;
     cache_enabled := cache_enabled s; cache_ttl := cache_ttl s;
     prediction_cache := prediction_cache s; heap := heap s;
     next_loc := next_loc s; tick := tick s; submitted := submitted s;
     in_flight := in_flight s |}.

(** The first five readings of the clock are 0; from then on it is 300. *)
Definition env_300 : Env := env_with (clock [0; 0; 0; 0; 0] 300).

(** A freshly constructed service, before any training. *)
Definition untrained : State := PredictionService.init "1.0.0" true.

(** A service whose efficiency and maintenance estimators are loaded. *)
Definition trained : State :=
  with_model "efficiency" model_825
    (with_model "maintenance" (fun _ => inr (5 # 10)) untrained).

(** A reading that triggers the three efficiency candidates. *)
Definition hot_reading : Reading :=
  [ ("temperature", 755 # 10); ("pressure", 60); ("flow_rate", 1400);
    ("energy_consumption", 8502 # 10) ].

(** The candidate that [hot_reading] and [reading] both trigger, and the
    dictionary that the ranking makes of it when it comes first. *)
Definition temperature_candidate : OptimizationService.Recommendation :=
  OptimizationService.candidate "temp_optimization" "efficiency"
    "Temperature Optimization"
    [ ("efficiency_gain", 25 # 10); ("energy_savings", 35); ("co2_reduction", 12) ]
    "medium" 2 0 "low".

Definition efficiency_focused_weights : OptimizationService.Weights :=
  {| OptimizationService.w_efficiency := 5 # 10;
     OptimizationService.w_energy_savings := 3 # 10;
     OptimizationService.w_maintenance_risk := 2 # 10 |}.

Definition balanced_weights : OptimizationService.Weights :=
  {| OptimizationService.w_efficiency := 33 # 100;
     OptimizationService.w_energy_savings := 33 # 100;
     OptimizationService.w_maintenance_risk := 34 # 100 |}.

(** A renewable shift whose energy savings are 55: in exact arithmetic its
    score under ['balanced'] is that of the temperature candidate, 1.782. *)
Definition renewable_shift_55 : OptimizationService.Recommendation :=
  OptimizationService.candidate "renewable_shift" "energy"
    "Increase Renewable Energy Usage"
    [ ("efficiency_gain", 5 # 10); ("energy_savings", 55); ("co2_reduction", 22) ]
    "medium" 8 500 "low".

Definition ranked_temperature_candidate : OptimizationService.Recommendation :=
  OptimizationService.set_priority 1
    (OptimizationService.calculate_priority_score efficiency_focused_weights
       temperature_candidate)
    temperature_candidate.

(** A state that holds the three result dictionaries of a unit, as if all
    three predictions had been answered: energy savings of 200 kWh. *)
Definition with_results : State :=
  {| models := models trained; model_version := "1.0.0"; cache_enabled := true;
     cache_ttl := 300; prediction_cache := ∅;
     heap :=
       <[0%nat := {| payload := PEff (Optimizer.efficiency_result reading "1.0.0"
                                        (825 # 10) 0);
                     processing_time_ms := Some 4000 |}]>
       (<[1%nat := {| payload :=
                        PMaint {| maintenance_score := 5 # 10; alerts := [];
                                  next_maintenance_date := 0; mnt_risk_level := "medium";
                                  mnt_model_version := "1.0.0"; mnt_timestamp := 0 |};
                      processing_time_ms := Some 0 |}]>
        (<[2%nat := {| payload :=
                         PEnergy {| energy_savings := 200; cost_savings := 8;
                                    renewable_usage := 20; recommendations := [];
                                    current_energy_consumption := 850;
                                    optimization_potential := 23;
                                    en_timestamp := 0 |};
                       processing_time_ms := Some 0 |}]> ∅));
     next_loc := 3%nat; tick := 0%nat; submitted := []; in_flight := [] |}.

(** Two units that carry both keys, the second with an incomplete reading,
    and a unit without the key ['unit_id']. *)
Definition units : list UnitData :=
  [ {| unit_id := Some "CC-001"; sensor_data := Some reading |};
    {| unit_id := Some "CC-002"; sensor_data := Some [("temperature", 20)] |} ].

Definition unit_without_id : UnitData :=
  {| unit_id := None; sensor_data := Some reading |}.

(** The trained service after one [predict_efficiency] at clock reading 0:
    the result is cached with timestamp 0, and the next reading is 300. *)
Definition cached_at_0 : State :=
  snd (PredictionService.predict_efficiency env_300 reading trained).

End Demo.

(** * Properties *)

(** ** Numbers, strings and the stable sort *)

Module PyFacts.
Import Py.

Lemma Qltb_lt a b : Qltb a b = true <-> (a < b)%Q.
Proof.
  unfold Qltb. rewrite negb_true_iff.
  destruct (Qle_bool b a) eqn:E.
  - apply Qle_bool_iff in E. split; [discriminate | intros H; exfalso; lra].
  - split; [intros _ | reflexivity].
    apply Qnot_le_lt. intros H. apply Qle_bool_iff in H. congruence.
Qed.

Lemma Qltb_ge a b : Qltb a b = false <-> (b <= a)%Q.
Proof. unfold Qltb. rewrite negb_false_iff. apply Qle_bool_iff. Qed.

Lemma Qgtb_gt a b : Qgtb a b = true <-> (b < a)%Q.
Proof. apply Qltb_lt. Qed.

Lemma Qgtb_le a b : Qgtb a b = false <-> (a <= b)%Q.
Proof. apply Qltb_ge. Qed.

Lemma dict_in_lookup {V} k (d : Dict V) :
  dict_in k d = true <-> exists v, dict_lookup k d = Some v.
Proof.
  unfold dict_in. destruct (dict_lookup k d) as [v|]; split.
  - intros _. exists v. reflexivity.
  - reflexivity.
  - discriminate.
  - intros [v Hv]. discriminate.
Qed.

Lemma dict_in_false {V} k (d : Dict V) :
  dict_in k d = false <-> dict_lookup k d = None.
Proof. unfold dict_in. destruct (dict_lookup k d); split; congruence. Qed.

(** The order of strings. *)
Lemma ascii_compare_lt_trans a b c :
  Ascii.compare a b = Lt -> Ascii.compare b c = Lt -> Ascii.compare a c = Lt.
Proof.
  unfold Ascii.compare. rewrite !N.compare_lt_iff. apply N.lt_trans.
Qed.

Lemma ascii_compare_eq a b : Ascii.compare a b = Eq <-> a = b.
Proof.
  split; [apply Ascii.compare_eq_iff |].
  intros ->. unfold Ascii.compare. apply N.compare_refl.
Qed.

Lemma string_compare_lt_trans s1 : forall s2 s3,
  String.compare s1 s2 = Lt -> String.compare s2 s3 = Lt -> String.compare s1 s3 = Lt.
Proof.
  induction s1 as [|a s1 IH]; intros [|b s2] [|c s3]; simpl;
    try (intros; discriminate); try reflexivity.
  destruct (Ascii.compare a b) eqn:Eab; try discriminate.
  - apply ascii_compare_eq in Eab. subst b.
    destruct (Ascii.compare a c) eqn:Eac; try discriminate; [apply IH | reflexivity].
  - intros _. destruct (Ascii.compare b c) eqn:Ebc; try discriminate.
    + apply ascii_compare_eq in Ebc. subst c. rewrite Eab. reflexivity.
    + intros _. rewrite (ascii_compare_lt_trans a b c Eab Ebc). reflexivity.
Qed.

Lemma string_ltb_asym s1 s2 : String.ltb s1 s2 = true -> String.ltb s2 s1 = false.
Proof.
  unfold String.ltb. rewrite (String.compare_antisym s1 s2).
  destruct (String.compare s2 s1); simpl; intros; first [discriminate | reflexivity].
Qed.

Lemma string_ltb_total s1 s2 :
  s1 <> s2 -> String.ltb s1 s2 = true \/ String.ltb s2 s1 = true.
Proof.
  intros Hne. unfold String.ltb. rewrite (String.compare_antisym s1 s2).
  destruct (String.compare s2 s1) eqn:E; simpl; auto.
  apply String.compare_eq_iff in E. congruence.
Qed.

Lemma string_ltb_neg_trans x y z :
  String.ltb z y = true -> String.ltb z x = false -> String.ltb x y = true.
Proof.
  unfold String.ltb. intros Hzy Hzx.
  destruct (String.compare z y) eqn:Ezy; try discriminate.
  destruct (String.compare z x) eqn:Ezx; try discriminate.
  - apply String.compare_eq_iff in Ezx. subst x. rewrite Ezy. reflexivity.
  - assert (Hxz : String.compare x z = Lt).
    { rewrite String.compare_antisym, Ezx. reflexivity. }
    rewrite (string_compare_lt_trans x z y Hxz Ezy). reflexivity.
Qed.

Lemma Sorted_weaken {A} (R R' : A -> A -> Prop) (l : list A) :
  (forall a b, R a b -> R' a b) -> Sorted R l -> Sorted R' l.
Proof.
  intros HR. induction 1 as [|a l Hs IH Hhd]; constructor; [exact IH |].
  destruct Hhd as [|b l Hab]; constructor. apply HR, Hab.
Qed.

Section StableSort.
Context {A : Type} (before : A -> A -> bool).

Lemma insert_stable_perm x l : Permutation (insert_stable before x l) (x :: l).
Proof.
  induction l as [|y l IH]; simpl; [reflexivity |].
  destruct (before y x); [| reflexivity].
  rewrite IH. apply perm_swap.
Qed.

Lemma sorted_perm l : Permutation (sorted before l) l.
Proof.
  induction l as [|x l IH]; simpl; [reflexivity |].
  rewrite insert_stable_perm. constructor. exact IH.
Qed.

Lemma sorted_length l : length (sorted before l) = length l.
Proof. apply Permutation_length, sorted_perm. Qed.

(** Neighbours are in order as soon as [before] is asymmetric. *)
Hypothesis before_asym : forall a b, before a b = true -> before b a = false.

Lemma insert_stable_sorted x l :
  Sorted (fun a b => before b a = false) l ->
  Sorted (fun a b => before b a = false) (insert_stable before x l).
Proof.
  induction 1 as [|y l Hs IH Hhd]; simpl.
  - repeat constructor.
  - destruct (before y x) eqn:Eyx.
    + constructor; [exact IH |].
      destruct l as [|z l]; simpl.
      * constructor. apply before_asym, Eyx.
      * inversion Hhd; subst.
        destruct (before z x); constructor; auto.
    + constructor; [constructor; assumption |]. constructor. exact Eyx.
Qed.

Lemma sorted_sorted l : Sorted (fun a b => before b a = false) (sorted before l).
Proof.
  induction l as [|x l IH]; simpl; [constructor |].
  apply insert_stable_sorted, IH.
Qed.

(** Stability: a class of mutually unordered elements keeps its order. *)
Lemma insert_stable_filter p x l :
  (forall a b, p a = true -> p b = true -> before a b = false) ->
  List.filter p (insert_stable before x l) = List.filter p (x :: l).
Proof.
  intros Hp. induction l as [|y l IH]; [reflexivity |].
  simpl insert_stable. destruct (before y x) eqn:Eyx; [| reflexivity].
  simpl. simpl in IH. destruct (p y) eqn:Epy.
  - destruct (p x) eqn:Epx.
    + rewrite (Hp y x Epy Epx) in Eyx. discriminate.
    + rewrite IH. reflexivity.
  - exact IH.
Qed.

Lemma sorted_stable p l :
  (forall a b, p a = true -> p b = true -> before a b = false) ->
  List.filter p (sorted before l) = List.filter p l.
Proof.
  intros Hp. induction l as [|x l IH]; [reflexivity |].
  simpl sorted. rewrite insert_stable_filter by exact Hp.
  simpl. rewrite IH. reflexivity.
Qed.

(** Insertions commute on comparable elements, so the sorted list does
    not depend on the order in which distinct items arrive. *)
Hypothesis before_neg_trans :
  forall x y z, before z y = true -> before z x = false -> before x y = true.

Lemma insert_stable_comm x y l :
  before x y = true \/ before y x = true ->
  insert_stable before x (insert_stable before y l)
  = insert_stable before y (insert_stable before x l).
Proof.
  intros Hxy. induction l as [|z l IH]; simpl.
  - destruct Hxy as [H | H]; rewrite H, (before_asym _ _ H); reflexivity.
  - destruct (before z y) eqn:Ezy, (before z x) eqn:Ezx; simpl;
      rewrite ?Ezy, ?Ezx.
    + rewrite IH. reflexivity.
    + rewrite (before_neg_trans x y z Ezy Ezx). simpl. rewrite ?Ezy. reflexivity.
    + rewrite (before_neg_trans y x z Ezx Ezy). simpl. rewrite ?Ezx. reflexivity.
    + destruct Hxy as [H | H]; rewrite H, (before_asym _ _ H); simpl;
        rewrite ?Ezy, ?Ezx; reflexivity.
Qed.

Lemma sorted_perm_eq l1 l2 :
  Permutation l1 l2 ->
  (forall a b, In a l1 -> In b l1 -> a <> b ->
               before a b = true \/ before b a = true) ->
  NoDup l1 ->
  sorted before l1 = sorted before l2.
Proof.
  induction 1 as [| x l l' Hp IH | x y l | l l' l'' Hp1 IH1 Hp2 IH2];
    intros Hcmp Hnd.
  - reflexivity.
  - simpl. f_equal. apply IH.
    + intros a b Ha Hb. apply Hcmp; right; assumption.
    + apply NoDup_cons_1_2 in Hnd. exact Hnd.
  - simpl. apply insert_stable_comm.
    apply NoDup_cons in Hnd as [Hy _].
    assert (Hne : y <> x) by (intros ->; apply Hy; left).
    destruct (Hcmp y x) as [H | H]; auto.
    + left. reflexivity.
    + right. left. reflexivity.
  - rewrite IH1 by assumption. apply IH2.
    + intros a b Ha Hb. apply Hcmp; eapply Permutation_in;
        try (symmetry; exact Hp1); assumption.
    + rewrite <- Hp1. exact Hnd.
Qed.
End StableSort.

End PyFacts.

(** ** The order of binary64 *)

Module FloatFacts.
Import SpecFloat FloatOps FloatAxioms.

(** Case analysis on the specification of the comparisons. *)
Ltac sf_cases :=
  repeat match goal with
         | x : spec_float |- _ => destruct x as [ [|] | [|] | | [|] ? ? ]
         end;
  cbn [SFltb SFeqb SFleb SFcompare negb]; try reflexivity; try discriminate;
  change (Pos.compare_cont Eq) with Pos.compare;
  repeat match goal with
         | |- context [Z.compare ?a ?b] => destruct (Z.compare_spec a b)
         | |- context [Pos.compare ?a ?b] => destruct (Pos.compare_spec a b)
         end;
  cbn [CompOpp negb]; intros; subst;
  first [ reflexivity | discriminate | congruence | (exfalso; lia) ].

Lemma SFltb_asym x y : SFltb x y = true -> SFltb y x = false.
Proof. sf_cases. Qed.

Lemma SFltb_neg_trans x y z :
  y <> S754_nan -> SFltb x y = false -> SFltb y z = false -> SFltb x z = false.
Proof. sf_cases. Qed.

Lemma SFeqb_ties x y q : SFeqb x q = true -> SFeqb y q = true -> SFltb y x = false.
Proof. sf_cases. Qed.

Lemma SFleb_ltb x y :
  x <> S754_nan -> y <> S754_nan -> SFleb y x = negb (SFltb x y).
Proof. sf_cases. Qed.

Lemma not_nan x : PrimFloat.is_nan x = false -> Prim2SF x <> S754_nan.
Proof.
  unfold PrimFloat.is_nan. rewrite eqb_spec. intros H E. rewrite E in H. discriminate.
Qed.

Lemma ltb_asym a b : (a <? b)%float = true -> (b <? a)%float = false.
Proof. rewrite !ltb_spec. apply SFltb_asym. Qed.

(** Among numbers, "not below" is transitive; a NaN in the middle would
    break it. *)
Lemma ltb_neg_trans a b c :
  PrimFloat.is_nan b = false ->
  (a <? b)%float = false -> (b <? c)%float = false -> (a <? c)%float = false.
Proof. intros Hb. rewrite !ltb_spec. apply SFltb_neg_trans, not_nan, Hb. Qed.

Lemma eqb_ties a b q :
  (a =? q)%float = true -> (b =? q)%float = true -> (b <? a)%float = false.
Proof. rewrite !eqb_spec, ltb_spec. apply SFeqb_ties. Qed.

Lemma leb_ltb a b :
  PrimFloat.is_nan a = false -> PrimFloat.is_nan b = false ->
  (b <=? a)%float = negb (a <? b)%float.
Proof.
  intros Ha Hb. rewrite leb_spec, ltb_spec. apply SFleb_ltb; apply not_nan; assumption.
Qed.

End FloatFacts.

(** ** Cache keys *)

Module KeyFacts.
Import Py PyFacts PredictionService.

Lemma NoDup_keys_inj {V} (d : Dict V) a b :
  NoDup (keys d) -> In a d -> In b d -> fst a = fst b -> a = b.
Proof.
  unfold keys. induction d as [|x d IH]; simpl; intros Hnd Ha Hb Hab; [contradiction |].
  apply NoDup_cons in Hnd as [Hx Hnd].
  destruct Ha as [-> | Ha], Hb as [-> | Hb]; auto.
  - exfalso. apply Hx. rewrite Hab. apply list_elem_of_In, in_map, Hb.
  - exfalso. apply Hx. rewrite <- Hab. apply list_elem_of_In, in_map, Ha.
Qed.

Lemma NoDup_keys_items {V} (d : Dict V) : NoDup (keys d) -> NoDup d.
Proof. unfold keys. apply NoDup_fmap_1. Qed.

(** [json.dumps(..., sort_keys=True)] does not depend on insertion order. *)
Lemma json_dumps_perm {V} env (dv : V -> string) (d1 d2 : Dict V) :
  NoDup (keys d1) -> Permutation d1 d2 ->
  json_dumps env dv d1 = json_dumps env dv d2.
Proof.
  intros Hnd Hp. unfold json_dumps.
  rewrite (sorted_perm_eq key_before) with (l2 := d2); auto.
  - intros a b. unfold key_before. apply string_ltb_asym.
  - intros x y z. unfold key_before. apply string_ltb_neg_trans.
  - intros a b Ha Hb Hne. unfold key_before. apply string_ltb_total.
    intros Hk. apply Hne. eapply NoDup_keys_inj; eauto.
  - apply NoDup_keys_items, Hnd.
Qed.

(** C5.  The cache key of one request kind is never the key of another
    kind, whatever the maps (so the same map sent to [predict_efficiency]
    and to [predict_maintenance] never meets the same cache entry); and for
    a fixed kind the key does not depend on the order in which the pairs of
    the map were inserted. *)
Theorem cache_key_scoped_and_canonical (env : Env) (d1 d2 : Reading)
    (o1 o2 : Dict Value) :
  NoDup (keys d1) -> Permutation d1 d2 ->
  NoDup (keys o1) -> Permutation o1 o2 ->
  (efficiency_key env d1 <> maintenance_key env d1
   /\ efficiency_key env d1 <> maintenance_key env d2
   /\ efficiency_key env d1 <> energy_key env o1
   /\ maintenance_key env d1 <> energy_key env o1)
  /\ (efficiency_key env d1 = efficiency_key env d2
      /\ maintenance_key env d1 = maintenance_key env d2
      /\ energy_key env o1 = energy_key env o2).
Proof.
  intros Hd Hpd Ho Hpo. split.
  - unfold efficiency_key, maintenance_key, energy_key.
    repeat split; intros H; discriminate H.
  - unfold efficiency_key, maintenance_key, energy_key.
    rewrite (json_dumps_perm env (str_num env) d1 d2 Hd Hpd).
    rewrite (json_dumps_perm env (dumps_value env) o1 o2 Ho Hpo).
    repeat split.
Qed.

Lemma cache_key_scoped_and_canonical_witness :
  (efficiency_key Demo.env Demo.reading <> maintenance_key Demo.env Demo.reading
   /\ efficiency_key Demo.env Demo.reading
      <> maintenance_key Demo.env Demo.reading_reordered
   /\ efficiency_key Demo.env Demo.reading <> energy_key Demo.env Demo.operational
   /\ maintenance_key Demo.env Demo.reading <> energy_key Demo.env Demo.operational)
  /\ (efficiency_key Demo.env Demo.reading
      = efficiency_key Demo.env Demo.reading_reordered
      /\ maintenance_key Demo.env Demo.reading
         = maintenance_key Demo.env Demo.reading_reordered
      /\ energy_key Demo.env Demo.operational
         = energy_key Demo.env Demo.operational_reordered).
Proof.
  apply (cache_key_scoped_and_canonical Demo.env Demo.reading Demo.reading_reordered
           Demo.operational Demo.operational_reordered).
  - apply (bool_decide_unpack _). vm_compute. reflexivity.
  - apply perm_swap.
  - apply (bool_decide_unpack _). vm_compute. reflexivity.
  - apply perm_swap.
Defined.

End KeyFacts.

(** ** The prediction service *)

Module ServiceFacts.
Import Py PyFacts Asyncio PredictionService.
Local Open Scope Q_scope.

(** Running monadic code one step further. *)
Ltac run :=
  cbv beta iota zeta delta
    [bind ret raise lift get_state modify time_time datetime_now_hour alloc
     set_processing_time cache_store _clean_cache annotate];
  cbn [set_tick set_heap set_cache set_submitted set_in_flight
       models model_version cache_enabled cache_ttl prediction_cache heap
       next_loc tick submitted in_flight fst snd].

(** The answer of the cache check, and what it leaves untouched. *)
Lemma cache_check_answer env key s :
  fst (cache_check env key s) = inr (lookup_fresh (clk env (tick s)) key s).
Proof.
  unfold cache_check, lookup_fresh, bind, get_state, time_time, ret.
  destruct (cache_enabled s); [| reflexivity].
  destruct (prediction_cache s !! key) as [e|]; [| reflexivity].
  simpl. destruct (Qltb _ _); reflexivity.
Qed.

Lemma cache_check_state env key s :
  snd (cache_check env key s) = s
  \/ snd (cache_check env key s) = set_tick (S (tick s)) s.
Proof.
  unfold cache_check, bind, get_state, time_time, ret.
  destruct (cache_enabled s); [| left; reflexivity].
  destruct (prediction_cache s !! key) as [e|]; [| left; reflexivity].
  right. simpl. destruct (Qltb _ _); reflexivity.
Qed.

Lemma cache_check_hit_state env key s l :
  lookup_fresh (clk env (tick s)) key s = Some l ->
  cache_check env key s = (inr (Some l), set_tick (S (tick s)) s).
Proof.
  unfold cache_check, lookup_fresh, bind, get_state, time_time, ret.
  destruct (cache_enabled s); [| discriminate].
  destruct (prediction_cache s !! key) as [e|]; [| discriminate].
  simpl. destruct (Qltb _ _); [| discriminate].
  intros [= <-]. reflexivity.
Qed.

(** On a hit the three operations return the cached object and change
    nothing but the clock. *)
Lemma predict_efficiency_hit env sd s l :
  lookup_fresh (clk env (S (tick s))) (efficiency_key env sd) s = Some l ->
  predict_efficiency env sd s = (inr l, set_tick (S (S (tick s))) s).
Proof.
  intros H. unfold predict_efficiency, bind at 1. unfold time_time at 1.
  unfold bind at 1.
  rewrite (cache_check_hit_state env _ (set_tick (S (tick s)) s) l) by exact H.
  reflexivity.
Qed.

(** On a miss [predict_efficiency] hands the estimator call to the pool. *)
Lemma predict_efficiency_miss env sd s :
  lookup_fresh (clk env (S (tick s))) (efficiency_key env sd) s = None ->
  exists s1,
    (s1 = set_tick (S (tick s)) s \/ s1 = set_tick (S (S (tick s))) s)
    /\ predict_efficiency env sd s
       = compute_efficiency env sd (clk env (tick s))
           (set_submitted (submitted s ++ ["predict_efficiency"]) s1).
Proof.
  intros H.
  assert (Ha : fst (cache_check env (efficiency_key env sd) (set_tick (S (tick s)) s))
               = inr (lookup_fresh (clk env (S (tick s))) (efficiency_key env sd) s))
    by exact (cache_check_answer env (efficiency_key env sd) (set_tick (S (tick s)) s)).
  pose proof (cache_check_state env (efficiency_key env sd) (set_tick (S (tick s)) s)) as Hs.
  rewrite H in Ha.
  destruct (cache_check env (efficiency_key env sd) (set_tick (S (tick s)) s))
    as [r s1] eqn:E.
  simpl in Ha, Hs. subst r. exists s1. split.
  - destruct Hs as [-> | ->]; [left | right]; reflexivity.
  - unfold predict_efficiency. unfold bind at 1. unfold time_time at 1.
    unfold bind at 1. rewrite E.
    unfold run_in_executor. unfold bind at 1. unfold bind at 1. unfold modify.
    destruct Hs as [-> | ->]; reflexivity.
Qed.

(** [predict_maintenance] and [optimize_energy] pass the bound method where
    the executor belongs: on a miss nothing is run. *)
Lemma predict_maintenance_miss env sd s :
  lookup_fresh (clk env (S (tick s))) (maintenance_key env sd) s = None ->
  exists s1,
    (s1 = set_tick (S (tick s)) s \/ s1 = set_tick (S (S (tick s))) s)
    /\ predict_maintenance env sd s
       = (inl (AttributeError "'function' object has no attribute 'submit'"), s1).
Proof.
  intros H.
  assert (Ha : fst (cache_check env (maintenance_key env sd) (set_tick (S (tick s)) s))
               = inr (lookup_fresh (clk env (S (tick s))) (maintenance_key env sd) s))
    by exact (cache_check_answer env (maintenance_key env sd) (set_tick (S (tick s)) s)).
  pose proof (cache_check_state env (maintenance_key env sd) (set_tick (S (tick s)) s)) as Hs.
  rewrite H in Ha.
  destruct (cache_check env (maintenance_key env sd) (set_tick (S (tick s)) s))
    as [r s1] eqn:E.
  simpl in Ha, Hs. subst r. exists s1. split.
  - destruct Hs as [-> | ->]; [left | right]; reflexivity.
  - unfold predict_maintenance. unfold bind at 1. unfold time_time at 1.
    unfold bind at 1. rewrite E. reflexivity.
Qed.

Lemma optimize_energy_miss env od s :
  lookup_fresh (clk env (S (tick s))) (energy_key env od) s = None ->
  exists s1,
    (s1 = set_tick (S (tick s)) s \/ s1 = set_tick (S (S (tick s))) s)
    /\ optimize_energy env od s
       = (inl (AttributeError "'function' object has no attribute 'submit'"), s1).
Proof.
  intros H.
  assert (Ha : fst (cache_check env (energy_key env od) (set_tick (S (tick s)) s))
               = inr (lookup_fresh (clk env (S (tick s))) (energy_key env od) s))
    by exact (cache_check_answer env (energy_key env od) (set_tick (S (tick s)) s)).
  pose proof (cache_check_state env (energy_key env od) (set_tick (S (tick s)) s)) as Hs.
  rewrite H in Ha.
  destruct (cache_check env (energy_key env od) (set_tick (S (tick s)) s))
    as [r s1] eqn:E.
  simpl in Ha, Hs. subst r. exists s1. split.
  - destruct Hs as [-> | ->]; [left | right]; reflexivity.
  - unfold optimize_energy. unfold bind at 1. unfold time_time at 1.
    unfold bind at 1. rewrite E. reflexivity.
Qed.

Lemma predict_maintenance_hit env sd s l :
  lookup_fresh (clk env (S (tick s))) (maintenance_key env sd) s = Some l ->
  predict_maintenance env sd s = (inr l, set_tick (S (S (tick s))) s).
Proof.
  intros H. unfold predict_maintenance, bind at 1. unfold time_time at 1.
  unfold bind at 1.
  rewrite (cache_check_hit_state env _ (set_tick (S (tick s)) s) l) by exact H.
  reflexivity.
Qed.

Lemma optimize_energy_hit env od s l :
  lookup_fresh (clk env (S (tick s))) (energy_key env od) s = Some l ->
  optimize_energy env od s = (inr l, set_tick (S (S (tick s))) s).
Proof.
  intros H. unfold optimize_energy, bind at 1. unfold time_time at 1.
  unfold bind at 1.
  rewrite (cache_check_hit_state env _ (set_tick (S (tick s)) s) l) by exact H.
  reflexivity.
Qed.

Lemma compute_efficiency_untrained env sd start s :
  models s !! "efficiency" = None ->
  compute_efficiency env sd start s
  = (inl (ValueError "Efficiency model not trained. Please train the model first."), s).
Proof.
  intros Hm. unfold compute_efficiency, Optimizer.predict_efficiency.
  run. rewrite Hm. reflexivity.
Qed.

Lemma compute_efficiency_raises env sd start s m e :
  models s !! "efficiency" = Some m -> m sd = inl e ->
  compute_efficiency env sd start s = (inl e, s).
Proof.
  intros Hm He. unfold compute_efficiency, Optimizer.predict_efficiency.
  run. rewrite Hm. run. rewrite He. reflexivity.
Qed.

Lemma compute_efficiency_enabled env sd start s m v :
  cache_enabled s = true ->
  models s !! "efficiency" = Some m -> m sd = inr v ->
  compute_efficiency env sd start s
  = (inr (next_loc s),
     set_heap
       (alter (fun o => {| payload := payload o;
                           processing_time_ms :=
                             Some ((clk env (S (S (S (tick s)))) - start) * 1000) |})
              (next_loc s)
              (<[next_loc s :=
                   {| payload := PEff (Optimizer.efficiency_result sd (model_version s) v
                                         (clk env (tick s)));
                      processing_time_ms := None |}]> (heap s)))
       (S (next_loc s))
       (set_cache
          (filter (fun kv => expired (clk env (S (S (tick s)))) (cache_ttl s) (snd kv) = false)
                  (<[efficiency_key env sd :=
                       {| data := next_loc s; timestamp := clk env (S (tick s)) |}]>
                     (prediction_cache s)))
          (set_tick (S (S (S (S (tick s))))) s))).
Proof.
  intros Hc Hm Hv. unfold compute_efficiency, Optimizer.predict_efficiency.
  run. rewrite Hm. run. rewrite Hv. run. rewrite Hc. run. rewrite ?Hc. reflexivity.
Qed.

End ServiceFacts.

Module CacheFacts.
Import Py PyFacts Asyncio PredictionService ServiceFacts.
Local Open Scope Q_scope.

Lemma compute_efficiency_submitted env sd start s :
  submitted (snd (compute_efficiency env sd start s)) = submitted s.
Proof.
  unfold compute_efficiency, Optimizer.predict_efficiency. run.
  destruct (models s !! "efficiency") as [m|]; run; [| reflexivity].
  destruct (m sd) as [e|v]; run; [reflexivity |].
  destruct (cache_enabled s); run; reflexivity.
Qed.

(** Without an efficiency estimator, or when the estimator raises, the
    computing path raises and leaves the state as it found it. *)
Lemma compute_efficiency_failure env sd start s e s' :
  compute_efficiency env sd start s = (inl e, s') -> s' = s.
Proof.
  unfold compute_efficiency, Optimizer.predict_efficiency. run.
  destruct (models s !! "efficiency") as [m|]; run; [| congruence].
  destruct (m sd) as [e'|v]; run; [congruence |].
  destruct (cache_enabled s); run; discriminate.
Qed.

Lemma compute_efficiency_success env sd start s l s' :
  compute_efficiency env sd start s = (inr l, s') ->
  exists m v, models s !! "efficiency" = Some m /\ m sd = inr v.
Proof.
  unfold compute_efficiency, Optimizer.predict_efficiency. run.
  destruct (models s !! "efficiency") as [m|]; run; [| discriminate].
  destruct (m sd) as [e'|v] eqn:E; run; [discriminate |].
  intros _. exists m, v. split; [reflexivity | exact E].
Qed.

(** C1.  On a cache miss only [predict_efficiency] hands its estimator call
    to the worker pool.  [predict_maintenance] and [optimize_energy] leave
    out the executor argument of [run_in_executor]: the bound method stands
    where the executor belongs, the call raises [AttributeError], nothing is
    submitted, nothing is stored and no result is returned.  On a hit all
    three return the cached object. *)
Theorem only_efficiency_reaches_the_pool (env : Env) (sd : Reading)
    (od : Dict Value) (s : State) :
  match lookup_fresh (clk env (S (tick s))) (efficiency_key env sd) s with
  | Some l => predict_efficiency env sd s = (inr l, set_tick (S (S (tick s))) s)
  | None =>
      submitted (snd (predict_efficiency env sd s))
      = submitted s ++ ["predict_efficiency"]
  end
  /\ match lookup_fresh (clk env (S (tick s))) (maintenance_key env sd) s with
     | Some l => predict_maintenance env sd s = (inr l, set_tick (S (S (tick s))) s)
     | None =>
         fst (predict_maintenance env sd s)
         = inl (AttributeError "'function' object has no attribute 'submit'")
         /\ submitted (snd (predict_maintenance env sd s)) = submitted s
         /\ prediction_cache (snd (predict_maintenance env sd s)) = prediction_cache s
         /\ heap (snd (predict_maintenance env sd s)) = heap s
     end
  /\ match lookup_fresh (clk env (S (tick s))) (energy_key env od) s with
     | Some l => optimize_energy env od s = (inr l, set_tick (S (S (tick s))) s)
     | None =>
         fst (optimize_energy env od s)
         = inl (AttributeError "'function' object has no attribute 'submit'")
         /\ submitted (snd (optimize_energy env od s)) = submitted s
         /\ prediction_cache (snd (optimize_energy env od s)) = prediction_cache s
         /\ heap (snd (optimize_energy env od s)) = heap s
     end.
Proof.
  split; [| split].
  - destruct (lookup_fresh _ (efficiency_key env sd) s) as [l|] eqn:E.
    + apply predict_efficiency_hit, E.
    + destruct (predict_efficiency_miss env sd s E) as (s1 & Hs1 & ->).
      rewrite compute_efficiency_submitted. destruct Hs1 as [-> | ->]; reflexivity.
  - destruct (lookup_fresh _ (maintenance_key env sd) s) as [l|] eqn:E.
    + apply predict_maintenance_hit, E.
    + destruct (predict_maintenance_miss env sd s E) as (s1 & Hs1 & ->).
      destruct Hs1 as [-> | ->]; repeat split; reflexivity.
  - destruct (lookup_fresh _ (energy_key env od) s) as [l|] eqn:E.
    + apply optimize_energy_hit, E.
    + destruct (optimize_energy_miss env od s E) as (s1 & Hs1 & ->).
      destruct Hs1 as [-> | ->]; repeat split; reflexivity.
Qed.

(** The same on the reading of the source's example, with both estimators
    loaded. *)
Example predict_maintenance_example :
  fst (predict_maintenance Demo.env Demo.reading Demo.trained)
  = inl (AttributeError "'function' object has no attribute 'submit'")
  /\ fst (optimize_energy Demo.env Demo.operational Demo.trained)
     = inl (AttributeError "'function' object has no attribute 'submit'")
  /\ fst (predict_efficiency Demo.env Demo.reading Demo.trained) = inr 0%nat.
Proof. vm_compute. repeat split. Qed.

Lemma cache_check_present env key s e :
  cache_enabled s = true ->
  prediction_cache s !! key = Some e ->
  cache_check env key s
  = (inr (if Qltb (clk env (tick s) - timestamp e) (cache_ttl s)
          then Some (data e) else None),
     set_tick (S (tick s)) s).
Proof.
  intros Hc He. unfold cache_check. run. rewrite Hc, He. run.
  destruct (Qltb _ _); reflexivity.
Qed.

Lemma predict_efficiency_stale env sd s e :
  cache_enabled s = true ->
  prediction_cache s !! efficiency_key env sd = Some e ->
  cache_ttl s <= clk env (S (tick s)) - timestamp e ->
  predict_efficiency env sd s
  = compute_efficiency env sd (clk env (tick s))
      (set_submitted (submitted s ++ ["predict_efficiency"])
                     (set_tick (S (S (tick s))) s)).
Proof.
  intros Hc He Hage. unfold predict_efficiency. unfold bind at 1.
  unfold time_time at 1. unfold bind at 1.
  rewrite (cache_check_present env _ (set_tick (S (tick s)) s) e Hc He).
  cbn [tick set_tick cache_ttl].
  apply Qltb_ge in Hage. rewrite Hage.
  reflexivity.
Qed.

(** The object that a successful computation leaves on the heap. *)
Lemma compute_efficiency_object env sd start s m v :
  cache_enabled s = true ->
  models s !! "efficiency" = Some m -> m sd = inr v ->
  heap (snd (compute_efficiency env sd start s)) !! next_loc s
  = Some {| payload := PEff (Optimizer.efficiency_result sd (model_version s) v
                               (clk env (tick s)));
            processing_time_ms :=
              Some ((clk env (S (S (S (tick s)))) - start) * 1000) |}.
Proof.
  intros Hc Hm Hv. rewrite (compute_efficiency_enabled env sd start s m v Hc Hm Hv).
  cbn [snd heap set_heap]. rewrite lookup_alter_eq, lookup_insert_eq. reflexivity.
Qed.

(** C6.  Without a trained estimator the optimizer raises its "model not
    trained" error and builds no result.  For the efficiency target
    [predict_efficiency] of the service lets that error through to its
    caller, and neither the heap nor the cache receives a default
    prediction.  For the maintenance target the error does not reach the
    caller of [predict_maintenance]: the call raises the [AttributeError] of
    the missing executor argument before the optimizer is asked, whether the
    estimator is trained or not. *)
Theorem not_ready_error_reaches_efficiency_callers_only (env : Env) (sd : Reading)
    (s : State) :
  (models s !! "efficiency" = None ->
   Optimizer.predict_efficiency env sd s
   = (inl (ValueError "Efficiency model not trained. Please train the model first."), s)
   /\ (lookup_fresh (clk env (S (tick s))) (efficiency_key env sd) s = None ->
       exists s',
         predict_efficiency env sd s
         = (inl (ValueError "Efficiency model not trained. Please train the model first."),
            s')
         /\ heap s' = heap s /\ prediction_cache s' = prediction_cache s))
  /\ (models s !! "maintenance" = None ->
      Optimizer.predict_maintenance env sd s
      = (inl (ValueError "Maintenance model not trained. Please train the model first."), s)
      /\ (lookup_fresh (clk env (S (tick s))) (maintenance_key env sd) s = None ->
          exists s',
            predict_maintenance env sd s
            = (inl (AttributeError "'function' object has no attribute 'submit'"), s')
            /\ fst (predict_maintenance env sd s)
               <> inl (ValueError
                         "Maintenance model not trained. Please train the model first.")
            /\ submitted s' = submitted s
            /\ heap s' = heap s /\ prediction_cache s' = prediction_cache s)).
Proof.
  split; intros Hm; split.
  - unfold Optimizer.predict_efficiency. run. rewrite Hm. reflexivity.
  - intros Hmiss.
    destruct (predict_efficiency_miss env sd s Hmiss) as (s1 & Hs1 & ->).
    eexists. split.
    + apply compute_efficiency_untrained. destruct Hs1 as [-> | ->]; exact Hm.
    + destruct Hs1 as [-> | ->]; split; reflexivity.
  - unfold Optimizer.predict_maintenance. run. rewrite Hm. reflexivity.
  - intros Hmiss.
    destruct (predict_maintenance_miss env sd s Hmiss) as (s1 & Hs1 & ->).
    exists s1. split; [reflexivity |]. split; [discriminate |].
    destruct Hs1 as [-> | ->]; repeat split.
Qed.

Lemma not_ready_error_reaches_efficiency_callers_only_witness :
  (Optimizer.predict_efficiency Demo.env Demo.reading Demo.untrained
   = (inl (ValueError "Efficiency model not trained. Please train the model first."),
      Demo.untrained)
   /\ exists s',
        predict_efficiency Demo.env Demo.reading Demo.untrained
        = (inl (ValueError "Efficiency model not trained. Please train the model first."),
           s')
        /\ heap s' = heap Demo.untrained
        /\ prediction_cache s' = prediction_cache Demo.untrained)
  /\ (Optimizer.predict_maintenance Demo.env Demo.reading Demo.untrained
      = (inl (ValueError "Maintenance model not trained. Please train the model first."),
         Demo.untrained)
      /\ exists s',
           predict_maintenance Demo.env Demo.reading Demo.untrained
           = (inl (AttributeError "'function' object has no attribute 'submit'"), s')
           /\ fst (predict_maintenance Demo.env Demo.reading Demo.untrained)
              <> inl (ValueError
                        "Maintenance model not trained. Please train the model first.")
           /\ submitted s' = submitted Demo.untrained
           /\ heap s' = heap Demo.untrained
           /\ prediction_cache s' = prediction_cache Demo.untrained).
Proof.
  destruct (not_ready_error_reaches_efficiency_callers_only Demo.env Demo.reading
              Demo.untrained) as [Heff Hmnt].
  split.
  - destruct (Heff eq_refl) as [H1 H2]. split; [exact H1 | exact (H2 eq_refl)].
  - destruct (Hmnt eq_refl) as [H1 H2]. split; [exact H1 | exact (H2 eq_refl)].
Defined.

(** C3 (as the code has it).  With caching enabled, a first call that
    computes and succeeds measures its wall-clock time and writes it into
    the result dictionary, which is also the cached object.  A second call
    for the same reading, whose cache check happens less than the TTL after
    the first call started, returns that very object and changes nothing but
    the clock: the payload is identical, nothing is recomputed, and
    ['processing_time_ms'] still is the time measured by the first call. *)
Theorem second_call_returns_cached_object (env : Env) (sd : Reading)
    (s0 s1 : State) (l : loc) :
  (forall i j, (i <= j)%nat -> clk env i <= clk env j) ->
  cache_enabled s0 = true ->
  lookup_fresh (clk env (S (tick s0))) (efficiency_key env sd) s0 = None ->
  predict_efficiency env sd s0 = (inr l, s1) ->
  clk env (S (tick s1)) - clk env (tick s0) < cache_ttl s0 ->
  (exists p,
     heap s1 !! l
     = Some {| payload := p;
               processing_time_ms :=
                 Some ((clk env (pred (tick s1)) - clk env (tick s0)) * 1000) |})
  /\ submitted s1 = submitted s0 ++ ["predict_efficiency"]
  /\ predict_efficiency env sd s1 = (inr l, set_tick (S (S (tick s1))) s1).
Proof.
  intros Hmono Hc Hmiss Hcall Hwin.
  destruct (predict_efficiency_miss env sd s0 Hmiss) as (sa & Hsa & Heq).
  rewrite Heq in Hcall.
  set (sx := set_submitted (submitted s0 ++ ["predict_efficiency"]) sa) in *.
  destruct (compute_efficiency_success _ _ _ _ _ _ Hcall) as (m & v & Hm & Hv).
  assert (Hcx : cache_enabled sx = true) by (destruct Hsa as [-> | ->]; exact Hc).
  assert (Httl : cache_ttl sx = cache_ttl s0) by (destruct Hsa as [-> | ->]; reflexivity).
  assert (Hsub : submitted sx = submitted s0 ++ ["predict_efficiency"])
    by (destruct Hsa as [-> | ->]; reflexivity).
  assert (Htick : (tick s0 <= tick sa)%nat)
    by (destruct Hsa as [-> | ->]; cbn [tick set_tick]; lia).
  rewrite (compute_efficiency_enabled env sd _ sx m v Hcx Hm Hv) in Hcall.
  injection Hcall as <- <-.
  cbn [tick set_heap set_cache set_tick] in Hwin.
  split; [| split].
  - eexists. cbn [heap set_heap tick set_cache set_tick pred].
    rewrite lookup_alter_eq, lookup_insert_eq. reflexivity.
  - cbn [submitted set_heap set_cache set_tick]. exact Hsub.
  - apply predict_efficiency_hit.
    unfold lookup_fresh.
    cbn [cache_enabled cache_ttl prediction_cache tick set_heap set_cache set_tick].
    rewrite Hcx.
    erewrite map_lookup_filter_Some_2; [| apply lookup_insert_eq |].
    + cbn [timestamp data]. rewrite Httl.
      assert (H1 : clk env (tick s0) <= clk env (S (tick sa))) by (apply Hmono; lia).
      assert (Hlt : clk env (S (S (S (S (S (tick sa))))))
                    - clk env (S (tick sa)) < cache_ttl s0) by lra.
      apply Qltb_lt in Hlt. cbn [sx tick set_submitted next_loc]. rewrite Hlt.
      reflexivity.
    + cbn [snd]. unfold expired. cbn [timestamp]. apply Qgtb_le.
      cbn [sx tick cache_ttl set_submitted]. cbn [sx cache_ttl set_submitted] in Httl.
      rewrite ?Httl.
      assert (H1 : clk env (tick s0) <= clk env (S (tick sa))) by (apply Hmono; lia).
      assert (H2 : clk env (S (S (tick sa)))
                   <= clk env (S (S (S (S (S (tick sa))))))) by (apply Hmono; lia).
      lra.
Qed.

Lemma second_call_returns_cached_object_witness :
  (exists p,
     heap (snd (predict_efficiency Demo.env Demo.reading Demo.trained)) !! 0%nat
     = Some {| payload := p;
               processing_time_ms :=
                 Some ((clk Demo.env
                          (pred (tick (snd (predict_efficiency Demo.env Demo.reading
                                              Demo.trained))))
                        - clk Demo.env (tick Demo.trained)) * 1000) |})
  /\ submitted (snd (predict_efficiency Demo.env Demo.reading Demo.trained))
     = submitted Demo.trained ++ ["predict_efficiency"]
  /\ predict_efficiency Demo.env Demo.reading
       (snd (predict_efficiency Demo.env Demo.reading Demo.trained))
     = (inr 0%nat,
        set_tick (S (S (tick (snd (predict_efficiency Demo.env Demo.reading
                                     Demo.trained)))))
                 (snd (predict_efficiency Demo.env Demo.reading Demo.trained))).
Proof.
  apply (second_call_returns_cached_object Demo.env Demo.reading Demo.trained).
  - intros i j Hij. cbn [clk Demo.env Demo.env_with].
    rewrite <- Zle_Qle. lia.
  - reflexivity.
  - reflexivity.
  - vm_compute. reflexivity.
  - vm_compute. reflexivity.
Defined.

(** The second call is not faster in its annotation: the cached dictionary
    still carries the 4000 ms of the first call. *)
Lemma cached_result_keeps_first_processing_time :
  ~ Stated.second_call_is_faster Demo.env Demo.reading Demo.trained.
Proof.
  intros H.
  specialize (H 0%nat (snd (predict_efficiency Demo.env Demo.reading Demo.trained))
                0%nat
                (snd (predict_efficiency Demo.env Demo.reading
                        (snd (predict_efficiency Demo.env Demo.reading Demo.trained))))
                4000 4000).
  assert (Hlt : 4000 < 4000).
  { apply H; vm_compute; reflexivity. }
  revert Hlt. vm_compute. discriminate.
Qed.

(** C4 (as the code has it).  An entry is served exactly while its age is
    strictly below the TTL, which a new service sets to 300 seconds; the
    check itself never removes an entry.  When the entry of a reading has
    reached the TTL, [predict_efficiency] computes again: with an estimator
    loaded, the call goes to the pool and the fresh result carries what the
    estimator answers now; without one, the call raises and the stale entry
    is still in the cache. *)
Theorem cache_serves_entries_younger_than_ttl (env : Env) (sd : Reading)
    (s : State) (e : CacheEntry) :
  cache_enabled s = true ->
  prediction_cache s !! efficiency_key env sd = Some e ->
  cache_ttl (init (model_version s) true) == 300
  /\ (fst (cache_check env (efficiency_key env sd) s) = inr (Some (data e))
      <-> clk env (tick s) - timestamp e < cache_ttl s)
  /\ (fst (cache_check env (efficiency_key env sd) s) = inr None
      <-> cache_ttl s <= clk env (tick s) - timestamp e)
  /\ prediction_cache (snd (cache_check env (efficiency_key env sd) s))
     = prediction_cache s
  /\ (cache_ttl s <= clk env (S (tick s)) - timestamp e ->
      (forall m v,
         models s !! "efficiency" = Some m -> m sd = inr v ->
         fst (predict_efficiency env sd s) = inr (next_loc s)
         /\ submitted (snd (predict_efficiency env sd s))
            = submitted s ++ ["predict_efficiency"]
         /\ exists t,
              heap (snd (predict_efficiency env sd s)) !! next_loc s
              = Some {| payload :=
                          PEff (Optimizer.efficiency_result sd (model_version s) v
                                  (clk env (S (S (tick s)))));
                        processing_time_ms := Some t |})
      /\ (models s !! "efficiency" = None ->
          fst (predict_efficiency env sd s)
          = inl (ValueError "Efficiency model not trained. Please train the model first.")
          /\ prediction_cache (snd (predict_efficiency env sd s)) = prediction_cache s)).
Proof.
  intros Hc He.
  rewrite (cache_check_present env _ s e Hc He). cbn [fst snd].
  split; [reflexivity |]. split; [| split; [| split]].
  - destruct (Qltb _ _) eqn:E.
    + apply Qltb_lt in E. split; [intros _; exact E | reflexivity].
    + apply Qltb_ge in E. split; [discriminate | intros H; exfalso; lra].
  - destruct (Qltb _ _) eqn:E.
    + apply Qltb_lt in E. split; [discriminate | intros H; exfalso; lra].
    + apply Qltb_ge in E. split; [intros _; exact E | reflexivity].
  - reflexivity.
  - intros Hage. rewrite (predict_efficiency_stale env sd s e Hc He Hage). split.
    + intros m v Hm Hv.
      set (sx := set_submitted (submitted s ++ ["predict_efficiency"])
                   (set_tick (S (S (tick s))) s)).
      assert (Hcx : cache_enabled sx = true) by exact Hc.
      assert (Hmx : models sx !! "efficiency" = Some m) by exact Hm.
      split; [| split].
      * rewrite (compute_efficiency_enabled env sd _ sx m v Hcx Hmx Hv). reflexivity.
      * rewrite compute_efficiency_submitted. reflexivity.
      * eexists.
        exact (compute_efficiency_object env sd _ sx m v Hcx Hmx Hv).
    + intros Hm. rewrite compute_efficiency_untrained by exact Hm.
      split; reflexivity.
Qed.

Lemma cache_serves_entries_younger_than_ttl_witness :
  cache_ttl (init (model_version Demo.cached_at_0) true) == 300
  /\ (fst (cache_check Demo.env_300 (efficiency_key Demo.env_300 Demo.reading)
             Demo.cached_at_0) = inr (Some 0%nat)
      <-> clk Demo.env_300 (tick Demo.cached_at_0) - 0 < cache_ttl Demo.cached_at_0)
  /\ (fst (cache_check Demo.env_300 (efficiency_key Demo.env_300 Demo.reading)
             Demo.cached_at_0) = inr None
      <-> cache_ttl Demo.cached_at_0 <= clk Demo.env_300 (tick Demo.cached_at_0) - 0)
  /\ prediction_cache (snd (cache_check Demo.env_300
                              (efficiency_key Demo.env_300 Demo.reading)
                              Demo.cached_at_0))
     = prediction_cache Demo.cached_at_0
  /\ fst (predict_efficiency Demo.env_300 Demo.reading Demo.cached_at_0) = inr 1%nat
  /\ submitted (snd (predict_efficiency Demo.env_300 Demo.reading Demo.cached_at_0))
     = ["predict_efficiency"; "predict_efficiency"].
Proof.
  destruct (cache_serves_entries_younger_than_ttl Demo.env_300 Demo.reading
              Demo.cached_at_0 {| data := 0%nat; timestamp := 0 |})
    as (H1 & H2 & H3 & H4 & H5).
  - reflexivity.
  - vm_compute. reflexivity.
  - split; [exact H1 |]. split; [exact H2 |]. split; [exact H3 |].
    split; [exact H4 |].
    destruct H5 as [H5 _].
    + vm_compute. discriminate.
    + destruct (H5 Demo.model_825 (825 # 10)) as (Ha & Hb & _).
      * vm_compute. reflexivity.
      * reflexivity.
      * split; [exact Ha | exact Hb].
Defined.

(** An entry whose age is exactly the TTL satisfies [age <= ttl] and is
    not served. *)
Lemma entry_aged_exactly_ttl_is_a_miss :
  ~ Stated.hit_iff_age_at_most_ttl Demo.env_300
      (efficiency_key Demo.env_300 Demo.reading) Demo.cached_at_0.
Proof.
  intros H.
  destruct (H {| data := 0%nat; timestamp := 0 |}) as [_ H2].
  - vm_compute. reflexivity.
  - assert (Hhit : fst (cache_check Demo.env_300
                          (efficiency_key Demo.env_300 Demo.reading)
                          Demo.cached_at_0) = inr (Some 0%nat)).
    { apply H2. vm_compute. discriminate. }
    revert Hhit. vm_compute. discriminate.
Qed.

End CacheFacts.

(** ** Input validation and energy optimization *)

Module ValidationFacts.
Import Py PyFacts Asyncio OptimizationService.
Local Open Scope Q_scope.

Lemma known_strategy strategy :
  dict_in strategy _load_optimization_templates = true
  <-> In strategy ["efficiency_focused"; "energy_efficient";
                   "maintenance_prioritized"; "balanced"].
Proof.
  unfold dict_in, _load_optimization_templates. cbn [dict_lookup In].
  destruct (String.eqb_spec strategy "efficiency_focused") as [-> | H1];
    [split; auto |].
  destruct (String.eqb_spec strategy "energy_efficient") as [-> | H2];
    [split; auto |].
  destruct (String.eqb_spec strategy "maintenance_prioritized") as [-> | H3];
    [split; auto |].
  destruct (String.eqb_spec strategy "balanced") as [-> | H4];
    [split; auto |].
  split; [discriminate |].
  intros [H | [H | [H | [H | []]]]]; congruence.
Qed.

Lemma missing_sensors_nil (sd : Reading) :
  List.filter (fun s => negb (dict_in s sd)) required_sensors = []
  <-> Forall (fun f => dict_in f sd = true) required_sensors.
Proof.
  induction required_sensors as [|f fs IH]; cbn [List.filter].
  - split; [constructor | reflexivity].
  - destruct (dict_in f sd) eqn:E; cbn [negb].
    + rewrite IH. split; [intros H; constructor; assumption |].
      intros H. apply Forall_cons in H. apply H.
    + split; [discriminate |].
      intros H. apply Forall_cons in H. destruct H as [H _]. congruence.
Qed.

Lemma validate_ok unit_id (sd : Reading) strategy :
  _validate_optimization_inputs unit_id sd strategy = inr tt
  <-> unit_id <> ""
      /\ dict_in strategy _load_optimization_templates = true
      /\ Forall (fun f => dict_in f sd = true) required_sensors.
Proof.
  unfold _validate_optimization_inputs.
  destruct (String.eqb_spec unit_id "") as [-> | Hid].
  { split; [discriminate | intros [H _]; congruence]. }
  destruct sd as [|kv sd].
  { split; [discriminate |]. intros (_ & _ & H).
    apply Forall_cons in H. destruct H as [H _]. discriminate H. }
  destruct (dict_in strategy _load_optimization_templates) eqn:Es; cbn [negb].
  2: { split; [discriminate | intros (_ & H & _); discriminate]. }
  rewrite <- missing_sensors_nil.
  destruct (List.filter _ required_sensors) as [|x xs].
  - split; auto.
  - split; [discriminate | intros (_ & _ & H); discriminate].
Qed.

Lemma validate_error unit_id (sd : Reading) strategy e :
  _validate_optimization_inputs unit_id sd strategy = inl e ->
  exists msg, e = ValueError msg.
Proof.
  unfold _validate_optimization_inputs.
  destruct (String.eqb unit_id ""); [intros [= <-]; eauto |].
  destruct sd as [|kv sd]; [intros [= <-]; eauto |].
  destruct (negb _); [intros [= <-]; eauto |].
  destruct (List.filter _ required_sensors); [discriminate | intros [= <-]; eauto].
Qed.

(** C9.  [_validate_optimization_inputs] accepts exactly the calls with a
    non-empty unit id, one of the four strategy names and all four required
    sensor fields present.  Any other call to [optimize_unit_comprehensive]
    raises a [ValueError] with a message at once: only the clock has been
    read, no prediction was issued, nothing was submitted, stored or
    allocated. *)
Theorem validation_fails_fast (env : Env) (unit_id : string) (sd : Reading)
    (strategy : string) (horizon : Z) (s : State) :
  (_validate_optimization_inputs unit_id sd strategy = inr tt
   <-> unit_id <> ""
       /\ In strategy ["efficiency_focused"; "energy_efficient";
                       "maintenance_prioritized"; "balanced"]
       /\ Forall (fun f => dict_in f sd = true)
                 ["temperature"; "pressure"; "flow_rate"; "energy_consumption"])
  /\ (forall e,
        _validate_optimization_inputs unit_id sd strategy = inl e ->
        (exists msg, e = ValueError msg)
        /\ optimize_unit_comprehensive env unit_id sd strategy horizon s
           = (inl e, set_tick (S (tick s)) s)).
Proof.
  split.
  - rewrite validate_ok, known_strategy. reflexivity.
  - intros e He. split; [eapply validate_error, He |].
    unfold optimize_unit_comprehensive. unfold bind at 1. unfold time_time at 1.
    unfold bind at 1. unfold lift. rewrite He. reflexivity.
Qed.

Lemma validation_fails_fast_witness :
  (exists msg,
     ValueError "Missing required sensor data: ['pressure', 'flow_rate', 'energy_consumption']"
     = ValueError msg)
  /\ optimize_unit_comprehensive Demo.env "CC-001" [("temperature", 755 # 10)]
       "balanced" 24 Demo.trained
     = (inl (ValueError
               "Missing required sensor data: ['pressure', 'flow_rate', 'energy_consumption']"),
        set_tick 1 Demo.trained).
Proof.
  apply (proj2 (validation_fails_fast Demo.env "CC-001" [("temperature", 755 # 10)]
                  "balanced" 24 Demo.trained)).
  vm_compute. reflexivity.
Defined.

(** *** Energy optimization *)

Lemma num_field_numeric k dflt od s :
  Optimizer.numeric_field k od ->
  exists q, Optimizer.num_field k dflt od s = (inr q, s).
Proof.
  intros H. unfold Optimizer.num_field, lift, dict_get.
  destruct (dict_lookup k od) as [[q | b | l] |] eqn:E; cbn [as_num]; eauto.
  exfalso. exact (H l E).
Qed.

Lemma as_num_numeric k dflt od :
  Optimizer.numeric_field k od ->
  exists q, as_num (dict_get k (VNum dflt) od) = inr q.
Proof.
  intros H. unfold dict_get.
  destruct (dict_lookup k od) as [[q | b | l] |] eqn:E; cbn [as_num]; eauto.
  exfalso. exact (H l E).
Qed.

Lemma optimize_energy_usage_cases env od s :
  Optimizer.numeric_field "energy_consumption" od ->
  Optimizer.numeric_field "renewable_capacity" od ->
  Optimizer.numeric_field "grid_cost_per_kwh" od ->
  Optimizer.numeric_field "renewable_cost_per_kwh" od ->
  Optimizer.numeric_field "current_renewable_usage" od ->
  exists q,
    as_num (dict_get "energy_consumption" (VNum 0) od) = inr q
    /\ (q == 0 ->
        Optimizer.optimize_energy_usage env od s
        = (inl (ZeroDivisionError "float division by zero"), s))
    /\ (~ q == 0 ->
        exists r,
          Optimizer.optimize_energy_usage env od s
          = (inr (next_loc s),
             set_heap (<[next_loc s := {| payload := PEnergy r;
                                          processing_time_ms := None |}]> (heap s))
                      (S (next_loc s)) (set_tick (S (tick s)) s))).
Proof.
  intros H1 H2 H3 H4 H5.
  destruct (as_num_numeric "energy_consumption" 0 od H1) as [q Hq].
  destruct (as_num_numeric "renewable_capacity" 0 od H2) as [rc Hrc].
  destruct (as_num_numeric "grid_cost_per_kwh" (12 # 100) od H3) as [gc Hgc].
  destruct (as_num_numeric "renewable_cost_per_kwh" (8 # 100) od H4) as [rn Hrn].
  destruct (as_num_numeric "current_renewable_usage" 0 od H5) as [cr Hcr].
  exists q. split; [exact Hq |].
  unfold Optimizer.optimize_energy_usage, Optimizer.num_field.
  cbv beta iota zeta delta [bind lift ret raise time_time alloc].
  rewrite Hq, Hrc, Hgc, Hrn, Hcr.
  split.
  - intros Hz. apply Qeq_bool_iff in Hz. rewrite Hz. reflexivity.
  - intros Hnz. destruct (Qeq_bool q 0) eqn:E.
    + apply Qeq_bool_iff in E. contradiction.
    + eexists. reflexivity.
Qed.

(** C10.  When ['energy_consumption'] is absent from the operational data
    or equal to 0, [optimize_energy_usage] raises [ZeroDivisionError] while
    it computes ['optimization_potential'], and builds no result; with any
    other number it returns a result.  In particular the operational data
    that [_extract_operational_data] derives from a reading without that
    field, or with the value 0, make it raise. *)
Theorem zero_energy_consumption_divides_by_zero (env : Env) (od : Dict Value)
    (sd : Reading) (s : State) :
  (Optimizer.numeric_field "energy_consumption" od ->
   Optimizer.numeric_field "renewable_capacity" od ->
   Optimizer.numeric_field "grid_cost_per_kwh" od ->
   Optimizer.numeric_field "renewable_cost_per_kwh" od ->
   Optimizer.numeric_field "current_renewable_usage" od ->
   (Optimizer.zero_energy od ->
    Optimizer.optimize_energy_usage env od s
    = (inl (ZeroDivisionError "float division by zero"), s))
   /\ (~ Optimizer.zero_energy od ->
       exists l s', Optimizer.optimize_energy_usage env od s = (inr l, s')))
  /\ (Optimizer.zero_energy_reading sd ->
      (operational_data <- PredictionService._extract_operational_data env sd ;;
       Optimizer.optimize_energy_usage env operational_data) s
      = (inl (ZeroDivisionError "float division by zero"), set_tick (S (tick s)) s)).
Proof.
  split.
  - intros H1 H2 H3 H4 H5.
    destruct (optimize_energy_usage_cases env od s H1 H2 H3 H4 H5)
      as (q & Hq & Hzero & Hnz).
    unfold Optimizer.zero_energy. unfold dict_get in Hq.
    destruct (dict_lookup "energy_consumption" od) as [v|] eqn:E.
    + split.
      * intros (q' & Hq' & Hz). apply Hzero. congruence.
      * intros Hn. destruct Hnz as [r Hr].
        { intros Hz. apply Hn. exists q. split; assumption. }
        eauto.
    + cbn [as_num] in Hq. injection Hq as <-. split.
      * intros _. apply Hzero. reflexivity.
      * intros Hn. exfalso. apply Hn. exact I.
  - intros Hz.
    unfold bind at 1. unfold PredictionService._extract_operational_data.
    unfold bind at 1. unfold datetime_now_hour. unfold bind at 1.
    unfold time_time at 1. unfold ret at 1. unfold ret at 1.
    match goal with
    | |- Optimizer.optimize_energy_usage env ?o ?st = _ =>
        destruct (optimize_energy_usage_cases env o st) as (q & Hq & Hzero & _)
    end.
    1-5: intros l; cbn; try discriminate.
    + apply Hzero. cbn in Hq. injection Hq as <-.
      unfold Optimizer.zero_energy_reading, dict_get in *.
      destruct (dict_lookup "energy_consumption" sd); [exact Hz | reflexivity].
Qed.

Lemma zero_energy_consumption_divides_by_zero_witness :
  (Optimizer.optimize_energy_usage Demo.env [("peak_hours", VBool false)] Demo.trained
   = (inl (ZeroDivisionError "float division by zero"), Demo.trained))
  /\ ((operational_data <-
         PredictionService._extract_operational_data Demo.env
           [("temperature", 755 # 10); ("energy_consumption", 0)] ;;
       Optimizer.optimize_energy_usage Demo.env operational_data) Demo.trained
      = (inl (ZeroDivisionError "float division by zero"), set_tick 1 Demo.trained)).
Proof.
  destruct (zero_energy_consumption_divides_by_zero Demo.env
              [("peak_hours", VBool false)]
              [("temperature", 755 # 10); ("energy_consumption", 0)] Demo.trained)
    as [Hod Hsd].
  split.
  - apply Hod; try (intros l; cbn; discriminate). exact I.
  - apply Hsd. reflexivity.
Defined.

End ValidationFacts.

(** ** Recommendations: filtering and ranking *)

Module RecommendationFacts.
Import Py PyFacts Asyncio OptimizationService.
Local Open Scope Q_scope.

Lemma score_unranked w r :
  calculate_priority_score w (unranked r) = calculate_priority_score w r.
Proof. reflexivity. Qed.

Lemma score_set_priority w k q r :
  calculate_priority_score w (set_priority k q r) = calculate_priority_score w r.
Proof. reflexivity. Qed.

Lemma unranked_set_priority k q r : unranked (set_priority k q r) = unranked r.
Proof. reflexivity. Qed.

Lemma add_ranking_lookup w l : forall k i,
  add_ranking w k l !! i
  = (fun r => set_priority (k + i + 1) (calculate_priority_score w r) r) <$> (l !! i).
Proof.
  induction l as [|r l IH]; intros k i; [destruct i; reflexivity |].
  destruct i as [|i]; cbn [add_ranking].
  - cbn. repeat f_equal. lia.
  - change ((set_priority (k + 1) (calculate_priority_score w r) r
             :: add_ranking w (S k) l) !! S i)
      with (add_ranking w (S k) l !! i).
    change ((r :: l) !! S i) with (l !! i).
    rewrite IH. destruct (l !! i); cbn; [| reflexivity].
    repeat f_equal. lia.
Qed.

Lemma add_ranking_unranked w l : forall k,
  map unranked (add_ranking w k l) = map unranked l.
Proof.
  induction l as [|r l IH]; intros k; [reflexivity |].
  cbn [add_ranking map]. rewrite IH. reflexivity.
Qed.

Lemma add_ranking_ranks w l : forall k,
  map priority_rank (add_ranking w k l) = map Some (seq (k + 1) (length l)).
Proof.
  induction l as [|r l IH]; intros k; [reflexivity |].
  cbn [add_ranking map length seq priority_rank set_priority].
  rewrite IH. reflexivity.
Qed.

Lemma add_ranking_In w l : forall k r,
  In r (add_ranking w k l) -> exists r0, In r0 l /\ impact r = impact r0.
Proof.
  induction l as [|x l IH]; intros k r; cbn [add_ranking In]; [contradiction |].
  intros [<- | H].
  - exists x. split; [left; reflexivity | reflexivity].
  - destruct (IH _ _ H) as (r0 & Hin & Himp). exists r0. split; [right |]; assumption.
Qed.

Lemma score_before_asym w a b :
  score_before w a b = true -> score_before w b a = false.
Proof. unfold score_before. apply FloatFacts.ltb_asym. Qed.

Lemma has_score_unranked w q a :
  has_score w q (unranked a) = true -> (calculate_priority_score w a =? q)%float = true.
Proof. unfold has_score. rewrite score_unranked. trivial. Qed.

Lemma equal_scores_unordered w a b q :
  (calculate_priority_score w a =? q)%float = true ->
  (calculate_priority_score w b =? q)%float = true ->
  score_before w a b = false.
Proof. unfold score_before. apply FloatFacts.eqb_ties. Qed.

Lemma strongly_sorted_lookup {A} (R : A -> A -> Prop) (l : list A) :
  StronglySorted R l ->
  forall i j x y, (i < j)%nat -> l !! i = Some x -> l !! j = Some y -> R x y.
Proof.
  induction 1 as [|a l Hs IH Hall]; intros i j x y Hij Hi Hj.
  - destruct i; discriminate.
  - destruct j as [|j]; [lia |]. destruct i as [|i].
    + injection Hi as <-.
      rewrite Forall_forall in Hall. apply Hall.
      eapply list_elem_of_lookup_2. exact Hj.
    + apply (IH i j); [lia | exact Hi | exact Hj].
Qed.

Lemma filter_map {A B} (p : B -> bool) (f : A -> B) (l : list A) :
  List.filter p (map f l) = map f (List.filter (fun a => p (f a)) l).
Proof.
  induction l as [|a l IH]; [reflexivity |].
  cbn [map List.filter]. destruct (p (f a)); cbn [map]; rewrite IH; reflexivity.
Qed.

Lemma constraint_valid_true cs r :
  constraint_valid cs r = true
  <-> (forall c, dict_lookup "max_energy_increase" cs = Some c ->
         ~ (dict_get "energy_savings" 0 (impact r) < 0
            /\ c * 100 < Qabs (dict_get "energy_savings" 0 (impact r))))
      /\ (forall c, dict_lookup "min_efficiency_gain" cs = Some c ->
            c <= dict_get "efficiency_gain" 0 (impact r))
      /\ (forall c, dict_lookup "max_efficiency_decrease" cs = Some c ->
            - c <= dict_get "efficiency_gain" 0 (impact r))
      /\ (forall c, dict_lookup "min_energy_savings" cs = Some c ->
            c <= dict_get "energy_savings" 0 (impact r)).
Proof.
  unfold constraint_valid.
  destruct (dict_lookup "max_maintenance_risk" cs) as [c5|];
  destruct (dict_lookup "max_energy_increase" cs) as [c1|];
  destruct (dict_lookup "min_efficiency_gain" cs) as [c2|];
  destruct (dict_lookup "max_efficiency_decrease" cs) as [c3|];
  destruct (dict_lookup "min_energy_savings" cs) as [c4|];
  cbv zeta;
  repeat match goal with
         | |- context [Qltb ?a ?b] =>
             let E := fresh "E" in
             destruct (Qltb a b) eqn:E;
             [apply Qltb_lt in E | apply Qltb_ge in E]
         | |- context [Qgtb ?a ?b] =>
             let E := fresh "E" in
             destruct (Qgtb a b) eqn:E;
             [apply Qgtb_gt in E | apply Qgtb_le in E]
         end;
  cbn [andb];
  (split;
   [ intros Hv; try discriminate Hv;
     repeat split; intros c Hc; try discriminate Hc; injection Hc as <-;
     first [assumption | intros [? ?]; lra | lra]
   | intros (H1 & H2 & H3 & H4); try reflexivity; exfalso;
     first [ specialize (H4 _ eq_refl); lra
           | specialize (H3 _ eq_refl); lra
           | specialize (H2 _ eq_refl); lra
           | apply (H1 _ eq_refl); split; assumption ] ]).
Qed.

Lemma constraint_valid_impact cs r1 r2 :
  impact r1 = impact r2 -> constraint_valid cs r1 = constraint_valid cs r2.
Proof. unfold constraint_valid. intros ->. reflexivity. Qed.

(** What reaches the plan went through the filter of the strategy. *)
Lemma plan_recommendations_filtered env uid sd e m en strategy th s plan s' t :
  dict_lookup strategy _load_optimization_templates = Some t ->
  _generate_optimization_plan env uid sd e m en strategy th s = (inr plan, s') ->
  exists recs,
    recommendations plan
    = _prioritize_recommendations
        (_apply_strategy_constraints recs (constraints t) sd) (priority_weights t).
Proof.
  intros Ht. unfold _generate_optimization_plan, _generate_energy_recommendations.
  cbv beta iota zeta delta [bind lift ret raise get_state datetime_now_hour time_time].
  rewrite Ht.
  destruct (index_predicted_efficiency (heap s !! e)); [discriminate |].
  destruct (index_maintenance_score (heap s !! m)); [discriminate |].
  destruct (index_energy_savings (heap s !! en)); [discriminate |].
  destruct (Qgtb (w_energy_savings (priority_weights t)) (3 # 10));
    intros [= <- _]; eexists; reflexivity.
Qed.

(** C8 (what the code enforces).  [_apply_strategy_constraints] keeps
    exactly the candidates that pass the four checks the code performs, for
    the constraint keys ['max_energy_increase'], ['min_efficiency_gain'],
    ['max_efficiency_decrease'] and ['min_energy_savings']; the decision
    depends on the impact map only.  The branch for ['max_maintenance_risk']
    reads the risk reduction of the candidate and rejects nothing, unlike
    its four siblings: with none of the four keys present the list comes
    back as it was, so this constraint of ['maintenance_prioritized'] is
    not enforced.  No recommendation of a plan generated under
    ['energy_efficient'] has energy savings below 50. *)
Theorem constraints_filter_candidates (recs : list Recommendation) (cs : Dict Q)
    (sd : Reading) :
  (forall r,
     In r (_apply_strategy_constraints recs cs sd)
     <-> In r recs
         /\ (forall c, dict_lookup "max_energy_increase" cs = Some c ->
               ~ (dict_get "energy_savings" 0 (impact r) < 0
                  /\ c * 100 < Qabs (dict_get "energy_savings" 0 (impact r))))
         /\ (forall c, dict_lookup "min_efficiency_gain" cs = Some c ->
               c <= dict_get "efficiency_gain" 0 (impact r))
         /\ (forall c, dict_lookup "max_efficiency_decrease" cs = Some c ->
               - c <= dict_get "efficiency_gain" 0 (impact r))
         /\ (forall c, dict_lookup "min_energy_savings" cs = Some c ->
               c <= dict_get "energy_savings" 0 (impact r)))
  /\ (forall r1 r2, impact r1 = impact r2 ->
        constraint_valid cs r1 = constraint_valid cs r2)
  /\ (dict_lookup "max_energy_increase" cs = None ->
      dict_lookup "min_efficiency_gain" cs = None ->
      dict_lookup "max_efficiency_decrease" cs = None ->
      dict_lookup "min_energy_savings" cs = None ->
      _apply_strategy_constraints recs cs sd = recs)
  /\ (forall env uid e m en th s plan s',
        _generate_optimization_plan env uid sd e m en "energy_efficient" th s
        = (inr plan, s') ->
        forall r, In r (recommendations plan) ->
                  50 <= dict_get "energy_savings" 0 (impact r)).
Proof.
  split; [| split; [| split]].
  - intros r. unfold _apply_strategy_constraints.
    rewrite filter_In, constraint_valid_true. reflexivity.
  - apply constraint_valid_impact.
  - intros H1 H2 H3 H4. unfold _apply_strategy_constraints.
    induction recs as [|r l IH]; [reflexivity |].
    cbn [List.filter].
    assert (Hr : constraint_valid cs r = true).
    { apply constraint_valid_true. rewrite H1, H2, H3, H4.
      repeat split; intros c Hc; discriminate Hc. }
    rewrite Hr, IH. reflexivity.
  - intros env uid e m en th s plan s' Hplan r Hr.
    destruct (plan_recommendations_filtered env uid sd e m en "energy_efficient" th s
                plan s' _ eq_refl Hplan) as [cands Hrecs].
    rewrite Hrecs in Hr. unfold _prioritize_recommendations in Hr.
    apply add_ranking_In in Hr. destruct Hr as (r0 & Hin & ->).
    apply (Permutation_in _ (sorted_perm _ _)) in Hin.
    unfold _apply_strategy_constraints in Hin. apply filter_In in Hin.
    destruct Hin as [_ Hv]. apply constraint_valid_true in Hv.
    destruct Hv as (_ & _ & _ & H4). apply (H4 50). reflexivity.
Qed.

Lemma constraints_filter_candidates_witness :
  exists plan s',
    _generate_optimization_plan Demo.env "CC-001" Demo.reading 0%nat 1%nat 2%nat
      "energy_efficient" 24 Demo.with_results = (inr plan, s')
    /\ map rec_id (recommendations plan) = ["renewable_shift"]
    /\ forall r, In r (recommendations plan) ->
                 50 <= dict_get "energy_savings" 0 (impact r).
Proof.
  eexists _, _. split; [vm_compute; reflexivity |]. split; [reflexivity |].
  destruct (constraints_filter_candidates [] [] Demo.reading) as (_ & _ & _ & H).
  eapply (H Demo.env "CC-001" 0%nat 1%nat 2%nat 24%Z Demo.with_results).
  vm_compute. reflexivity.
Defined.

(** The four constraints that the code checks do remove what violates
    them; here for ['min_energy_savings'] and ['min_efficiency_gain']. *)
Lemma minimum_constraints_drop_violators :
  Stated.drops_violators "min_energy_savings"
  /\ Stated.drops_violators "min_efficiency_gain".
Proof.
  split.
  - exists (fun c r => dict_get "energy_savings" 0 (impact r) < c). split.
    + exists 50, Demo.temperature_candidate. vm_compute. reflexivity.
    + intros c r recs sd Hv _ Hin.
      unfold _apply_strategy_constraints in Hin. apply filter_In in Hin.
      destruct Hin as [_ Hvalid]. apply constraint_valid_true in Hvalid.
      destruct Hvalid as (_ & _ & _ & H4). specialize (H4 c eq_refl). lra.
  - exists (fun c r => dict_get "efficiency_gain" 0 (impact r) < c). split.
    + exists 50, Demo.temperature_candidate. vm_compute. reflexivity.
    + intros c r recs sd Hv _ Hin.
      unfold _apply_strategy_constraints in Hin. apply filter_In in Hin.
      destruct Hin as [_ Hvalid]. apply constraint_valid_true in Hvalid.
      destruct Hvalid as (_ & H2 & _ & _). specialize (H2 c eq_refl). lra.
Qed.

(** ['max_maintenance_risk'], a numeric constraint of
    ['maintenance_prioritized'], never removes a candidate. *)
Lemma max_maintenance_risk_is_not_enforced : ~ Stated.constraints_enforced.
Proof.
  intros H.
  destruct (H "maintenance_prioritized" _ "max_maintenance_risk" (3 # 10) eq_refl)
    as (violates & (c & r & Hv) & Hdrop).
  - left. reflexivity.
  - discriminate.
  - apply (Hdrop c r [r] [] Hv); left; reflexivity.
Qed.

Lemma sorted_numbers {A} (P : A -> Prop) (R : A -> A -> Prop) (l : list A) :
  Sorted R l -> Forall P l -> Sorted (fun a b => P a /\ P b /\ R a b) l.
Proof.
  induction 1 as [|a l Hs IH Hhd]; intros Hall; [constructor |].
  apply Forall_cons in Hall. destruct Hall as [Ha Hall].
  constructor; [apply IH, Hall |].
  destruct Hhd as [|b l Hab]; constructor.
  apply Forall_cons in Hall. destruct Hall as [Hb _]. auto.
Qed.

Lemma prioritized_sorted w recs :
  Forall (is_number w) recs ->
  StronglySorted
    (fun a b => is_number w a /\ is_number w b
                /\ (calculate_priority_score w a <? calculate_priority_score w b)%float
                   = false)
    (sorted (score_before w) recs).
Proof.
  intros Hnum. apply Sorted_StronglySorted.
  - intros a b c (Ha & Hb & Hab) (_ & Hc & Hbc).
    split; [exact Ha |]. split; [exact Hc |].
    exact (FloatFacts.ltb_neg_trans _ _ _ Hb Hab Hbc).
  - apply (sorted_numbers (is_number w)
             (fun a b => (calculate_priority_score w a <? calculate_priority_score w b)%float
                         = false)).
    + apply (Sorted_weaken (fun a b => score_before w b a = false)).
      * intros a b H. exact H.
      * apply sorted_sorted, score_before_asym.
    + rewrite List.Forall_forall in *. intros r Hr. apply Hnum.
      apply (Permutation_in _ (sorted_perm (score_before w) recs)), Hr.
Qed.

(** C7 (as the code has it).  [_prioritize_recommendations] returns the
    candidates it was given, each with its score and rank written in.  The
    score is computed in binary64 as [efficiency_gain * w_efficiency +
    energy_savings * w_energy_savings / 10 + maintenance_risk_reduction *
    w_maintenance_risk * 100], from which its product with the difficulty
    penalty and then with the risk penalty is subtracted (tables low 0,
    medium 0.1 and 0.15, high 0.2 and 0.3).  Candidates of equal score keep
    the order in which they were generated, the ranks are 1, 2, ..., N in
    list order, and when every score is a number the list is in descending
    order of score. *)
Theorem prioritize_scores_sorts_and_ranks (recs : list Recommendation) (w : Weights) :
  Permutation (map unranked (_prioritize_recommendations recs w)) (map unranked recs)
  /\ (forall i r,
        _prioritize_recommendations recs w !! i = Some r ->
        priority_rank r = Some (i + 1)%nat
        /\ priority_score r = Some (calculate_priority_score w r)
        /\ calculate_priority_score w r
           = (let impact_score :=
                (float_of 0
                 + (float_of (dict_get "efficiency_gain" 0 (impact r))
                    * float_of (w_efficiency w)
                    + float_of (dict_get "energy_savings" 0 (impact r))
                      * float_of (w_energy_savings w) / float_of 10
                    + float_of (dict_get "maintenance_risk_reduction" 0 (impact r))
                      * float_of (w_maintenance_risk w) * float_of 100))%float in
              let eased :=
                (impact_score
                 - impact_score
                   * float_of (dict_get (difficulty r) 0 difficulty_penalty))%float in
              (eased - eased * float_of (dict_get (risk_level r) 0 risk_penalty))%float))
  /\ difficulty_penalty = [("low", 0); ("medium", 1 # 10); ("high", 2 # 10)]
  /\ risk_penalty = [("low", 0); ("medium", 15 # 100); ("high", 3 # 10)]
  /\ (Forall (is_number w) recs ->
      forall i j ri rj,
        (i < j)%nat ->
        _prioritize_recommendations recs w !! i = Some ri ->
        _prioritize_recommendations recs w !! j = Some rj ->
        (calculate_priority_score w rj <=? calculate_priority_score w ri)%float = true)
  /\ (forall q,
        List.filter (has_score w q) (map unranked (_prioritize_recommendations recs w))
        = List.filter (has_score w q) (map unranked recs))
  /\ map priority_rank (_prioritize_recommendations recs w)
     = map Some (seq 1 (length recs)).
Proof.
  unfold _prioritize_recommendations.
  split; [| split; [| split; [| split; [| split; [| split]]]]].
  - rewrite add_ranking_unranked. apply Permutation_map, sorted_perm.
  - intros i r Hi. rewrite add_ranking_lookup in Hi.
    destruct (sorted (score_before w) recs !! i) as [r0|]; [| discriminate].
    injection Hi as <-. repeat split.
  - reflexivity.
  - reflexivity.
  - intros Hnum i j ri rj Hij Hi Hj. rewrite add_ranking_lookup in Hi, Hj.
    destruct (sorted (score_before w) recs !! i) as [a|] eqn:Ea; [| discriminate].
    destruct (sorted (score_before w) recs !! j) as [b|] eqn:Eb; [| discriminate].
    injection Hi as <-. injection Hj as <-. rewrite !score_set_priority.
    destruct (strongly_sorted_lookup _ _ (prioritized_sorted w recs Hnum) i j a b Hij Ea Eb)
      as (Ha & Hb & Hab).
    rewrite (FloatFacts.leb_ltb _ _ Ha Hb), Hab. reflexivity.
  - intros q. rewrite add_ranking_unranked, !filter_map. f_equal.
    apply sorted_stable. intros a b Ha Hb.
    apply (equal_scores_unordered w a b q); apply has_score_unranked; assumption.
  - rewrite add_ranking_ranks, sorted_length. reflexivity.
Qed.

Lemma prioritize_scores_sorts_and_ranks_witness :
  exists r0 r1,
    _prioritize_recommendations
      (_generate_efficiency_recommendations Demo.hot_reading 0%nat 80)
      Demo.efficiency_focused_weights !! 0%nat = Some r0
    /\ _prioritize_recommendations
         (_generate_efficiency_recommendations Demo.hot_reading 0%nat 80)
         Demo.efficiency_focused_weights !! 1%nat = Some r1
    /\ rec_id r0 = "temp_optimization" /\ rec_id r1 = "pressure_optimization"
    /\ priority_rank r0 = Some 1%nat
    /\ priority_score r0 = Some (calculate_priority_score Demo.efficiency_focused_weights r0)
    /\ (calculate_priority_score Demo.efficiency_focused_weights r1
        <=? calculate_priority_score Demo.efficiency_focused_weights r0)%float = true.
Proof.
  destruct (prioritize_scores_sorts_and_ranks
              (_generate_efficiency_recommendations Demo.hot_reading 0%nat 80)
              Demo.efficiency_focused_weights) as (_ & Hrank & _ & _ & Hdesc & _).
  assert (H0 : exists r0,
             _prioritize_recommendations
               (_generate_efficiency_recommendations Demo.hot_reading 0%nat 80)
               Demo.efficiency_focused_weights !! 0%nat = Some r0
             /\ rec_id r0 = "temp_optimization").
  { eexists. split; [vm_compute; reflexivity | reflexivity]. }
  assert (H1 : exists r1,
             _prioritize_recommendations
               (_generate_efficiency_recommendations Demo.hot_reading 0%nat 80)
               Demo.efficiency_focused_weights !! 1%nat = Some r1
             /\ rec_id r1 = "pressure_optimization").
  { eexists. split; [vm_compute; reflexivity | reflexivity]. }
  destruct H0 as (r0 & E0 & I0). destruct H1 as (r1 & E1 & I1).
  exists r0, r1.
  split; [exact E0 |]. split; [exact E1 |]. split; [exact I0 |]. split; [exact I1 |].
  destruct (Hrank 0%nat r0 E0) as (Hr & Hs & _).
  split; [exact Hr |]. split; [exact Hs |].
  apply (Hdesc ltac:(repeat constructor; vm_compute; reflexivity) 0%nat 1%nat r0 r1);
    [lia | exact E0 | exact E1].
Defined.

(** Rounding decides the order.  Under ['balanced'] the temperature
    candidate and a renewable shift with energy savings 55 have the same
    score in exact arithmetic; in binary64 the second is one unit in the
    last place above the first, and comes first. *)
Example rounding_decides_the_order :
  map rec_id (_prioritize_recommendations
                [Demo.temperature_candidate; Demo.renewable_shift_55]
                Demo.balanced_weights)
  = ["renewable_shift"; "temp_optimization"]
  /\ (calculate_priority_score Demo.balanced_weights Demo.temperature_candidate
      <? calculate_priority_score Demo.balanced_weights Demo.renewable_shift_55)%float
     = true
  /\ float_value (calculate_priority_score Demo.balanced_weights
                    Demo.temperature_candidate)
     = Some (8025414535974224 # 4503599627370496)
  /\ float_value (calculate_priority_score Demo.balanced_weights
                    Demo.renewable_shift_55)
     = Some (8025414535974225 # 4503599627370496).
Proof. vm_compute. repeat split. Qed.

(** The score is not the plain weighted sum: the temperature candidate of
    the example reading scores 2.07 under ['efficiency_focused'], and the
    formula without the factors 1/10 and 100 gives 10.575. *)
Lemma priority_score_is_normalised : ~ Stated.scores_as_stated.
Proof.
  intros H.
  destruct (H (_generate_efficiency_recommendations Demo.reading 0%nat 80)
              Demo.efficiency_focused_weights Demo.ranked_temperature_candidate)
    as (score & value & Hscore & Hvalue & Hclose).
  - vm_compute. left. reflexivity.
  - cbn [Demo.ranked_temperature_candidate set_priority priority_score] in Hscore.
    injection Hscore as <-.
    vm_compute in Hvalue. injection Hvalue as <-.
    vm_compute in Hclose. apply Hclose. reflexivity.
Qed.

End RecommendationFacts.

(** ** Batches and networks *)

Module BatchFacts.
Import Py PyFacts Asyncio PredictionService OptimizationService.
Local Open Scope Q_scope.

(** [gather] with [return_exceptions=True] runs every task, a failed task
    does not stop the ones after it, and the outcome of each task is at the
    position of the task. *)
Lemma gather_return_exceptions_spec {A} (tasks : list (M A)) : forall s,
  exists outcomes s',
    gather_return_exceptions tasks s = (inr outcomes, s')
    /\ length outcomes = length tasks
    /\ forall n task, tasks !! n = Some task ->
         outcomes !! n = Some (fst (task (Stated.started tasks s n))).
Proof.
  induction tasks as [|task tasks IH]; intros s.
  - exists [], s. split; [reflexivity |]. split; [reflexivity |].
    intros n t Hn. destruct n; discriminate.
  - cbn [gather_return_exceptions]. destruct (task s) as [r s1] eqn:E.
    destruct (IH s1) as (outcomes & s' & Hrun & Hlen & Hout). rewrite Hrun.
    exists (r :: outcomes), s'. split; [reflexivity |].
    split; [cbn [length]; rewrite Hlen; reflexivity |].
    intros n t Hn. destruct n as [|n].
    + injection Hn as <-. unfold Stated.started. cbn [take foldl lookup list_lookup].
      rewrite E. reflexivity.
    + unfold Stated.started. cbn [take foldl]. rewrite E. cbn [snd].
      apply (Hout n t Hn).
Qed.

Lemma process_results_spec env (units : list UnitData) : forall outs i s,
  (i + length outs <= length units)%nat ->
  exists records s',
    process_results env units i outs s = (inr records, s')
    /\ length records = length outs
    /\ forall n u outcome,
         units !! (i + n)%nat = Some u -> outs !! n = Some outcome ->
         exists record, records !! n = Some record
                        /\ Stated.record_for (i + n) u outcome record.
Proof.
  induction outs as [|result outs IH]; intros i s Hlen.
  - exists [], s. split; [reflexivity |]. split; [reflexivity |].
    intros n u o _ Hn. destruct n; discriminate.
  - cbn [length] in Hlen. cbn [process_results].
    destruct (lookup_lt_is_Some_2 units i) as [u Hu]; [lia |].
    rewrite Hu. unfold bind at 1. unfold time_time at 1. unfold bind at 1.
    destruct (IH (S i) (set_tick (S (tick s)) s)) as (records & s' & Hrun & Hl & Hrec);
      [lia |].
    rewrite Hrun. unfold ret.
    eexists _, s'. split; [reflexivity |].
    split; [cbn [length]; rewrite Hl; reflexivity |].
    intros n u' o Hu' Hn. destruct n as [|n].
    + replace (i + 0)%nat with i in * by lia.
      rewrite Hu in Hu'. injection Hu' as <-. injection Hn as <-.
      eexists. split; [reflexivity |].
      unfold Stated.record_for. destruct result; cbn; repeat split.
    + replace (i + S n)%nat with (S i + n)%nat in * by lia.
      apply (Hrec n u' o Hu' Hn).
Qed.

Lemma create_tasks_ok env (units : list UnitData) strategy :
  Forall Stated.has_keys units ->
  create_tasks env units strategy
  = inr (map (fun u => optimize_unit_comprehensive env (default "" (unit_id u))
                         (default [] (sensor_data u)) strategy 24) units).
Proof.
  induction 1 as [|u units [[uid Hid] [sd Hsd]] Hall IH]; [reflexivity |].
  cbn [create_tasks map]. rewrite Hid, Hsd, IH. reflexivity.
Qed.

Lemma partition_results_ok {units : list UnitData} :
  forall (outs : list (Res UnitOptimization)) i,
  Forall Stated.has_keys units ->
  (i + length outs <= length units)%nat ->
  partition_results units i outs
  = inr (Stated.successes outs, Stated.failure_records (drop i units) outs).
Proof.
  intros outs i Hall. revert i.
  induction outs as [|result outs IH]; intros i Hlen.
  - cbn. unfold Stated.failure_records. destruct (drop i units); reflexivity.
  - cbn [length] in Hlen. cbn [partition_results].
    destruct (lookup_lt_is_Some_2 units i) as [u Hu]; [lia |].
    rewrite (drop_S units u i Hu). rewrite IH by lia.
    destruct result as [e | r].
    + rewrite Hu.
      rewrite Forall_forall in Hall.
      destruct (Hall u (list_elem_of_lookup_2 _ _ _ Hu)) as [[uid Hid] _].
      rewrite Hid. unfold Stated.successes, Stated.failure_records.
      cbn [omap zip zip_with list_omap fst snd]. rewrite Hid. reflexivity.
    + unfold Stated.successes, Stated.failure_records.
      cbn [omap zip zip_with list_omap fst snd]. reflexivity.
Qed.

Lemma partition_lengths {A} (units : list UnitData) : forall (outs : list (Res A)),
  length outs = length units ->
  (length (Stated.successes outs) + length (Stated.failure_records units outs)
   = length units)%nat.
Proof.
  unfold Stated.successes, Stated.failure_records.
  induction units as [|u units IH]; intros [|o outs] Hlen; try discriminate;
    [reflexivity |].
  cbn [length] in Hlen. injection Hlen as Hlen. specialize (IH outs Hlen).
  cbn [omap zip zip_with list_omap fst snd]. destruct o; cbn [length]; lia.
Qed.

(** C2 (as the code has it).  [get_batch_predictions] never raises: the
    task of every unit is run, from the state that the tasks of the units
    before it have left, whether they returned or raised; the record at
    position [i] carries the id of unit [i] and either the predictions that
    this run returned or, when it raised, the message of its exception.
    [optimize_network] does the same with two lists, the successful results
    and the failure records (unit id and message), each in input order and
    together one per unit, provided every unit dictionary carries the keys
    ['unit_id'] and ['sensor_data'], which it indexes before any task is
    started. *)
Theorem unit_failures_are_isolated (env : Env) (units : list UnitData)
    (strategy : string) (s : State) :
  (exists records s',
     get_batch_predictions env units s = (inr records, s')
     /\ length records = length units
     /\ forall i u, units !! i = Some u ->
          exists record,
            records !! i = Some record
            /\ Stated.record_for i u
                 (fst (Stated.batch_task env u
                         (Stated.started (map (Stated.batch_task env) units)
                            (snd (time_time env s)) i)))
                 record)
  /\ (Forall Stated.has_keys units ->
      exists outcomes result s',
        optimize_network env units strategy s = (inr result, s')
        /\ length outcomes = length units
        /\ (forall i u, units !! i = Some u ->
              outcomes !! i
              = Some (fst (Stated.network_task env strategy u
                             (Stated.started
                                (map (Stated.network_task env strategy) units)
                                (snd (time_time env s)) i))))
        /\ results result = Stated.successes outcomes
        /\ failures result = Stated.failure_records units outcomes
        /\ total_units result = length units
        /\ (successful_optimizations result + failed_optimizations result
            = length units)%nat).
Proof.
  split.
  - unfold get_batch_predictions. unfold bind at 1. unfold time_time at 1.
    unfold bind at 1.
    destruct (gather_return_exceptions_spec
                (map (fun unit_data =>
                        _predict_unit_comprehensive env
                          (default "unknown" (unit_id unit_data))
                          (default [] (sensor_data unit_data))) units)
                (set_tick (S (tick s)) s))
      as (outcomes & s1 & Hrun & Hlen & Hout).
    rewrite Hrun. rewrite length_map in Hlen.
    unfold bind at 1.
    destruct (process_results_spec env units outcomes 0 s1) as (records & s2 & Hp & Hl & Hrec);
      [cbn; lia |].
    rewrite Hp. unfold bind, time_time, ret.
    exists records, (set_tick (S (tick s2)) s2).
    split; [reflexivity |]. split; [lia |].
    intros i u Hu.
    assert (Hsi : outcomes !! i
                  = Some (fst (Stated.batch_task env u
                                 (Stated.started (map (Stated.batch_task env) units)
                                    (set_tick (S (tick s)) s) i)))).
    { apply (Hout i (Stated.batch_task env u)).
      rewrite list_lookup_fmap, Hu. reflexivity. }
    destruct (Hrec i u _ Hu Hsi) as (record & Hr & Hfor).
    exists record. split; [exact Hr | exact Hfor].
  - intros Hall. unfold optimize_network. unfold bind at 1. unfold time_time at 1.
    unfold bind at 1. rewrite (create_tasks_ok env units strategy Hall).
    unfold lift at 1. unfold bind at 1.
    destruct (gather_return_exceptions_spec
                (map (fun u => optimize_unit_comprehensive env (default "" (unit_id u))
                                 (default [] (sensor_data u)) strategy 24) units)
                (set_tick (S (tick s)) s))
      as (outcomes & s1 & Hrun & Hlen & Hout).
    rewrite Hrun. rewrite length_map in Hlen.
    unfold bind at 1. unfold lift at 1.
    rewrite (partition_results_ok outcomes 0 Hall) by (cbn; lia).
    unfold bind, time_time, ret. cbn [fst snd drop].
    eexists outcomes, _, _. split; [reflexivity |].
    cbn [results failures total_units successful_optimizations failed_optimizations].
    split; [exact Hlen |]. split; [| split; [reflexivity | split; [reflexivity |]]].
    + intros i u Hu. apply (Hout i (Stated.network_task env strategy u)).
      rewrite list_lookup_fmap, Hu. reflexivity.
    + split; [reflexivity |]. apply partition_lengths, Hlen.
Qed.

Lemma unit_failures_are_isolated_witness :
  exists outcomes result s',
    optimize_network Demo.env Demo.units "balanced" Demo.trained = (inr result, s')
    /\ length outcomes = length Demo.units
    /\ (forall i u, Demo.units !! i = Some u ->
          outcomes !! i
          = Some (fst (Stated.network_task Demo.env "balanced" u
                         (Stated.started
                            (map (Stated.network_task Demo.env "balanced") Demo.units)
                            (snd (time_time Demo.env Demo.trained)) i))))
    /\ results result = Stated.successes outcomes
    /\ failures result = Stated.failure_records Demo.units outcomes
    /\ total_units result = length Demo.units
    /\ (successful_optimizations result + failed_optimizations result
        = length Demo.units)%nat.
Proof.
  apply (proj2 (unit_failures_are_isolated Demo.env Demo.units "balanced" Demo.trained)).
  repeat constructor; eexists; reflexivity.
Defined.

(** The two predictions of a unit on a service without trained models.
    The efficiency call is handed to the pool, where it would raise
    [ValueError]; the maintenance coroutine fails at once, and its error is
    the one that the gather raises while the efficiency call is in flight. *)
Example gather_raises_the_first_failure :
  fst (predict_efficiency Demo.env Demo.reading Demo.untrained)
  = inl (ValueError "Efficiency model not trained. Please train the model first.")
  /\ fst (gather2 (predict_efficiency_task Demo.env Demo.reading)
                  (predict_maintenance_task Demo.env Demo.reading) Demo.untrained)
     = inl (AttributeError "'function' object has no attribute 'submit'")
  /\ map awaited_call
         (in_flight (snd (gather2 (predict_efficiency_task Demo.env Demo.reading)
                                  (predict_maintenance_task Demo.env Demo.reading)
                                  Demo.untrained)))
     = ["predict_efficiency"].
Proof. vm_compute. repeat split. Qed.

(** What the batch call reports for the two example units. *)
Example get_batch_predictions_example :
  match fst (get_batch_predictions Demo.env Demo.units Demo.trained) with
  | inr records =>
      map (fun r => (br_unit_id r, br_success r, br_error r)) records
      = [ ("CC-001", false, Some "'function' object has no attribute 'submit'");
          ("CC-002", false, Some "'function' object has no attribute 'submit'") ]
  | inl _ => False
  end.
Proof. vm_compute. reflexivity. Qed.

(** What the network call reports for the two example units. *)
Example optimize_network_example :
  match fst (optimize_network Demo.env Demo.units "balanced" Demo.trained) with
  | inr result =>
      results result = []
      /\ failures result
         = [ ("CC-001", "'function' object has no attribute 'submit'");
             ("CC-002",
              "Missing required sensor data: ['pressure', 'flow_rate', 'energy_consumption']") ]
  | inl _ => False
  end.
Proof. vm_compute. split; reflexivity. Qed.

(** A unit dictionary without ['unit_id'] makes the network call itself
    raise [KeyError], before any unit is optimized. *)
Lemma network_call_raises_on_missing_unit_id : ~ Stated.network_never_raises.
Proof.
  intros H.
  destruct (H Demo.env [Demo.unit_without_id] "balanced" Demo.trained)
    as (result & s' & Hrun).
  assert (Hfst : fst (optimize_network Demo.env [Demo.unit_without_id] "balanced"
                        Demo.trained) = inl (KeyError "unit_id"))
    by (vm_compute; reflexivity).
  rewrite Hrun in Hfst. discriminate Hfst.
Qed.

End BatchFacts.

(** ** More on the prediction cache and the heap of results *)

Module CacheInvariants.
Import Py PyFacts Asyncio PredictionService ServiceFacts Invariant.
Local Open Scope Q_scope.

(** What the computing path of [predict_efficiency] does to the state. *)
Lemma compute_efficiency_effect env sd start s r s' :
  compute_efficiency env sd start s = (r, s') ->
  (exists e, r = inl e /\ s' = s)
  \/ (r = inr (next_loc s)
      /\ next_loc s' = S (next_loc s)
      /\ submitted s' = submitted s
      /\ models s' = models s
      /\ cache_enabled s' = cache_enabled s
      /\ cache_ttl s' = cache_ttl s
      /\ (tick s <= tick s')%nat
      /\ (exists o, heap s' = <[next_loc s := o]> (heap s))
      /\ (forall k e, prediction_cache s' !! k = Some e ->
            prediction_cache s !! k = Some e
            \/ (k = efficiency_key env sd /\ data e = next_loc s))).
Proof.
  unfold compute_efficiency, Optimizer.predict_efficiency. run.
  destruct (models s !! "efficiency") as [m|]; run.
  2: { intros [= <- <-]. left. eauto. }
  destruct (m sd) as [e|v]; run.
  { intros [= <- <-]. left. eauto. }
  destruct (cache_enabled s) eqn:Hc; run; intros [= <- <-]; right;
    cbn [next_loc submitted models cache_enabled cache_ttl tick heap prediction_cache
         set_heap set_cache set_tick];
    (split; [reflexivity |]); (split; [reflexivity |]); (split; [reflexivity |]);
    (split; [reflexivity |]); (split; [congruence |]); (split; [reflexivity |]);
    (split; [lia |]); (split; [rewrite alter_insert_eq; eauto |]).
  - intros k e He. apply map_lookup_filter_Some in He. destruct He as [He _].
    apply lookup_insert_Some in He. destruct He as [[<- <-] | [_ He]].
    + right. split; reflexivity.
    + left. exact He.
  - intros k e He. apply map_lookup_filter_Some in He. destruct He as [He _].
    left. exact He.
Qed.

(** The two ways a call of [predict_efficiency] can go. *)
Lemma predict_efficiency_paths env sd s :
  (exists l e,
     prediction_cache s !! efficiency_key env sd = Some e /\ data e = l
     /\ predict_efficiency env sd s = (inr l, set_tick (S (S (tick s))) s))
  \/ (exists n,
        (n = S (tick s) \/ n = S (S (tick s)))
        /\ predict_efficiency env sd s
           = compute_efficiency env sd (clk env (tick s))
               (set_submitted (submitted s ++ ["predict_efficiency"]) (set_tick n s))).
Proof.
  destruct (lookup_fresh (clk env (S (tick s))) (efficiency_key env sd) s) as [l|] eqn:E.
  - left. pose proof (predict_efficiency_hit env sd s l E) as Hhit.
    unfold lookup_fresh in E.
    destruct (cache_enabled s); [| discriminate].
    destruct (prediction_cache s !! efficiency_key env sd) as [e|]; [| discriminate].
    destruct (Qltb _ _); [| discriminate].
    injection E as <-. exists (data e), e. repeat split. exact Hhit.
  - right. destruct (predict_efficiency_miss env sd s E) as (s1 & Hs1 & Heq).
    destruct Hs1 as [-> | ->]; eexists; (split; [| exact Heq]); auto.
Qed.

Lemma predict_maintenance_paths env sd s :
  (exists l e,
     prediction_cache s !! maintenance_key env sd = Some e /\ data e = l
     /\ predict_maintenance env sd s = (inr l, set_tick (S (S (tick s))) s))
  \/ (exists n,
        (n = S (tick s) \/ n = S (S (tick s)))
        /\ predict_maintenance env sd s
           = (inl (AttributeError "'function' object has no attribute 'submit'"),
              set_tick n s)).
Proof.
  destruct (lookup_fresh (clk env (S (tick s))) (maintenance_key env sd) s) as [l|] eqn:E.
  - left. pose proof (predict_maintenance_hit env sd s l E) as Hhit.
    unfold lookup_fresh in E.
    destruct (cache_enabled s); [| discriminate].
    destruct (prediction_cache s !! maintenance_key env sd) as [e|]; [| discriminate].
    destruct (Qltb _ _); [| discriminate].
    injection E as <-. exists (data e), e. repeat split. exact Hhit.
  - right. destruct (predict_maintenance_miss env sd s E) as (s1 & Hs1 & Heq).
    destruct Hs1 as [-> | ->]; eexists; (split; [| exact Heq]); auto.
Qed.

Lemma optimize_energy_paths env od s :
  (exists l e,
     prediction_cache s !! energy_key env od = Some e /\ data e = l
     /\ optimize_energy env od s = (inr l, set_tick (S (S (tick s))) s))
  \/ (exists n,
        (n = S (tick s) \/ n = S (S (tick s)))
        /\ optimize_energy env od s
           = (inl (AttributeError "'function' object has no attribute 'submit'"),
              set_tick n s)).
Proof.
  destruct (lookup_fresh (clk env (S (tick s))) (energy_key env od) s) as [l|] eqn:E.
  - left. pose proof (optimize_energy_hit env od s l E) as Hhit.
    unfold lookup_fresh in E.
    destruct (cache_enabled s); [| discriminate].
    destruct (prediction_cache s !! energy_key env od) as [e|]; [| discriminate].
    destruct (Qltb _ _); [| discriminate].
    injection E as <-. exists (data e), e. repeat split. exact Hhit.
  - right. destruct (optimize_energy_miss env od s E) as (s1 & Hs1 & Heq).
    destruct Hs1 as [-> | ->]; eexists; (split; [| exact Heq]); auto.
Qed.

Lemma compute_efficiency_heap_wf env sd start s :
  heap_wf s ->
  heap_wf (snd (compute_efficiency env sd start s))
  /\ (forall l, fst (compute_efficiency env sd start s) = inr l ->
        is_Some (heap (snd (compute_efficiency env sd start s)) !! l))
  /\ (forall l o, heap s !! l = Some o ->
        heap (snd (compute_efficiency env sd start s)) !! l = Some o).
Proof.
  intros [H1 H2].
  destruct (compute_efficiency env sd start s) as [r s'] eqn:E.
  apply compute_efficiency_effect in E. cbn [fst snd].
  destruct E as [(e & -> & ->) | (-> & Hn & _ & _ & _ & _ & _ & [o Hh] & Hc)].
  - split; [split; assumption |]. split; [discriminate | auto].
  - split; [split |].
    + intros l. rewrite Hh, Hn. intros Hl.
      apply lookup_insert_is_Some in Hl. destruct Hl as [<- | [_ Hl]]; [lia |].
      specialize (H1 l Hl). lia.
    + intros k e He. rewrite Hh. apply lookup_insert_is_Some'.
      destruct (Hc k e He) as [Hold | [_ ->]]; [right; eauto | left; reflexivity].
    + split.
      * intros l [= <-]. rewrite Hh. apply lookup_insert_is_Some'. left. reflexivity.
      * intros l o' Hl. rewrite Hh. rewrite lookup_insert_ne; [exact Hl |].
        intros <-. specialize (H1 _ (mk_is_Some _ _ Hl)). lia.
Qed.

(** X1.  The sweep [_clean_cache] keeps exactly the entries whose age at the
    time of the sweep is at most the TTL (an entry aged exactly the TTL
    survives the sweep, though a lookup no longer serves it); it reads the
    clock once and touches neither the heap of results nor the pool. *)
Theorem clean_cache_keeps_entries_within_ttl (env : Env) (s : State) :
  fst (_clean_cache env s) = inr tt
  /\ (forall k e,
        prediction_cache (snd (_clean_cache env s)) !! k = Some e
        <-> prediction_cache s !! k = Some e
            /\ clk env (tick s) - timestamp e <= cache_ttl s)
  /\ heap (snd (_clean_cache env s)) = heap s
  /\ next_loc (snd (_clean_cache env s)) = next_loc s
  /\ submitted (snd (_clean_cache env s)) = submitted s
  /\ tick (snd (_clean_cache env s)) = S (tick s).
Proof.
  unfold _clean_cache. run.
  split; [reflexivity |]. split; [| repeat split].
  intros k e. rewrite map_lookup_filter_Some. cbn [snd]. unfold expired.
  rewrite Qgtb_le. reflexivity.
Qed.

(** X2.  Store, then look up.  With caching enabled, [cache_store] binds the
    key to the result and the time of the store, replacing whatever was
    there and leaving every other key alone; a later cache check of that key
    (same cache and TTL) answers the stored result exactly while less than
    the TTL has passed since the store, and nothing afterwards. *)
Theorem stored_result_is_served_until_ttl (env : Env) (key : string) (l : loc)
    (s s2 : State) :
  cache_enabled s = true ->
  prediction_cache s2 = prediction_cache (snd (cache_store env key l s)) ->
  cache_enabled s2 = true ->
  cache_ttl s2 = cache_ttl s ->
  prediction_cache (snd (cache_store env key l s)) !! key
    = Some {| data := l; timestamp := clk env (tick s) |}
  /\ (forall key', key' <> key ->
        prediction_cache (snd (cache_store env key l s)) !! key'
        = prediction_cache s !! key')
  /\ (clk env (tick s2) - clk env (tick s) < cache_ttl s ->
        fst (cache_check env key s2) = inr (Some l))
  /\ (cache_ttl s <= clk env (tick s2) - clk env (tick s) ->
        fst (cache_check env key s2) = inr None).
Proof.
  intros Hen Hc2 Hen2 Httl.
  assert (Hstore : prediction_cache (snd (cache_store env key l s))
                   = <[key := {| data := l; timestamp := clk env (tick s) |}]>
                       (prediction_cache s)).
  { unfold cache_store. run. rewrite Hen. run. reflexivity. }
  rewrite Hstore in *.
  split; [apply lookup_insert_eq |].
  split; [intros key' Hne; apply lookup_insert_ne; congruence |].
  rewrite !cache_check_answer. unfold lookup_fresh.
  rewrite Hen2, Hc2, lookup_insert_eq, Httl. cbn [timestamp data].
  split; intros H.
  - apply Qltb_lt in H. rewrite H. reflexivity.
  - apply Qltb_ge in H. rewrite H. reflexivity.
Qed.

Lemma stored_result_is_served_until_ttl_witness :
  fst (cache_check Demo.env "efficiency_1"
         (snd (cache_store Demo.env "efficiency_1" 0%nat Demo.untrained)))
  = inr (Some 0%nat).
Proof.
  refine (proj1 (proj2 (proj2
            (stored_result_is_served_until_ttl Demo.env "efficiency_1" 0%nat
               Demo.untrained
               (snd (cache_store Demo.env "efficiency_1" 0%nat Demo.untrained))
               _ _ _ _))) _);
    vm_compute; reflexivity.
Defined.

Lemma heap_wf_empty s :
  heap s = ∅ -> prediction_cache s = ∅ -> heap_wf s.
Proof.
  intros Hh Hc. split.
  - intros l [o Ho]. rewrite Hh, lookup_empty in Ho. discriminate.
  - intros k e He. rewrite Hc, lookup_empty in He. discriminate.
Qed.

Lemma only_efficiency_cached_empty s :
  prediction_cache s = ∅ -> only_efficiency_cached s.
Proof. intros Hc k [e He]. rewrite Hc, lookup_empty in He. discriminate. Qed.

Lemma efficiency_key_prefix env sd :
  String.prefix "efficiency_" (efficiency_key env sd) = true.
Proof.
  unfold efficiency_key. generalize (pretty (py_hash env (json_dumps env (str_num env) sd))).
  intros x. destruct x; reflexivity.
Qed.

Lemma maintenance_key_prefix env sd :
  String.prefix "efficiency_" (maintenance_key env sd) = false.
Proof. reflexivity. Qed.

Lemma energy_key_prefix env od :
  String.prefix "efficiency_" (energy_key env od) = false.
Proof. reflexivity. Qed.

Lemma predict_efficiency_keeps_heap_wf env sd s :
  heap_wf s -> heap_wf (snd (predict_efficiency env sd s)).
Proof.
  intros Hwf.
  destruct (predict_efficiency_paths env sd s)
    as [(l & e & Hc & <- & ->) | (n & _ & ->)]; [exact Hwf |].
  match goal with
  | |- context [compute_efficiency env sd ?t ?sx] =>
      destruct (compute_efficiency_heap_wf env sd t sx) as (H1 & _);
        [exact Hwf | exact H1]
  end.
Qed.

(** X3.  No dangling results.  If every cache entry refers to an allocated
    result dictionary (as in a new service), this is still so after
    [predict_efficiency], [predict_maintenance] or [optimize_energy], whether
    the call hits, computes or raises, and the result a call returns is an
    allocated dictionary: a hit never hands out a missing object. *)
Theorem returned_results_are_allocated (env : Env) (sd : Reading)
    (od : Py.Dict Value) (s : State) :
  heap_wf s ->
  (heap_wf (snd (predict_efficiency env sd s))
   /\ forall l, fst (predict_efficiency env sd s) = inr l ->
        is_Some (heap (snd (predict_efficiency env sd s)) !! l))
  /\ (heap_wf (snd (predict_maintenance env sd s))
      /\ forall l, fst (predict_maintenance env sd s) = inr l ->
           is_Some (heap (snd (predict_maintenance env sd s)) !! l))
  /\ (heap_wf (snd (optimize_energy env od s))
      /\ forall l, fst (optimize_energy env od s) = inr l ->
           is_Some (heap (snd (optimize_energy env od s)) !! l)).
Proof.
  intros Hwf. split; [| split].
  - destruct (predict_efficiency_paths env sd s)
      as [(l & e & Hc & <- & ->) | (n & _ & ->)].
    + cbn [fst snd]. split; [exact Hwf |].
      intros l [= <-]. exact (proj2 Hwf _ _ Hc).
    + match goal with
      | |- context [compute_efficiency env sd ?t ?sx] =>
          destruct (compute_efficiency_heap_wf env sd t sx) as (H1 & H2 & _);
            [exact Hwf | split; assumption]
      end.
  - destruct (predict_maintenance_paths env sd s)
      as [(l & e & Hc & <- & ->) | (n & _ & ->)]; cbn [fst snd].
    + split; [exact Hwf |]. intros l [= <-]. exact (proj2 Hwf _ _ Hc).
    + split; [exact Hwf | discriminate].
  - destruct (optimize_energy_paths env od s)
      as [(l & e & Hc & <- & ->) | (n & _ & ->)]; cbn [fst snd].
    + split; [exact Hwf |]. intros l [= <-]. exact (proj2 Hwf _ _ Hc).
    + split; [exact Hwf | discriminate].
Qed.

Lemma returned_results_are_allocated_witness :
  heap_wf Demo.trained
  /\ is_Some (heap (snd (predict_efficiency Demo.env Demo.reading Demo.trained)) !! 0%nat).
Proof.
  assert (H : heap_wf Demo.trained) by (apply heap_wf_empty; reflexivity).
  split; [exact H |].
  apply (proj1 (returned_results_are_allocated Demo.env Demo.reading Demo.operational
                  Demo.trained H)).
  vm_compute. reflexivity.
Defined.

(** X4.  Results are written once.  A result dictionary that exists before a
    call of [predict_efficiency], [predict_maintenance] or [optimize_energy]
    is the same after it: the only dictionary a call annotates with
    ['processing_time_ms'] is the one it has just created. *)
Theorem earlier_results_are_left_unchanged (env : Env) (sd : Reading)
    (od : Py.Dict Value) (s : State) (l : loc) (o : Obj) :
  heap_wf s ->
  heap s !! l = Some o ->
  heap (snd (predict_efficiency env sd s)) !! l = Some o
  /\ heap (snd (predict_maintenance env sd s)) !! l = Some o
  /\ heap (snd (optimize_energy env od s)) !! l = Some o.
Proof.
  intros Hwf Hl. split; [| split].
  - destruct (predict_efficiency_paths env sd s)
      as [(l' & e & _ & _ & ->) | (n & _ & ->)]; [exact Hl |].
    match goal with
    | |- context [compute_efficiency env sd ?t ?sx] =>
        destruct (compute_efficiency_heap_wf env sd t sx) as (_ & _ & H3);
          [exact Hwf | apply H3; exact Hl]
    end.
  - destruct (predict_maintenance_paths env sd s)
      as [(l' & e & _ & _ & ->) | (n & _ & ->)]; exact Hl.
  - destruct (optimize_energy_paths env od s)
      as [(l' & e & _ & _ & ->) | (n & _ & ->)]; exact Hl.
Qed.

Lemma earlier_results_are_left_unchanged_witness :
  exists o,
    heap Demo.cached_at_0 !! 0%nat = Some o
    /\ heap (snd (predict_efficiency Demo.env_300 Demo.hot_reading Demo.cached_at_0))
         !! 0%nat = Some o.
Proof.
  assert (Hwf : heap_wf Demo.cached_at_0).
  { apply predict_efficiency_keeps_heap_wf. apply heap_wf_empty; reflexivity. }
  destruct (heap Demo.cached_at_0 !! 0%nat) as [o|] eqn:E;
    [| vm_compute in E; discriminate].
  exists o. split; [reflexivity |].
  exact (proj1 (earlier_results_are_left_unchanged Demo.env_300 Demo.hot_reading
                  Demo.operational Demo.cached_at_0 0%nat o Hwf E)).
Defined.

Lemma compute_efficiency_only_efficiency env sd start s :
  only_efficiency_cached s ->
  only_efficiency_cached (snd (compute_efficiency env sd start s)).
Proof.
  intros Hinv.
  destruct (compute_efficiency env sd start s) as [r s'] eqn:E.
  apply compute_efficiency_effect in E. cbn [snd].
  destruct E as [(e & -> & ->) | (_ & _ & _ & _ & _ & _ & _ & _ & Hc)]; [exact Hinv |].
  intros k [e He]. destruct (Hc k e He) as [Hold | [-> _]].
  - apply Hinv. eauto.
  - apply efficiency_key_prefix.
Qed.

Lemma predict_efficiency_only_efficiency env sd s :
  only_efficiency_cached s ->
  only_efficiency_cached (snd (predict_efficiency env sd s)).
Proof.
  intros Hinv.
  destruct (predict_efficiency_paths env sd s)
    as [(l & e & _ & _ & ->) | (n & _ & ->)]; [exact Hinv |].
  apply compute_efficiency_only_efficiency. exact Hinv.
Qed.

Lemma lookup_fresh_other_kind now key s :
  only_efficiency_cached s ->
  String.prefix "efficiency_" key = false ->
  lookup_fresh now key s = None.
Proof.
  intros Hinv Hk. unfold lookup_fresh.
  destruct (cache_enabled s); [| reflexivity].
  destruct (prediction_cache s !! key) as [e|] eqn:E; [| reflexivity].
  rewrite (Hinv key (mk_is_Some _ _ E)) in Hk. discriminate.
Qed.

Lemma predict_maintenance_always_raises env sd s :
  only_efficiency_cached s ->
  fst (predict_maintenance env sd s)
  = inl (AttributeError "'function' object has no attribute 'submit'")
  /\ prediction_cache (snd (predict_maintenance env sd s)) = prediction_cache s
  /\ heap (snd (predict_maintenance env sd s)) = heap s
  /\ submitted (snd (predict_maintenance env sd s)) = submitted s.
Proof.
  intros Hinv.
  destruct (predict_maintenance_miss env sd s) as (s1 & Hs1 & ->).
  { apply lookup_fresh_other_kind; [exact Hinv | apply maintenance_key_prefix]. }
  destruct Hs1 as [-> | ->]; repeat split.
Qed.

Lemma optimize_energy_always_raises env od s :
  only_efficiency_cached s ->
  fst (optimize_energy env od s)
  = inl (AttributeError "'function' object has no attribute 'submit'")
  /\ prediction_cache (snd (optimize_energy env od s)) = prediction_cache s
  /\ heap (snd (optimize_energy env od s)) = heap s
  /\ submitted (snd (optimize_energy env od s)) = submitted s.
Proof.
  intros Hinv.
  destruct (optimize_energy_miss env od s) as (s1 & Hs1 & ->).
  { apply lookup_fresh_other_kind; [exact Hinv | apply energy_key_prefix]. }
  destruct Hs1 as [-> | ->]; repeat split.
Qed.

(** X5.  Only efficiency results are ever cached.  A new service has an empty
    cache, and if every cached key starts with [efficiency_] before a call
    of [predict_efficiency], [predict_maintenance], [optimize_energy] or the
    sweep, this is so after it: no key of the other two kinds is ever
    stored. *)
Theorem cache_holds_only_efficiency_keys (env : Env) (sd : Reading)
    (od : Py.Dict Value) (s : State) :
  only_efficiency_cached s ->
  only_efficiency_cached (snd (predict_efficiency env sd s))
  /\ only_efficiency_cached (snd (predict_maintenance env sd s))
  /\ only_efficiency_cached (snd (optimize_energy env od s))
  /\ only_efficiency_cached (snd (_clean_cache env s)).
Proof.
  intros Hinv. split; [| split; [| split]].
  - apply predict_efficiency_only_efficiency. exact Hinv.
  - destruct (predict_maintenance_always_raises env sd s Hinv) as (_ & Hc & _).
    intros k. rewrite Hc. apply Hinv.
  - destruct (optimize_energy_always_raises env od s Hinv) as (_ & Hc & _).
    intros k. rewrite Hc. apply Hinv.
  - unfold _clean_cache. run. intros k [e He].
    apply map_lookup_filter_Some in He. apply Hinv. exists e. apply He.
Qed.

Lemma cache_holds_only_efficiency_keys_witness :
  only_efficiency_cached (init "1.0.0" true)
  /\ only_efficiency_cached
       (snd (predict_efficiency Demo.env Demo.reading Demo.trained)).
Proof.
  split; [apply only_efficiency_cached_empty; reflexivity |].
  apply (cache_holds_only_efficiency_keys Demo.env Demo.reading Demo.operational
           Demo.trained).
  apply only_efficiency_cached_empty. reflexivity.
Defined.

(** X6.  On a service whose cache holds efficiency keys only (every service
    that started empty), [predict_maintenance] and [optimize_energy] raise
    [AttributeError] for every reading, trained or not, cache enabled or not;
    they submit nothing to the pool and change neither the cache nor the
    results. *)
Theorem maintenance_and_energy_never_answer (env : Env) (sd : Reading)
    (od : Py.Dict Value) (s : State) :
  only_efficiency_cached s ->
  (fst (predict_maintenance env sd s)
   = inl (AttributeError "'function' object has no attribute 'submit'")
   /\ prediction_cache (snd (predict_maintenance env sd s)) = prediction_cache s
   /\ heap (snd (predict_maintenance env sd s)) = heap s
   /\ submitted (snd (predict_maintenance env sd s)) = submitted s)
  /\ (fst (optimize_energy env od s)
      = inl (AttributeError "'function' object has no attribute 'submit'")
      /\ prediction_cache (snd (optimize_energy env od s)) = prediction_cache s
      /\ heap (snd (optimize_energy env od s)) = heap s
      /\ submitted (snd (optimize_energy env od s)) = submitted s).
Proof.
  intros Hinv. split.
  - apply predict_maintenance_always_raises. exact Hinv.
  - apply optimize_energy_always_raises. exact Hinv.
Qed.

Lemma maintenance_and_energy_never_answer_witness :
  fst (predict_maintenance Demo.env Demo.reading Demo.cached_at_0)
  = inl (AttributeError "'function' object has no attribute 'submit'").
Proof.
  apply (maintenance_and_energy_never_answer Demo.env Demo.reading Demo.operational
           Demo.cached_at_0).
  apply predict_efficiency_only_efficiency.
  apply only_efficiency_cached_empty. reflexivity.
Defined.

Lemma compute_efficiency_disabled env sd start s :
  cache_enabled s = false ->
  forall k e,
    prediction_cache (snd (compute_efficiency env sd start s)) !! k = Some e ->
    prediction_cache s !! k = Some e.
Proof.
  intros Hc k e. unfold compute_efficiency, Optimizer.predict_efficiency. run.
  destruct (models s !! "efficiency") as [m|]; run; [| trivial].
  destruct (m sd) as [err|v]; run; [trivial |].
  rewrite Hc. run. intros He. apply map_lookup_filter_Some in He. apply He.
Qed.

(** X24.  With caching disabled [predict_efficiency] recomputes on every
    call: the estimator call is submitted to the pool each time, a result
    that is returned is a newly created dictionary, and no entry is added to
    the cache (the sweep still runs and may remove entries). *)
Theorem disabled_cache_always_recomputes (env : Env) (sd : Reading) (s : State) :
  cache_enabled s = false ->
  submitted (snd (predict_efficiency env sd s)) = submitted s ++ ["predict_efficiency"]
  /\ (forall l, fst (predict_efficiency env sd s) = inr l ->
        l = next_loc s
        /\ next_loc (snd (predict_efficiency env sd s)) = S (next_loc s))
  /\ (forall k e,
        prediction_cache (snd (predict_efficiency env sd s)) !! k = Some e ->
        prediction_cache s !! k = Some e).
Proof.
  intros Hc.
  destruct (predict_efficiency_miss env sd s) as (s1 & Hs1 & ->).
  { unfold lookup_fresh. rewrite Hc. reflexivity. }
  set (sx := set_submitted (submitted s ++ ["predict_efficiency"]) s1).
  assert (Hsub : submitted sx = submitted s ++ ["predict_efficiency"]) by reflexivity.
  assert (Hnext : next_loc sx = next_loc s) by (destruct Hs1 as [-> | ->]; reflexivity).
  assert (Hcache : prediction_cache sx = prediction_cache s)
    by (destruct Hs1 as [-> | ->]; reflexivity).
  assert (Hcx : cache_enabled sx = false) by (destruct Hs1 as [-> | ->]; exact Hc).
  pose proof (compute_efficiency_disabled env sd (clk env (tick s)) sx Hcx) as Hkeep.
  destruct (compute_efficiency env sd (clk env (tick s)) sx) as [r s'] eqn:E.
  apply compute_efficiency_effect in E. cbn [fst snd] in *.
  rewrite <- Hsub, <- Hnext, <- Hcache.
  destruct E as [(err & -> & ->) | (-> & Hn & Hs & _)].
  - split; [reflexivity |]. split; [discriminate | exact Hkeep].
  - split; [exact Hs |]. split; [| exact Hkeep].
    intros l [= <-]. split; [reflexivity | exact Hn].
Qed.

Lemma disabled_cache_always_recomputes_witness :
  submitted (snd (predict_efficiency Demo.env Demo.reading
                    (Demo.with_model "efficiency" Demo.model_825 (init "1.0.0" false))))
  = ["predict_efficiency"].
Proof.
  apply (disabled_cache_always_recomputes Demo.env Demo.reading
           (Demo.with_model "efficiency" Demo.model_825 (init "1.0.0" false))).
  reflexivity.
Defined.

End CacheInvariants.

(** ** What the missing executor argument does to the composite calls *)

Module CompositeFacts.
Import Py PyFacts Asyncio PredictionService OptimizationService ServiceFacts Invariant.
Import CacheInvariants BatchFacts.
Local Open Scope Q_scope.

(** Tasks that fail whenever they start in a state of [I], and keep [I]. *)
Lemma gather_all_fail {A} (I : State -> Prop) (tasks : list (M A)) :
  (forall task, In task tasks ->
     forall s, I s -> I (snd (task s)) /\ exists e, fst (task s) = inl e) ->
  forall s, I s ->
  exists outcomes s',
    gather_return_exceptions tasks s = (inr outcomes, s')
    /\ length outcomes = length tasks
    /\ Forall (fun o => exists e, o = inl e) outcomes
    /\ I s'.
Proof.
  induction tasks as [|task tasks IH]; intros Hall s Hs.
  - exists [], s. repeat split; [constructor | exact Hs].
  - cbn [gather_return_exceptions].
    destruct (Hall task (or_introl eq_refl) s Hs) as [Hs1 [e He]].
    destruct (task s) as [r s1]. cbn [fst snd] in *. subst r.
    destruct (IH (fun t Ht => Hall t (or_intror Ht)) s1 Hs1)
      as (outcomes & s' & -> & Hlen & Hfail & Hs').
    exists (inl e :: outcomes), s'. split; [reflexivity |].
    split; [cbn [length]; rewrite Hlen; reflexivity |].
    split; [constructor; eauto | exact Hs'].
Qed.

(** [run_in_executor] is [submit] followed by the await of the future. *)
Lemma run_in_executor_submit {D} (executor func : PyVal D) args s :
  run_in_executor executor func args s
  = (future <- submit executor func args ;; future) s.
Proof.
  destruct executor as [| name f | d]; [| reflexivity | reflexivity].
  destruct func as [| name f | d]; [reflexivity | | reflexivity].
  destruct args as [| [| name' f' | d] [| arg args]]; reflexivity.
Qed.

(** The coroutines awaited on their own are the operations of the service. *)
Lemma await_predict_efficiency_task env sd s :
  await (predict_efficiency_task env sd) s = predict_efficiency env sd s.
Proof.
  unfold await, predict_efficiency_task, predict_efficiency, bind, time_time.
  destruct (cache_check env (efficiency_key env sd) (set_tick (S (tick s)) s))
    as [[e | [l |]] s1]; reflexivity.
Qed.

Lemma await_predict_maintenance_task env sd s :
  await (predict_maintenance_task env sd) s = predict_maintenance env sd s.
Proof.
  unfold await, predict_maintenance_task, predict_maintenance, bind, time_time.
  destruct (cache_check env (maintenance_key env sd) (set_tick (S (tick s)) s))
    as [[e | [l |]] s1]; reflexivity.
Qed.

(** The first step of the efficiency coroutine never raises and leaves the
    cache and the heap as they are: it returns the cached object or hands
    the estimator call to the pool. *)
Lemma predict_efficiency_task_step env sd s :
  exists step s1,
    predict_efficiency_task env sd s = (inr step, s1)
    /\ prediction_cache s1 = prediction_cache s
    /\ heap s1 = heap s
    /\ in_flight s1 = in_flight s
    /\ match step with
       | Returned l =>
           lookup_fresh (clk env (S (tick s))) (efficiency_key env sd) s = Some l
           /\ submitted s1 = submitted s
       | Suspended call _ =>
           lookup_fresh (clk env (S (tick s))) (efficiency_key env sd) s = None
           /\ submitted s1 = submitted s ++ ["predict_efficiency"]
           /\ call = {| awaited_call := "predict_efficiency";
                        awaited_reading := sd;
                        awaited_since := clk env (tick s) |}
       end.
Proof.
  pose proof (cache_check_answer env (efficiency_key env sd) (set_tick (S (tick s)) s)) as Ha.
  pose proof (cache_check_state env (efficiency_key env sd) (set_tick (S (tick s)) s)) as Hs.
  unfold predict_efficiency_task. unfold bind at 1. unfold time_time at 1.
  unfold bind at 1.
  destruct (cache_check env (efficiency_key env sd) (set_tick (S (tick s)) s))
    as [r s1]. cbn [fst snd] in Ha, Hs. subst r.
  change (lookup_fresh (clk env (tick (set_tick (S (tick s)) s)))
            (efficiency_key env sd) (set_tick (S (tick s)) s))
    with (lookup_fresh (clk env (S (tick s))) (efficiency_key env sd) s).
  destruct (lookup_fresh (clk env (S (tick s))) (efficiency_key env sd) s) as [l |].
  - eexists (Returned l), s1. split; [reflexivity |].
    destruct Hs as [-> | ->]; repeat split.
  - eexists (Suspended _ _), _. split; [reflexivity |].
    destruct Hs as [-> | ->]; repeat split.
Qed.

(** The first step of the maintenance coroutine fails as soon as the cache
    has no maintenance entry. *)
Lemma predict_maintenance_task_raises env sd s :
  only_efficiency_cached s ->
  exists s1,
    predict_maintenance_task env sd s
    = (inl (AttributeError "'function' object has no attribute 'submit'"), s1)
    /\ prediction_cache s1 = prediction_cache s
    /\ heap s1 = heap s
    /\ submitted s1 = submitted s
    /\ in_flight s1 = in_flight s.
Proof.
  intros Hinv.
  pose proof (cache_check_answer env (maintenance_key env sd) (set_tick (S (tick s)) s)) as Ha.
  pose proof (cache_check_state env (maintenance_key env sd) (set_tick (S (tick s)) s)) as Hs.
  unfold predict_maintenance_task. unfold bind at 1. unfold time_time at 1.
  unfold bind at 1.
  destruct (cache_check env (maintenance_key env sd) (set_tick (S (tick s)) s))
    as [r s1]. cbn [fst snd] in Ha, Hs. subst r.
  change (lookup_fresh (clk env (tick (set_tick (S (tick s)) s)))
            (maintenance_key env sd) (set_tick (S (tick s)) s))
    with (lookup_fresh (clk env (S (tick s))) (maintenance_key env sd) s).
  rewrite (lookup_fresh_other_kind _ _ s Hinv (maintenance_key_prefix env sd)).
  exists s1. split; [reflexivity |].
  destruct Hs as [-> | ->]; repeat split.
Qed.

(** Gathering the two predictions on a service that has cached no
    maintenance result: the maintenance coroutine fails in its first step,
    so the gather raises its [AttributeError] whatever the efficiency call
    will give, and nothing has been stored. *)
Lemma gather2_predictions_fail env sd s :
  only_efficiency_cached s ->
  exists s',
    gather2 (predict_efficiency_task env sd) (predict_maintenance_task env sd) s
    = (inl (AttributeError "'function' object has no attribute 'submit'"), s')
    /\ prediction_cache s' = prediction_cache s
    /\ heap s' = heap s.
Proof.
  intros Hinv. unfold gather2.
  destruct (predict_efficiency_task_step env sd s)
    as (step & s1 & -> & Hc1 & Hh1 & _).
  assert (H1 : only_efficiency_cached s1) by (intros k; rewrite Hc1; apply Hinv).
  destruct (predict_maintenance_task_raises env sd s1 H1)
    as (s2 & -> & Hc2 & Hh2 & _).
  eexists. split; [reflexivity |].
  destruct step; cbn [leave_in_flight set_in_flight prediction_cache heap];
    split; congruence.
Qed.

Lemma bind_raises {A B} (m : M A) (k : A -> M B) s e :
  fst (m s) = inl e -> bind m k s = (inl e, snd (m s)).
Proof. unfold bind. destruct (m s) as [[e' | a] s1]; cbn; congruence. Qed.

Lemma _predict_unit_comprehensive_fails env uid sd s :
  only_efficiency_cached s ->
  only_efficiency_cached (snd (_predict_unit_comprehensive env uid sd s))
  /\ exists e, fst (_predict_unit_comprehensive env uid sd s) = inl e.
Proof.
  intros Hinv. unfold _predict_unit_comprehensive.
  destruct (gather2_predictions_fail env sd s Hinv) as (s' & Hg & Hc & _).
  rewrite (bind_raises _ _ s _ (f_equal fst Hg)), Hg. cbn [fst snd].
  split; [intros k; rewrite Hc; apply Hinv | eexists; reflexivity].
Qed.

Lemma optimize_unit_comprehensive_fails env uid sd strategy horizon s :
  only_efficiency_cached s ->
  only_efficiency_cached (snd (optimize_unit_comprehensive env uid sd strategy horizon s))
  /\ exists e, fst (optimize_unit_comprehensive env uid sd strategy horizon s) = inl e.
Proof.
  intros Hinv.
  assert (Hinv' : only_efficiency_cached (set_tick (S (tick s)) s)) by exact Hinv.
  assert (Heq : forall k : Q -> M UnitOptimization,
             bind (time_time env) k s = k (clk env (tick s)) (set_tick (S (tick s)) s))
    by reflexivity.
  unfold optimize_unit_comprehensive. rewrite Heq.
  destruct (_validate_optimization_inputs uid sd strategy) as [e | []] eqn:Ev.
  { rewrite (bind_raises _ _ _ e) by reflexivity. cbn [fst snd lift].
    split; [exact Hinv | eauto]. }
  assert (Hb : forall (k : unit -> M UnitOptimization) s0,
             bind (lift (inr tt)) k s0 = k tt s0) by reflexivity.
  rewrite Hb.
  destruct (gather2_predictions_fail env sd _ Hinv') as (s' & Hg & Hc & _).
  rewrite (bind_raises _ _ _ _ (f_equal fst Hg)), Hg. cbn [fst snd].
  split; [intros k; rewrite Hc; apply Hinv | eexists; reflexivity].
Qed.

Lemma successes_all_fail {A} (outs : list (Res A)) :
  Forall (fun o => exists e, o = inl e) outs -> Stated.successes outs = [].
Proof.
  unfold Stated.successes.
  induction 1 as [|o outs [e ->] _ IH]; [reflexivity |].
  cbn [omap list_omap]. exact IH.
Qed.

(** X7.  On a service whose cache holds efficiency keys only (every service
    that started empty), [get_batch_predictions] returns one record per unit
    and every record reports a failure: [success] is [False], there is an
    error message and no predictions, whatever the readings and whether or
    not the estimators are trained. *)
Theorem batch_predictions_all_fail (env : Env) (units : list UnitData) (s : State) :
  only_efficiency_cached s ->
  exists records s',
    get_batch_predictions env units s = (inr records, s')
    /\ length records = length units
    /\ forall n record, records !! n = Some record ->
         br_success record = false
         /\ is_Some (br_error record)
         /\ br_prediction record = None.
Proof.
  intros Hinv. unfold get_batch_predictions.
  unfold bind at 1. unfold time_time at 1. unfold bind at 1.
  set (tasks := map _ units).
  destruct (gather_all_fail only_efficiency_cached tasks) with (s := set_tick (S (tick s)) s)
    as (outs & s1 & -> & Hlen & Hfail & _).
  { intros task Ht s0 Hs0. unfold tasks in Ht. apply in_map_iff in Ht.
    destruct Ht as (u & <- & _). apply _predict_unit_comprehensive_fails. exact Hs0. }
  { exact Hinv. }
  unfold tasks in Hlen. rewrite length_map in Hlen.
  destruct (process_results_spec env units outs 0 s1) as (records & s2 & Hrun & Hl & Hrec);
    [lia |].
  unfold bind at 1. rewrite Hrun. unfold bind, time_time, ret.
  exists records, (set_tick (S (tick s2)) s2). split; [reflexivity |].
  split; [congruence |].
  intros n record Hn.
  assert (Hlt : (n < length records)%nat) by (apply lookup_lt_is_Some; eauto).
  destruct (lookup_lt_is_Some_2 units n) as [u Hu]; [lia |].
  destruct (lookup_lt_is_Some_2 outs n) as [o Ho]; [lia |].
  destruct (Hrec n u o Hu Ho) as (record' & Hn' & _ & Hout).
  rewrite Hn in Hn'. injection Hn' as <-.
  rewrite Forall_lookup in Hfail. destruct (Hfail n o Ho) as [e ->].
  destruct Hout as (H1 & H2 & H3). rewrite H2. eauto.
Qed.

Lemma batch_predictions_all_fail_witness :
  exists records s',
    get_batch_predictions Demo.env Demo.units Demo.trained = (inr records, s')
    /\ length records = 2%nat
    /\ forall n record, records !! n = Some record ->
         br_success record = false
         /\ is_Some (br_error record)
         /\ br_prediction record = None.
Proof.
  apply (batch_predictions_all_fail Demo.env Demo.units Demo.trained).
  apply only_efficiency_cached_empty. reflexivity.
Defined.

(** X8.  On such a service [optimize_unit_comprehensive] never returns a
    result, and [optimize_network], given units that carry both keys,
    reports every unit as failed: no successful result, one failure record
    per unit. *)
Theorem network_optimization_all_fail (env : Env) (units : list UnitData)
    (strategy : string) (s : State) :
  only_efficiency_cached s ->
  Forall Stated.has_keys units ->
  (forall uid sd horizon,
      exists e, fst (optimize_unit_comprehensive env uid sd strategy horizon s) = inl e)
  /\ exists result s',
       optimize_network env units strategy s = (inr result, s')
       /\ total_units result = length units
       /\ results result = []
       /\ successful_optimizations result = 0%nat
       /\ failed_optimizations result = length units
       /\ map fst (failures result) = map (fun u => default "" (unit_id u)) units.
Proof.
  intros Hinv Hkeys. split.
  { intros uid sd horizon.
    apply (optimize_unit_comprehensive_fails env uid sd strategy horizon s Hinv). }
  unfold optimize_network.
  unfold bind at 1. unfold time_time at 1. unfold bind at 1.
  rewrite (create_tasks_ok env units strategy Hkeys). unfold lift at 1.
  set (tasks := map _ units).
  destruct (gather_all_fail only_efficiency_cached tasks) with (s := set_tick (S (tick s)) s)
    as (outs & s1 & Hrun & Hlen & Hfail & _).
  { intros task Ht s0 Hs0. unfold tasks in Ht. apply in_map_iff in Ht.
    destruct Ht as (u & <- & _). apply optimize_unit_comprehensive_fails. exact Hs0. }
  { exact Hinv. }
  unfold tasks in Hlen. rewrite length_map in Hlen.
  unfold bind at 1. rewrite Hrun.
  rewrite (partition_results_ok outs 0 Hkeys) by lia.
  rewrite (successes_all_fail outs Hfail). rewrite drop_0.
  unfold bind, lift, time_time, ret.
  eexists _, _. split; [reflexivity |].
  cbn [total_units results successful_optimizations failed_optimizations failures
       fst snd length].
  assert (Hmap : forall us (os : list (Res UnitOptimization)),
             length os = length us ->
             Forall (fun o => exists e, o = inl e) os ->
             map fst (Stated.failure_records us os)
             = map (fun u => default "" (unit_id u)) us).
  { unfold Stated.failure_records.
    induction us as [|u us IH]; intros [|o os] Hl Hf; try discriminate;
      [reflexivity |].
    apply Forall_cons in Hf. destruct Hf as [[e ->] Hf].
    cbn [zip zip_with omap list_omap fst snd map]. f_equal.
    apply IH; [cbn [length] in Hl; lia | exact Hf]. }
  split; [reflexivity |]. split; [reflexivity |]. split; [reflexivity |].
  split; [| apply Hmap; assumption].
  rewrite <- (length_map fst), (Hmap units outs Hlen Hfail), length_map. reflexivity.
Qed.

Lemma network_optimization_all_fail_witness :
  exists result s',
    optimize_network Demo.env Demo.units "balanced" Demo.trained = (inr result, s')
    /\ total_units result = 2%nat
    /\ results result = []
    /\ successful_optimizations result = 0%nat
    /\ failed_optimizations result = 2%nat
    /\ map fst (failures result) = ["CC-001"; "CC-002"].
Proof.
  refine (proj2 (network_optimization_all_fail Demo.env Demo.units "balanced"
                   Demo.trained _ _)).
  - apply only_efficiency_cached_empty. reflexivity.
  - repeat constructor; eexists; reflexivity.
Defined.

(** X9.  The standalone helpers build a new service for one call and so never
    answer: [predict_efficiency_standalone] raises the [ValueError] of an
    untrained efficiency estimator for every reading, having submitted the
    call to the pool and cached nothing; [predict_maintenance_standalone]
    raises [AttributeError]; [optimize_unit] raises for every unit, reading
    and strategy. *)
Theorem standalone_helpers_never_answer (env : Env) (sd : Reading) (uid strategy : string) :
  (fst (predict_efficiency_standalone env sd)
   = inl (ValueError "Efficiency model not trained. Please train the model first.")
   /\ submitted (snd (predict_efficiency_standalone env sd)) = ["predict_efficiency"]
   /\ prediction_cache (snd (predict_efficiency_standalone env sd)) = ∅)
  /\ fst (predict_maintenance_standalone env sd)
     = inl (AttributeError "'function' object has no attribute 'submit'")
  /\ exists e, fst (optimize_unit env uid sd strategy) = inl e.
Proof.
  split; [| split].
  - unfold predict_efficiency_standalone.
    destruct (predict_efficiency_miss env sd (init "1.0.0" true) eq_refl)
      as (s1 & Hs1 & ->).
    destruct Hs1 as [-> | ->];
      rewrite compute_efficiency_untrained by reflexivity;
      repeat split.
  - unfold predict_maintenance_standalone.
    apply predict_maintenance_always_raises.
    apply only_efficiency_cached_empty. reflexivity.
  - unfold optimize_unit. apply optimize_unit_comprehensive_fails.
    apply only_efficiency_cached_empty. reflexivity.
Qed.

End CompositeFacts.

(** ** The helpers of [CarbonCaptureOptimizer] *)

Module OptimizerFacts.
Import Py PyFacts ServiceFacts.
Local Open Scope Q_scope.

(** Case analysis on the comparisons of a goal. *)
Ltac compare_all :=
  repeat match goal with
         | |- context [Qgtb ?a ?b] =>
             let E := fresh "E" in
             destruct (Qgtb a b) eqn:E; [apply Qgtb_gt in E | apply Qgtb_le in E]
         | |- context [Qltb ?a ?b] =>
             let E := fresh "E" in
             destruct (Qltb a b) eqn:E; [apply Qltb_lt in E | apply Qltb_ge in E]
         end.

(** X11.  The alerts agree with the risk level.  When
    [_calculate_risk_level] answers critical, high or medium, the first
    alert of [_generate_maintenance_alerts] has that severity and carries
    the score as its probability; when it answers low, every alert is a
    sensor warning of medium severity.  There are at most three alerts, and
    one of severity critical exactly when the risk level is critical. *)
Theorem alerts_agree_with_risk_level (sd : Reading) (score : Q) :
  let level := Optimizer._calculate_risk_level score in
  let found := Optimizer._generate_maintenance_alerts sd score in
  In level ["critical"; "high"; "medium"; "low"]
  /\ (level <> "low" ->
      exists a rest, found = a :: rest /\ severity a = level /\ probability a = score
                     /\ Forall (fun b => alertType b = "warning" /\ severity b = "medium") rest)
  /\ (level = "low" ->
      Forall (fun b => alertType b = "warning" /\ severity b = "medium") found)
  /\ (length found <= 3)%nat
  /\ (level = "critical" <-> exists a, In a found /\ severity a = "critical").
Proof.
  cbv zeta. unfold Optimizer._calculate_risk_level, Optimizer._generate_maintenance_alerts.
  generalize (dict_get "vibration" 0 sd), (dict_get "motor_current" 0 sd).
  intros vib cur.
  destruct (Qgtb score (8 # 10)); [| destruct (Qgtb score (6 # 10));
                                     [| destruct (Qgtb score (4 # 10))]];
    destruct (Qgtb vib 3); destruct (Qgtb cur 20); cbn [app length In];
    (split; [auto 6 |]);
    (split; [intros Hl;
             first [ congruence
                   | eexists _, _; (split; [reflexivity |]); (split; [reflexivity |]);
                     (split; [reflexivity |]); repeat constructor ] |]);
    (split; [intros Hl; first [ discriminate | repeat constructor ] |]);
    (split; [lia |]);
    (split; [intros Hl;
             first [ discriminate
                   | eexists; split; [left; reflexivity | reflexivity] ]
            | intros [a [Ha Hs]];
              first [ reflexivity
                    | exfalso;
                      repeat (destruct Ha as [<- | Ha]; [discriminate Hs |]);
                      exact Ha ] ]).
Qed.

(** The result dictionary of [optimize_energy_usage] on numeric data. *)
Lemma optimize_energy_usage_result env od s ce rc gc rn cr :
  as_num (dict_get "energy_consumption" (VNum 0) od) = inr ce ->
  as_num (dict_get "renewable_capacity" (VNum 0) od) = inr rc ->
  as_num (dict_get "grid_cost_per_kwh" (VNum (12 # 100)) od) = inr gc ->
  as_num (dict_get "renewable_cost_per_kwh" (VNum (8 # 100)) od) = inr rn ->
  as_num (dict_get "current_renewable_usage" (VNum 0) od) = inr cr ->
  ~ ce == 0 ->
  exists r,
    Optimizer.optimize_energy_usage env od s
    = (inr (next_loc s),
       set_heap (<[next_loc s := {| payload := PEnergy r; processing_time_ms := None |}]>
                   (heap s))
                (S (next_loc s)) (set_tick (S (tick s)) s))
    /\ energy_savings r = min rc (ce * (8 # 10)) * (9 # 10)
    /\ cost_savings r = energy_savings r * (gc - rn)
    /\ renewable_usage r = min (cr + 20) 80
    /\ current_energy_consumption r = ce
    /\ optimization_potential r = energy_savings r / ce * 100.
Proof.
  intros H1 H2 H3 H4 H5 Hz.
  unfold Optimizer.optimize_energy_usage, Optimizer.num_field.
  cbv beta iota zeta delta [bind lift ret raise time_time alloc].
  rewrite H1, H2, H3, H4, H5.
  destruct (Qeq_bool ce 0) eqn:E; [apply Qeq_bool_iff in E; contradiction |].
  eexists. split; [reflexivity |]. repeat split.
Qed.

(** X15.  The operational data that [_extract_operational_data] builds from
    a reading never carry ['renewable_capacity'] or
    ['current_renewable_usage'].  So for a reading with positive
    ['energy_consumption'], [optimize_energy_usage] on these data returns a
    result with no savings at all (energy savings, cost savings and
    optimization potential 0) and the renewable target 20. *)
Theorem extracted_operational_data_save_nothing (env : Env) (sd : Reading) (s : State) :
  0 < dict_get "energy_consumption" 0 sd ->
  exists od s1 l s2 r,
    PredictionService._extract_operational_data env sd s = (inr od, s1)
    /\ dict_lookup "renewable_capacity" od = None
    /\ dict_lookup "current_renewable_usage" od = None
    /\ Optimizer.optimize_energy_usage env od s1 = (inr l, s2)
    /\ heap s2 !! l = Some {| payload := PEnergy r; processing_time_ms := None |}
    /\ energy_savings r == 0
    /\ cost_savings r == 0
    /\ optimization_potential r == 0
    /\ renewable_usage r = 20.
Proof.
  intros Hpos. unfold PredictionService._extract_operational_data. run.
  eexists _, _. 
  match goal with
  | |- exists l s2 r, (inr ?od, ?s1) = _ /\ _ =>
      destruct (optimize_energy_usage_result env od s1
                  (dict_get "energy_consumption" 0 sd) 0 (12 # 100) (8 # 100) 0)
        as (r & Hrun & Hes & Hcs & Hru & Hce & Hop);
        [reflexivity | reflexivity | reflexivity | reflexivity | reflexivity | lra |]
  end.
  eexists _, _, r. split; [reflexivity |].
  split; [reflexivity |]. split; [reflexivity |].
  split; [exact Hrun |].
  cbn [heap set_heap]. rewrite lookup_insert_eq. split; [reflexivity |].
  assert (Hz : energy_savings r == 0).
  { rewrite Hes. unfold min.
    revert Hpos. generalize (dict_get "energy_consumption" 0 sd). intros ce Hpos.
    compare_all; lra. }
  split; [exact Hz |].
  split; [rewrite Hcs, Hz; ring |].
  split; [rewrite Hop, Hz; unfold Qdiv; ring |].
  rewrite Hru. reflexivity.
Qed.

Lemma extracted_operational_data_save_nothing_witness :
  exists od s1 l s2 r,
    PredictionService._extract_operational_data Demo.env Demo.reading Demo.untrained
    = (inr od, s1)
    /\ dict_lookup "renewable_capacity" od = None
    /\ dict_lookup "current_renewable_usage" od = None
    /\ Optimizer.optimize_energy_usage Demo.env od s1 = (inr l, s2)
    /\ heap s2 !! l = Some {| payload := PEnergy r; processing_time_ms := None |}
    /\ energy_savings r == 0
    /\ cost_savings r == 0
    /\ optimization_potential r == 0
    /\ renewable_usage r = 20.
Proof.
  apply (extracted_operational_data_save_nothing Demo.env Demo.reading Demo.untrained).
  vm_compute. reflexivity.
Defined.

(** X16.  [get_model_health] reports healthy exactly when both estimators
    are loaded and no scaler is missing, and degraded otherwise (never
    anything else); it lists the two estimators in the order efficiency,
    maintenance, each marked loaded exactly when it is in
    [optimizer.models].  A newly constructed optimizer is degraded. *)
Theorem model_health_reports_loaded_models (env : Env) (scalers : list bool) (s : State) :
  exists h,
    Optimizer.get_model_health env scalers s = (inr h, set_tick (S (tick s)) s)
    /\ (Optimizer.overall_status h = "healthy"
        <-> Invariant.both_loaded s /\ forallb (fun b => b) scalers = true)
    /\ (Optimizer.overall_status h <> "healthy" -> Optimizer.overall_status h = "degraded")
    /\ keys (Optimizer.health_models h) = ["efficiency"; "maintenance"]
    /\ (forall name mh,
          dict_lookup name (Optimizer.health_models h) = Some mh ->
          (Optimizer.mh_loaded mh = true <-> is_Some (models s !! name))
          /\ (Optimizer.mh_status mh = "healthy" <-> is_Some (models s !! name)))
    /\ (models s = ∅ -> Optimizer.overall_status h = "degraded").
Proof.
  unfold Optimizer.get_model_health, Invariant.both_loaded. run.
  cbn [Optimizer.check_models].
  assert (Hsome : forall m : Model, is_Some (Some m)) by eauto.
  assert (Hnone : ~ is_Some (@None Model)) by (intros [? ?]; discriminate).
  destruct (models s !! "efficiency") as [m1|] eqn:E1;
    destruct (models s !! "maintenance") as [m2|] eqn:E2;
    destruct (forallb (fun b => b) scalers) eqn:Es;
    eexists; (split; [reflexivity |]);
    cbn [Optimizer.overall_status Optimizer.health_models keys map fst];
    (split; [split; [intros H; first [discriminate H | split; [split |]; eauto]
                    | intros [[H1 H2] H3];
                      first [reflexivity | discriminate | contradiction] ] |]);
    (split; [intros H; first [reflexivity | congruence] |]);
    (split; [reflexivity |]);
    (split; [| intros Hm; rewrite Hm, lookup_empty in E1;
               first [discriminate E1 | reflexivity]]);
    intros name mh Hl; cbn [dict_lookup] in Hl;
    (destruct (String.eqb_spec name "efficiency") as [-> | _];
     [| destruct (String.eqb_spec name "maintenance") as [-> | _]; [| discriminate Hl]]);
    injection Hl as <-; rewrite ?E1, ?E2;
    cbn [Optimizer.mh_loaded Optimizer.mh_status];
    split; split; intros H;
    first [reflexivity | discriminate H | contradiction | apply Hsome].
Qed.

End OptimizerFacts.

(** ** Plans, timelines and risks of [OptimizationService] *)

Module PlanFacts.
Import Py PyFacts OptimizationService ServiceFacts RecommendationFacts.
Import OptimizerFacts.
Local Open Scope Q_scope.

Lemma prioritized_unranked recs w :
  Permutation (map unranked (_prioritize_recommendations recs w)) (map unranked recs).
Proof.
  unfold _prioritize_recommendations. rewrite add_ranking_unranked.
  apply Permutation_map, sorted_perm.
Qed.

Lemma prioritized_length recs w :
  length (_prioritize_recommendations recs w) = length recs.
Proof.
  rewrite <- (length_map unranked), (Permutation_length (prioritized_unranked recs w)).
  apply length_map.
Qed.

Lemma prioritized_In recs w r :
  In r (_prioritize_recommendations recs w) ->
  exists r0, In r0 recs /\ unranked r = unranked r0.
Proof.
  intros Hin. apply (in_map unranked) in Hin.
  apply (Permutation_in _ (prioritized_unranked recs w)) in Hin.
  apply in_map_iff in Hin. destruct Hin as (r0 & Heq & Hin). eauto.
Qed.

(** X17.  Whatever the optimizer suggests for efficiency, the optimization
    service recommends too: the titles of [_generate_efficiency_suggestions]
    (thresholds 30, 60 and 1500) form a sublist of the titles of
    [_generate_efficiency_recommendations] (thresholds 28, 55 and 1300), in
    the same order; a reading without temperature, pressure and flow rate
    triggers neither. *)
Theorem optimizer_suggestions_are_recommended (sd : Reading) (prediction : Q)
    (efficiency_result : loc) (current : Q) :
  sublist (map sg_title (Optimizer._generate_efficiency_suggestions sd prediction))
          (map title (_generate_efficiency_recommendations sd efficiency_result current))
  /\ (dict_lookup "temperature" sd = None -> dict_lookup "pressure" sd = None ->
      dict_lookup "flow_rate" sd = None ->
      _generate_efficiency_recommendations sd efficiency_result current = []
      /\ Optimizer._generate_efficiency_suggestions sd prediction = []).
Proof.
  split.
  - unfold Optimizer._generate_efficiency_suggestions,
      _generate_efficiency_recommendations.
    generalize (dict_get "temperature" 25 sd), (dict_get "pressure" 50 sd),
      (dict_get "flow_rate" 1000 sd).
    intros t p f.
    assert (Ht : Qgtb t 30 = true -> Qgtb t 28 = true)
      by (rewrite !Qgtb_gt; intros; lra).
    assert (Hp : Qgtb p 60 = true -> Qgtb p 55 = true)
      by (rewrite !Qgtb_gt; intros; lra).
    assert (Hf : Qgtb f 1500 = true -> Qgtb f 1300 = true)
      by (rewrite !Qgtb_gt; intros; lra).
    destruct (Qgtb t 30); [rewrite Ht by reflexivity | destruct (Qgtb t 28)];
      (destruct (Qgtb p 60); [rewrite Hp by reflexivity | destruct (Qgtb p 55)]);
      (destruct (Qgtb f 1500); [rewrite Hf by reflexivity | destruct (Qgtb f 1300)]);
      cbn [app map sg_title title candidate];
      repeat first [ apply sublist_nil | apply sublist_skip; [] | apply sublist_cons ];
      repeat constructor.
  - intros Ht Hp Hf.
    unfold Optimizer._generate_efficiency_suggestions,
      _generate_efficiency_recommendations, dict_get.
    rewrite Ht, Hp, Hf. split; reflexivity.
Qed.

Lemma lay_out_spec (recs : list Recommendation) : forall now,
  map recommendation_id (lay_out now recs) = map rec_id recs
  /\ map duration_hours (lay_out now recs) = map time_to_implement recs
  /\ (forall e, lay_out now recs !! 0%nat = Some e -> start_time e = now)
  /\ (forall i a b, lay_out now recs !! i = Some a -> lay_out now recs !! S i = Some b ->
        start_time b = end_time a)
  /\ (forall e, In e (lay_out now recs) ->
        end_time e = start_time e + duration_hours e * 3600).
Proof.
  induction recs as [|r recs IH]; intros now; cbn [lay_out map].
  - repeat split; try discriminate. intros e [].
  - destruct (IH (now + time_to_implement r * 3600)) as (H1 & H2 & H3 & H4 & H5).
    split; [rewrite H1; reflexivity |]. split; [rewrite H2; reflexivity |].
    split; [intros e [= <-]; reflexivity |].
    split.
    + intros [|i] a b Ha Hb.
      * injection Ha as <-. cbn [end_time]. apply (H3 b Hb).
      * apply (H4 i a b Ha Hb).
    + intros e [<- | He]; [reflexivity | apply (H5 e He)].
Qed.

(** X18.  The implementation timeline lays the first five recommendations of
    the plan end to end: it starts at the time of the call, every entry
    starts when the one before it ends and lasts its recommendation's
    [time_to_implement] hours, and the entries carry the recommendations'
    ids in plan order.  The time horizon plays no part. *)
Theorem timeline_is_contiguous (env : Env) (plan : Plan) (horizon : Z) (s : State) :
  exists timeline,
    _calculate_implementation_timeline env plan horizon s
    = (inr timeline, set_tick (S (tick s)) s)
    /\ length timeline = Nat.min 5 (length (recommendations plan))
    /\ map recommendation_id timeline = map rec_id (take 5 (recommendations plan))
    /\ map duration_hours timeline
       = map time_to_implement (take 5 (recommendations plan))
    /\ (forall e, timeline !! 0%nat = Some e -> start_time e = clk env (tick s))
    /\ (forall i a b, timeline !! i = Some a -> timeline !! S i = Some b ->
          start_time b = end_time a)
    /\ (forall e, In e timeline -> end_time e = start_time e + duration_hours e * 3600).
Proof.
  unfold _calculate_implementation_timeline. run.
  eexists. split; [reflexivity |].
  destruct (lay_out_spec (take 5 (recommendations plan)) (clk env (tick s)))
    as (H1 & H2 & H3 & H4 & H5).
  split.
  { rewrite <- (length_map recommendation_id), H1, length_map, length_take. reflexivity. }
  repeat split; assumption.
Qed.

(** X19.  What the optimizer's alerts become.  For a maintenance result
    built from a reading and a score as [predict_maintenance] builds it, the
    maintenance recommendations are: the vibration work if the vibration
    alert fired, the electrical work if the motor current alert fired, and
    the preventive maintenance if the last maintenance is more than 180 days
    back.  The alert of the score itself, even a critical one, adds no
    recommendation. *)
Theorem sensor_alerts_become_maintenance_work (sd : Reading) (score next now : Q)
    (version : string) (t : option Q) :
  let maintenance_result :=
    {| payload :=
         PMaint {| maintenance_score := score;
                   alerts := Optimizer._generate_maintenance_alerts sd score;
                   next_maintenance_date := next;
                   mnt_risk_level := Optimizer._calculate_risk_level score;
                   mnt_model_version := version;
                   mnt_timestamp := now |};
       processing_time_ms := t |} in
  let found := _generate_maintenance_recommendations sd (Some maintenance_result) in
  map rec_id found
  = (if Qgtb (dict_get "vibration" 0 sd) 3 then ["vibration_maintenance"] else [])
    ++ (if Qgtb (dict_get "motor_current" 0 sd) 20 then ["electrical_maintenance"] else [])
    ++ (if Qgtb (dict_get "maintenance_days_since" 0 sd) 180
        then ["preventive_maintenance"] else [])
  /\ Forall (fun r => category r = "maintenance") found
  /\ (length found <= 3)%nat.
Proof.
  cbv zeta. unfold _generate_maintenance_recommendations.
  cbn [get_alerts payload alerts]. unfold Optimizer._generate_maintenance_alerts.
  generalize (dict_get "vibration" 0 sd), (dict_get "motor_current" 0 sd),
    (dict_get "maintenance_days_since" 0 sd).
  intros vib cur since.
  destruct (Qgtb score (8 # 10)); [| destruct (Qgtb score (6 # 10));
                                     [| destruct (Qgtb score (4 # 10))]];
    destruct (Qgtb vib 3); destruct (Qgtb cur 20); destruct (Qgtb since 180);
    vm_compute; (split; [reflexivity |]); (split; [repeat constructor | lia]).
Qed.

(** The plan, as a function of the three generators. *)
Lemma plan_shape env uid sd e m en strategy th s plan s' t :
  dict_lookup strategy _load_optimization_templates = Some t ->
  _generate_optimization_plan env uid sd e m en strategy th s = (inr plan, s') ->
  exists score es ru hour,
    index_maintenance_score (heap s !! m) = inr score
    /\ strategy_applied plan = strategy
    /\ implementation_priority plan
       = _calculate_implementation_priority (recommendations plan) score
    /\ recommendations plan
       = _prioritize_recommendations
           (_apply_strategy_constraints
              ((if Qgtb (w_efficiency (priority_weights t)) (3 # 10)
                then _generate_efficiency_recommendations sd e
                       (dict_get "efficiency_current" 80 sd)
                else [])
               ++ (if Qgtb (w_energy_savings (priority_weights t)) (3 # 10)
                   then energy_recommendations es ru hour else [])
               ++ (if Qgtb (w_maintenance_risk (priority_weights t)) (3 # 10)
                   then _generate_maintenance_recommendations sd (heap s !! m)
                   else []))
              (constraints t) sd)
           (priority_weights t).
Proof.
  intros Ht. unfold _generate_optimization_plan, _generate_energy_recommendations.
  cbv beta iota zeta delta [bind lift ret raise get_state datetime_now_hour time_time].
  rewrite Ht.
  destruct (index_predicted_efficiency (heap s !! e)); [discriminate |].
  destruct (index_maintenance_score (heap s !! m)) as [|score]; [discriminate |].
  destruct (index_energy_savings (heap s !! en)); [discriminate |].
  destruct (Qgtb (w_energy_savings (priority_weights t)) (3 # 10));
    intros [= <- _]; exists score; eexists _, _, _;
    (split; [reflexivity |]); (split; [reflexivity |]); (split; [reflexivity |]);
    cbn [recommendations]; reflexivity.
Unshelve. all: first [exact 0 | exact 0%Z].
Qed.

Lemma efficiency_recommendations_shape sd e c :
  Forall (fun r => category r = "efficiency") (_generate_efficiency_recommendations sd e c)
  /\ (length (_generate_efficiency_recommendations sd e c) <= 3)%nat.
Proof.
  unfold _generate_efficiency_recommendations.
  destruct (Qgtb _ 28); destruct (Qgtb _ 55); destruct (Qgtb _ 1300);
    cbn [app length]; (split; [repeat constructor | lia]).
Qed.

Lemma energy_recommendations_over_50 es ru hour (cs : Dict Q) :
  cs = [("max_efficiency_decrease", 1 # 100); ("min_energy_savings", 50)] ->
  Forall (fun r => rec_id r = "renewable_shift")
    (List.filter (constraint_valid cs) (energy_recommendations es ru hour))
  /\ (length (List.filter (constraint_valid cs) (energy_recommendations es ru hour))
      <= 1)%nat.
Proof.
  intros ->. unfold energy_recommendations.
  destruct (Qltb ru 70); destruct (existsb _ peak_hours); cbn [app List.filter];
    try match goal with
        | |- context [constraint_valid ?cs (candidate "peak_shaving" ?a ?b ?c ?d ?f ?g ?h)] =>
            change (constraint_valid cs (candidate "peak_shaving" a b c d f g h)) with false
        end;
    try match goal with
        | |- context [constraint_valid ?cs ?r] => destruct (constraint_valid cs r)
        end;
    cbn [length]; (split; [repeat constructor | lia]).
Qed.

Lemma Forall_unranked (P : Recommendation -> Prop) recs w :
  (forall r r0, unranked r = unranked r0 -> P r0 -> P r) ->
  Forall P recs -> Forall P (_prioritize_recommendations recs w).
Proof.
  intros Hcompat Hall. apply List.Forall_forall. intros r Hin.
  destruct (prioritized_In recs w r Hin) as (r0 & Hin0 & Heq).
  apply (Hcompat r r0 Heq). rewrite List.Forall_forall in Hall. apply Hall, Hin0.
Qed.

Lemma Forall_filter_weaken {A} (P : A -> Prop) (f : A -> bool) l :
  Forall P l -> Forall P (List.filter f l).
Proof.
  rewrite !List.Forall_forall. intros H x Hx. apply filter_In in Hx. apply H, Hx.
Qed.

Lemma length_filter_le {A} (f : A -> bool) l :
  (length (List.filter f l) <= length l)%nat.
Proof. induction l as [|a l IH]; cbn; [lia |]. destruct (f a); cbn; lia. Qed.

Lemma category_unranked r r0 : unranked r = unranked r0 -> category r = category r0.
Proof. intros H. apply (f_equal category) in H. exact H. Qed.

Lemma rec_id_unranked r r0 : unranked r = unranked r0 -> rec_id r = rec_id r0.
Proof. intros H. apply (f_equal rec_id) in H. exact H. Qed.

Lemma priority_of_short_plans recs score :
  (length recs <= 3)%nat ->
  _calculate_implementation_priority recs score = Optimizer._calculate_risk_level score.
Proof.
  intros Hlen. unfold _calculate_implementation_priority, Optimizer._calculate_risk_level.
  replace (Nat.ltb 3 (length recs)) with false
    by (symmetry; apply Nat.ltb_ge; exact Hlen).
  rewrite orb_false_r. reflexivity.
Qed.

Lemma maintenance_recommendations_category sd o :
  Forall (fun r => category r = "maintenance") (_generate_maintenance_recommendations sd o).
Proof.
  unfold _generate_maintenance_recommendations. apply Forall_app. split.
  - induction (get_alerts o []) as [|a l IH]; cbn [map concat]; [constructor |].
    apply Forall_app. split; [| exact IH].
    unfold alert_recommendations.
    destruct (String.eqb _ "warning"); [| constructor].
    destruct (contains "vibration" _); [repeat constructor |].
    destruct (contains "current" _); repeat constructor.
  - destruct (Qgtb _ 180); repeat constructor.
Qed.

(** X20.  The strategy decides which generators feed the plan.  Under
    [efficiency_focused] only the efficiency generator runs (the weight 0.3
    of energy savings is not above 0.3), so the plan has at most three
    recommendations, all of category efficiency; under [energy_efficient]
    only the energy generator runs and the minimum of 50 drops the peak
    shaving candidate (45), so the plan holds at most the renewable shift;
    under [maintenance_prioritized] only maintenance recommendations
    appear.  Under the first two the implementation priority is the risk
    level of the maintenance score. *)
Theorem strategy_selects_the_generators (env : Env) (uid : string) (sd : Reading)
    (e m g : loc) (strategy : string) (horizon : Z) (s s' : State) (plan : Plan) :
  _generate_optimization_plan env uid sd e m g strategy horizon s = (inr plan, s') ->
  strategy_applied plan = strategy
  /\ (strategy = "efficiency_focused" ->
      Forall (fun r => category r = "efficiency") (recommendations plan)
      /\ (length (recommendations plan) <= 3)%nat)
  /\ (strategy = "energy_efficient" ->
      Forall (fun r => rec_id r = "renewable_shift") (recommendations plan)
      /\ (length (recommendations plan) <= 1)%nat)
  /\ (strategy = "maintenance_prioritized" ->
      Forall (fun r => category r = "maintenance") (recommendations plan))
  /\ (strategy = "efficiency_focused" \/ strategy = "energy_efficient" ->
      exists score,
        index_maintenance_score (heap s !! m) = inr score
        /\ implementation_priority plan = Optimizer._calculate_risk_level score).
Proof.
  intros Hrun.
  assert (Heff : strategy = "efficiency_focused" ->
                 Forall (fun r => category r = "efficiency") (recommendations plan)
                 /\ (length (recommendations plan) <= 3)%nat
                 /\ exists score,
                      index_maintenance_score (heap s !! m) = inr score
                      /\ implementation_priority plan
                         = _calculate_implementation_priority (recommendations plan) score).
  { intros ->.
    destruct (plan_shape env uid sd e m g "efficiency_focused" horizon s plan s' _ eq_refl Hrun)
      as (score & es & ru & hour & Hs & _ & Hp & Hr).
    change (Qgtb (w_efficiency _) (3 # 10)) with true in Hr.
    change (Qgtb (w_energy_savings _) (3 # 10)) with false in Hr.
    change (Qgtb (w_maintenance_risk _) (3 # 10)) with false in Hr.
    rewrite !app_nil_r in Hr.
    destruct (efficiency_recommendations_shape sd e (dict_get "efficiency_current" 80 sd))
      as [Hcat Hlen].
    split; [| split; [| eauto]].
    - rewrite Hr. apply Forall_unranked.
      + intros r r0 Heq <-. apply category_unranked, Heq.
      + apply Forall_filter_weaken, Hcat.
    - rewrite Hr, prioritized_length. unfold _apply_strategy_constraints.
      etransitivity; [apply length_filter_le | exact Hlen]. }
  assert (Hen : strategy = "energy_efficient" ->
                Forall (fun r => rec_id r = "renewable_shift") (recommendations plan)
                /\ (length (recommendations plan) <= 1)%nat
                /\ exists score,
                     index_maintenance_score (heap s !! m) = inr score
                     /\ implementation_priority plan
                        = _calculate_implementation_priority (recommendations plan) score).
  { intros ->.
    destruct (plan_shape env uid sd e m g "energy_efficient" horizon s plan s' _ eq_refl Hrun)
      as (score & es & ru & hour & Hs & _ & Hp & Hr).
    change (Qgtb (w_efficiency _) (3 # 10)) with false in Hr.
    change (Qgtb (w_energy_savings _) (3 # 10)) with true in Hr.
    change (Qgtb (w_maintenance_risk _) (3 # 10)) with false in Hr.
    rewrite app_nil_r in Hr. cbn [app] in Hr.
    destruct (energy_recommendations_over_50 es ru hour _ eq_refl) as [Hid Hlen].
    split; [| split; [| eauto]].
    - rewrite Hr. apply Forall_unranked.
      + intros r r0 Heq <-. apply rec_id_unranked, Heq.
      + exact Hid.
    - rewrite Hr, prioritized_length. exact Hlen. }
  split.
  { destruct (dict_lookup strategy _load_optimization_templates) as [t|] eqn:Ht.
    - destruct (plan_shape env uid sd e m g _ horizon s plan s' t Ht Hrun)
        as (score & es & ru & hour & _ & Hsa & _). exact Hsa.
    - unfold _generate_optimization_plan in Hrun.
      cbv beta iota zeta delta [bind raise] in Hrun. rewrite Ht in Hrun. discriminate. }
  split; [intros H; destruct (Heff H) as (H1 & H2 & _); auto |].
  split; [intros H; destruct (Hen H) as (H1 & H2 & _); auto |].
  split.
  - intros ->.
    destruct (plan_shape env uid sd e m g "maintenance_prioritized" horizon s plan s' _ eq_refl Hrun)
      as (score & es & ru & hour & Hs & _ & Hp & Hr).
    change (Qgtb (w_efficiency _) (3 # 10)) with false in Hr.
    change (Qgtb (w_energy_savings _) (3 # 10)) with false in Hr.
    change (Qgtb (w_maintenance_risk _) (3 # 10)) with true in Hr.
    cbn [app] in Hr.
    rewrite Hr. apply Forall_unranked.
    + intros r r0 Heq <-. apply category_unranked, Heq.
    + apply Forall_filter_weaken, maintenance_recommendations_category.
  - intros [H | H]; [destruct (Heff H) as (_ & Hl & score & Hs & Hp)
                    | destruct (Hen H) as (_ & Hl & score & Hs & Hp)];
      exists score; (split; [exact Hs |]); rewrite Hp;
      apply priority_of_short_plans; lia.
Qed.

Lemma strategy_selects_the_generators_witness :
  exists plan,
    fst (_generate_optimization_plan Demo.env "CC-001" Demo.hot_reading 0%nat 1%nat 2%nat
           "efficiency_focused" 24 Demo.with_results) = inr plan
    /\ Forall (fun r => category r = "efficiency") (recommendations plan)
    /\ (length (recommendations plan) <= 3)%nat.
Proof.
  destruct (_generate_optimization_plan Demo.env "CC-001" Demo.hot_reading 0%nat 1%nat
              2%nat "efficiency_focused" 24 Demo.with_results) as [[err | plan] s'] eqn:E;
    [vm_compute in E; discriminate |].
  exists plan. split; [reflexivity |].
  exact (proj1 (proj2 (strategy_selects_the_generators _ _ _ _ _ _ _ _ _ _ _ E)) eq_refl).
Defined.

(** X21.  The risk assessment of a plan adds 0.3 for a maintenance score
    above 0.7, 0.2 for more than two high-risk recommendations, 0.2 for a
    total cost above 10000, 0.1 for more than 72 hours of work and 0.2 for a
    unit older than 2000 days.  The score lies between 0 and 1; the level is
    low exactly when the maintenance factor is absent and at most one other
    factor is present, and high whenever the maintenance factor comes with
    two others.  Without a maintenance score the call raises [KeyError]. *)
Theorem risk_level_counts_the_factors (plan : Plan) (sd : Reading)
    (mr : MaintenanceResult) (t : option Q) :
  exists ra,
    _assess_optimization_risks plan sd
      (Some {| payload := PMaint mr; processing_time_ms := t |}) = inr ra
    /\ 0 <= risk_score ra /\ risk_score ra <= 1
    /\ (overall_risk_level ra = "low"
        <-> rf_maintenance_risk ra = false
            /\ (length (List.filter (fun b : bool => b)
                          [ rf_implementation_complexity ra; rf_high_cost ra;
                            rf_long_implementation ra; rf_old_equipment ra ]) <= 1)%nat)
    /\ (rf_maintenance_risk ra = true ->
        (2 <= length (List.filter (fun b : bool => b)
                        [ rf_implementation_complexity ra; rf_high_cost ra;
                          rf_long_implementation ra; rf_old_equipment ra ]))%nat ->
        overall_risk_level ra = "high")
    /\ _assess_optimization_risks plan sd None = inl (KeyError "maintenance_score").
Proof.
  unfold _assess_optimization_risks. cbn [index_maintenance_score payload].
  eexists. split; [reflexivity |].
  cbn [risk_score overall_risk_level rf_maintenance_risk rf_implementation_complexity
       rf_high_cost rf_long_implementation rf_old_equipment].
  destruct (Qgtb (maintenance_score mr) (7 # 10));
    destruct (Nat.ltb 2 _); destruct (Qgtb (sum_of cost _) 10000);
    destruct (Qgtb (sum_of time_to_implement _) 72);
    destruct (Qgtb (dict_get "unit_age_days" 0 sd) 2000);
    cbn [List.filter length];
    (split; [vm_compute; discriminate |]);
    (split; [vm_compute; discriminate |]);
    (split; [split; [intros H; first [discriminate H | split; [reflexivity | lia]]
                    | intros [H1 H2]; first [reflexivity | discriminate H1 | lia]] |]);
    (split; [intros H1 H2; first [reflexivity | discriminate H1 | lia] | reflexivity]).
Qed.

(** X22.  The comprehensive score of a unit is the rounding of a total of at
    most 100: up to 40 for the predicted efficiency, 30, 20 or 10 for the
    maintenance risk level, up to 30 for the energy savings; the total is at
    least 10 when the predicted efficiency and the savings are not negative,
    and the state is left unchanged. *)
Theorem comprehensive_score_is_at_most_100 (env : Env) (e m g : loc) (s : State) :
  exists total,
    PredictionService._calculate_comprehensive_score env e m g s
    = (inr (py_round2 env total), s)
    /\ total <= 100
    /\ (0 <= PredictionService.get_predicted_efficiency (heap s !! e) 80 ->
        0 <= PredictionService.get_energy_savings (heap s !! g) 0 ->
        10 <= total)
    /\ (100 <= PredictionService.get_predicted_efficiency (heap s !! e) 80 ->
        PredictionService.get_risk_level (heap s !! m) "medium" = "low" ->
        100 <= PredictionService.get_energy_savings (heap s !! g) 0 ->
        total == 100).
Proof.
  unfold PredictionService._calculate_comprehensive_score. run.
  eexists. split; [reflexivity |].
  generalize (PredictionService.get_predicted_efficiency (heap s !! e) 80),
    (PredictionService.get_energy_savings (heap s !! g) 0),
    (PredictionService.get_risk_level (heap s !! m) "medium").
  intros pe es level. unfold Qdiv. change (/ 100) with (1 # 100). unfold min.
  split; [| split].
  - destruct (String.eqb level "low"); [| destruct (String.eqb level "medium")];
      compare_all; lra.
  - intros Hpe Hes.
    destruct (String.eqb level "low"); [| destruct (String.eqb level "medium")];
      compare_all; lra.
  - intros Hpe -> Hes. cbn [String.eqb Ascii.eqb Bool.eqb].
    compare_all; lra.
Qed.





End PlanFacts.
